(** * The self-extracting SDK installer (meta/files/toolchain-pyz-extract.py)

    A shallow embedding of the installer script and the properties of its
    extraction and relocation pipeline.

    Conventions of the embedding:
    - a Python [str] is a [string]; a character is a code point below 256;
    - a Python [int] is a [Z];
    - the file system is a finite map from absolute path names to nodes;
      the text of a file is the text that a reader in text mode gets, so
      the translation of line ends by the text layer is not part of it;
    - the installer runs in a monad of state and exceptions; the state is
      the file system, the terminal and the record of the calls that
      change the file system;
    - what the installer asks of its environment (the probes of the host,
      the shell that runs the hooks, the paths the host refuses to
      change, the build-time constants and the members of the archive)
      is a parameter of the run;
    - the external program [sort] and the library calls [tf.extract],
      [shutil.move] and [glob.glob] are modelled next to the code that
      calls them;
    - [logging] calls write to the log stream only and are left out. *)

From Stdlib Require Import ZArith Lia Ascii String.
From stdpp Require Import gmap strings list fin_maps sorting.

Local Open Scope Z_scope.

(** ** Python string primitives *)

Module PyStr.

Definition code (c : ascii) : N := N_of_ascii c.

(** [str.isspace] on one code point below 256; the class [\s] of [re]
    on a [str] pattern is the same set. *)
Definition is_space (c : ascii) : bool :=
  let n := code c in
  ((9 <=? n) && (n <=? 13) || (28 <=? n) && (n <=? 32)
   || (n =? 133) || (n =? 160))%N.

Definition is_digit (c : ascii) : bool :=
  let n := code c in ((48 <=? n) && (n <=? 57))%N.

Definition is_alpha (c : ascii) : bool :=
  let n := code c in
  ((65 <=? n) && (n <=? 90) || (97 <=? n) && (n <=? 122))%N.

(** [str.lower] on one code point below 256. *)
Definition lower_char (c : ascii) : ascii :=
  let n := code c in
  if ((65 <=? n) && (n <=? 90)
      || (192 <=? n) && (n <=? 222) && negb (n =? 215))%N
  then ascii_of_N (n + 32) else c.

Fixpoint lower (s : string) : string :=
  match s with
  | EmptyString => EmptyString
  | String c s' => String (lower_char c) (lower s')
  end.

Fixpoint lstrip (s : string) : string :=
  match s with
  | EmptyString => EmptyString
  | String c s' => if is_space c then lstrip s' else s
  end.

(** [s.rstrip()]: a character is dropped when it is white space and
    everything after it was dropped too. *)
Fixpoint rstrip (s : string) : string :=
  match s with
  | EmptyString => EmptyString
  | String c s' =>
      match rstrip s' with
      | EmptyString => if is_space c then EmptyString else String c EmptyString
      | r => String c r
      end
  end.

Definition strip (s : string) : string := rstrip (lstrip s).

Fixpoint all_space (s : string) : bool :=
  match s with
  | EmptyString => true
  | String c r => is_space c && all_space r
  end.

Definition startswith (s p : string) : bool := String.prefix p s.

Fixpoint last_char (s : string) : option ascii :=
  match s with
  | EmptyString => None
  | String c EmptyString => Some c
  | String _ s' => last_char s'
  end.

(** [needle in hay] *)
Fixpoint str_in (needle hay : string) : bool :=
  String.prefix needle hay
  || match hay with
     | EmptyString => false
     | String _ hay' => str_in needle hay'
     end.

(** Left-to-right substitution of non-overlapping matches, shared by
    [str.replace] and [re.sub] with a fixed-width pattern: [matches]
    tells whether a match starts at the head of a string, [width] is
    its length (at least one), and [skip] counts the characters of the
    current match still to be passed over. *)
Fixpoint subst_from (matches : string -> bool) (width : nat)
    (new : string) (skip : nat) (s : string) : string :=
  match s with
  | EmptyString => EmptyString
  | String c s' =>
      match skip with
      | S k => subst_from matches width new k s'
      | O =>
          if matches s
          then new +:+ subst_from matches width new (width - 1) s'
          else String c (subst_from matches width new 0 s')
      end
  end.

(** [s.replace("", new)] puts [new] before every character and at the end. *)
Fixpoint intersperse_str (new s : string) : string :=
  match s with
  | EmptyString => new
  | String c s' => new +:+ String c (intersperse_str new s')
  end.

Definition str_replace (old new s : string) : string :=
  match old with
  | EmptyString => intersperse_str new s
  | _ => subst_from (String.prefix old) (String.length old) new 0 s
  end.

(** A match of a sequence of character classes at the head of [s]. *)
Fixpoint match_classes (pat : list (ascii -> bool)) (s : string) : bool :=
  match pat, s with
  | [], _ => true
  | p :: pat', String c s' => p c && match_classes pat' s'
  | _ :: _, EmptyString => false
  end.

(** [re.sub(pat, new, s)] for a pattern that is a non-empty sequence of
    single-character classes. *)
Definition re_sub (pat : list (ascii -> bool)) (new s : string) : string :=
  subst_from (match_classes pat) (List.length pat) new 0 s.

Definition chr (c : ascii) : ascii -> bool := Ascii.eqb c.
Definition between (lo hi : ascii) (c : ascii) : bool :=
  ((code lo <=? code c) && (code c <=? code hi))%N.
Definition one_of (a b : ascii) (c : ascii) : bool :=
  Ascii.eqb a c || Ascii.eqb b c.

(** ["c" * n] *)
Definition str_mul (c : ascii) (n : Z) : string :=
  string_of_list_ascii (repeat c (Z.to_nat n)).

Definition newline : ascii := ascii_of_N 10.

(** The lines of a text as iteration over a text-mode file yields them:
    each line keeps its terminating newline, the last one may lack it. *)
Fixpoint lines_from (cur : string -> string) (s : string) : list string :=
  match s with
  | EmptyString =>
      match cur EmptyString with
      | EmptyString => []
      | l => [l]
      end
  | String c s' =>
      if Ascii.eqb c newline
      then cur (String c EmptyString) :: lines_from (fun r => r) s'
      else lines_from (fun r => cur (String c r)) s'
  end.

Definition readlines (s : string) : list string := lines_from (fun r => r) s.

Fixpoint concat (ls : list string) : string :=
  match ls with
  | [] => EmptyString
  | l :: ls' => l +:+ concat ls'
  end.

(** A stable sort by insertion, for [sorted] and for the external
    [sort]. *)
Fixpoint insert_by (le : string -> string -> bool) (x : string)
    (l : list string) : list string :=
  match l with
  | [] => [x]
  | y :: l' => if le x y then x :: l else y :: insert_by le x l'
  end.

Definition sort_by (le : string -> string -> bool) (l : list string)
    : list string :=
  foldr (insert_by le) [] l.

(** [sorted(l)] on strings: the order of code points. *)
Definition sorted (l : list string) : list string := sort_by String.leb l.

(** The double quote. *)
Definition dq : string := String (ascii_of_N 34) EmptyString.

(** [str(b)] *)
Definition str_bool (b : bool) : string := if b then "True" else "False".

(** [any(s in name for s in fragments)] over a Python set. *)
Definition any_in (fragments : gset string) (name : string) : bool :=
  existsb (fun s => str_in s name) (elements fragments).

End PyStr.

(** ** prompt_bool (lines 57-65)

    [input] is the reply of the terminal: [None] when [input()] raises
    [EOFError], otherwise the line typed, without its newline. *)
Definition prompt_bool (input : option string) (default : bool) : bool :=
  match input with
  | None => default
  | Some user_input =>
      match user_input with
      | EmptyString => default
      | _ => String.eqb (PyStr.strip (PyStr.lower user_input)) "y"
      end
  end.

(** ** Exceptions and results *)

Inductive exn :=
| IndexError | UnboundLocalError | PermissionError | FileNotFoundError
| IsADirectoryError | FileExistsError | TooManyLinks | CalledProcessError
| Unmodelled.

Inductive result (A : Type) :=
| Ok (a : A)
| Raise (e : exn).
Arguments Ok {A} a.
Arguments Raise {A} e.

#[global] Instance result_ret : MRet result := fun A a => Ok a.
#[global] Instance result_bind : MBind result := fun A B f m =>
  match m with
  | Ok a => f a
  | Raise e => Raise e
  end.

#[global] Instance exn_eq_dec : EqDecision exn.
Proof. solve_decision. Defined.

(** ** Version comparison (lines 126-140)

    [ver_lteq] pipes its two arguments through the external program
    [sort -V].  The program is modelled after the version sort of GNU
    coreutils: [verrevcmp] compares alternating runs of non-digits and
    digits, [filevercmp] adds the special cases for empty names, leading
    dots and file suffixes, and ties are broken by comparing bytes. *)

Module VersionSort.
Import PyStr.

Definition tilde : ascii := ascii_of_N 126.
Definition dot : ascii := ascii_of_N 46.
Definition zero : ascii := ascii_of_N 48.

Definition order (c : ascii) : Z :=
  if is_digit c then 0
  else if is_alpha c then Z.of_N (code c)
  else if Ascii.eqb c tilde then -1
  else Z.of_N (code c) + 256.

Definition order_at (s : string) : Z :=
  match s with
  | EmptyString => 0
  | String c _ => order c
  end.

Definition at_digit (s : string) : bool :=
  match s with
  | EmptyString => false
  | String c _ => is_digit c
  end.

Definition at_nondigit (s : string) : bool :=
  match s with
  | EmptyString => false
  | String c _ => negb (is_digit c)
  end.

(** The run of non-digits: the first difference decides, otherwise
    what is left of both strings. *)
Fixpoint cmp_text (s1 s2 : string) : Z + string * string :=
  if at_nondigit s1 || at_nondigit s2 then
    if order_at s1 =? order_at s2 then
      match s1, s2 with
      | String _ r1, String _ r2 => cmp_text r1 r2
      | _, _ => inr (s1, s2)
      end
    else inl (order_at s1 - order_at s2)
  else inr (s1, s2).

Fixpoint skip_zeros (s : string) : string :=
  match s with
  | String c r => if Ascii.eqb c zero then skip_zeros r else s
  | EmptyString => s
  end.

(** The common part of two runs of digits, remembering the first
    difference. *)
Fixpoint cmp_digits (first_diff : Z) (s1 s2 : string) : Z * string * string :=
  match s1, s2 with
  | String c1 r1, String c2 r2 =>
      if is_digit c1 && is_digit c2
      then cmp_digits (if first_diff =? 0
                       then Z.of_N (code c1) - Z.of_N (code c2)
                       else first_diff) r1 r2
      else (first_diff, s1, s2)
  | _, _ => (first_diff, s1, s2)
  end.

Fixpoint verrevcmp_loop (fuel : nat) (s1 s2 : string) : Z :=
  match fuel with
  | O => 0
  | S fuel' =>
      match s1, s2 with
      | EmptyString, EmptyString => 0
      | _, _ =>
          match cmp_text s1 s2 with
          | inl d => d
          | inr (t1, t2) =>
              let '(first_diff, u1, u2) :=
                cmp_digits 0 (skip_zeros t1) (skip_zeros t2) in
              if at_digit u1 then 1
              else if at_digit u2 then -1
              else if negb (first_diff =? 0) then first_diff
              else verrevcmp_loop fuel' u1 u2
          end
      end
  end.

(** Every round of the loop consumes a character, so the lengths bound
    the number of rounds. *)
Definition verrevcmp (s1 s2 : string) : Z :=
  verrevcmp_loop (S (String.length s1 + String.length s2)) s1 s2.

(** Length of a name without its file suffixes: the longest final
    sequence of groups made of a dot, a letter or tilde, and then
    letters, digits and tildes. *)
Fixpoint prefixlen_from (in_suffix : bool) (i p : nat) (s : string) : nat :=
  match s with
  | EmptyString => p
  | String c r =>
      let plain :=
        if in_suffix && (is_alpha c || is_digit c || Ascii.eqb c tilde)
        then prefixlen_from true (S i) p r
        else prefixlen_from false (S i) (S i) r in
      if Ascii.eqb c dot then
        match r with
        | String c2 r2 =>
            if is_alpha c2 || Ascii.eqb c2 tilde
            then prefixlen_from true (S (S i)) p r2
            else plain
        | EmptyString => plain
        end
      else plain
  end.

Definition file_prefixlen (s : string) : nat :=
  match s with
  | EmptyString => O
  | String _ r => prefixlen_from false 1 1 r
  end.

Definition file_prefix (s : string) : string :=
  String.substring 0 (file_prefixlen s) s.

Definition filevercmp (a b : string) : Z :=
  match a, b with
  | EmptyString, EmptyString => 0
  | EmptyString, _ => -1
  | _, EmptyString => 1
  | String a0 a', String b0 b' =>
      let versions :=
        let r := verrevcmp (file_prefix a) (file_prefix b) in
        if negb (r =? 0) then r else verrevcmp a b in
      if Ascii.eqb a0 dot then
        if negb (Ascii.eqb b0 dot) then -1
        else if String.eqb a "." then (if String.eqb b "." then 0 else -1)
        else if String.eqb b "." then 1
        else if String.eqb a ".." then (if String.eqb b ".." then 0 else -1)
        else if String.eqb b ".." then 1
        else versions
      else if Ascii.eqb b0 dot then 1
      else versions
  end.

(** The order of two lines in the output: the version comparison, then
    the bytes. *)
Definition line_le (a b : string) : bool :=
  let d := filevercmp a b in
  if d <? 0 then true else if 0 <? d then false else String.leb a b.

Definition sort_lines (l : list string) : list string :=
  sort_by line_le l.

(** The lines [sort] reads: split at newlines, a last line without
    newline counts when it is not empty. *)
Definition input_lines (text : string) : list string :=
  map (fun l => match last_char l with
                | Some c => if Ascii.eqb c newline
                            then String.substring 0 (String.length l - 1) l
                            else l
                | None => l
                end) (readlines text).

(** Standard output of [sort -V] given [text] on standard input. *)
Definition sort_V (text : string) : string :=
  PyStr.concat (map (fun l => l +:+ String newline EmptyString)
                    (sort_lines (input_lines text))).

End VersionSort.

(** [str.splitlines()]: the boundaries below code point 256. *)
Definition is_line_boundary (c : ascii) : bool :=
  let n := PyStr.code c in
  ((10 <=? n) && (n <=? 13) || (28 <=? n) && (n <=? 30) || (n =? 133))%N.

(** [s.splitlines()[0]] *)
Fixpoint until_boundary (s : string) : string :=
  match s with
  | EmptyString => EmptyString
  | String c s' => if is_line_boundary c then EmptyString
                   else String c (until_boundary s')
  end.

Definition first_line (s : string) : result string :=
  match s with
  | EmptyString => Raise IndexError
  | _ => Ok (until_boundary s)
  end.

Definition ver_lteq (a b : string) : result bool :=
  let stdout :=
    VersionSort.sort_V (a +:+ String PyStr.newline EmptyString +:+ b) in
  l ← first_line stdout;
  mret (String.eqb l a).

Definition ver_lt (a b : string) : result bool :=
  if String.eqb a b then mret false else ver_lteq a b.

(** ** translate_arch (lines 154-158) *)
Definition translate_arch (arch : string) : string :=
  let arch := PyStr.re_sub
    [PyStr.chr "i"; PyStr.between "3" "6"; PyStr.chr "8"; PyStr.chr "6"]
    "ix86" arch in
  let arch := PyStr.re_sub
    [PyStr.chr "x"; PyStr.chr "8"; PyStr.chr "6"; PyStr.one_of "-" "_";
     PyStr.chr "6"; PyStr.chr "4"]
    "x86_64" arch in
  let arch := PyStr.re_sub
    [PyStr.chr "A"; PyStr.chr "M"; PyStr.chr "D"; PyStr.chr "6"; PyStr.chr "4"]
    "x86_64" arch in
  arch.

(** ** Paths (posixpath) *)

Module Path.
Import PyStr.

Definition sep : ascii := ascii_of_N 47.

Definition endswith_sep (s : string) : bool :=
  match last_char s with
  | Some c => Ascii.eqb c sep
  | None => false
  end.

(** [os.path.join(a, b)] *)
Definition join (a b : string) : string :=
  if startswith b "/" then b
  else if String.eqb a "" || endswith_sep a then a +:+ b
  else a +:+ "/" +:+ b.

(** [p[:p.rfind("/") + 1]] *)
Fixpoint head (p : string) : string :=
  match p with
  | EmptyString => EmptyString
  | String c r =>
      match head r with
      | EmptyString => if Ascii.eqb c sep then "/" else EmptyString
      | h => String c h
      end
  end.

Fixpoint all_sep (s : string) : bool :=
  match s with
  | EmptyString => true
  | String c r => Ascii.eqb c sep && all_sep r
  end.

(** [s.rstrip("/")] *)
Fixpoint rstrip_sep (s : string) : string :=
  match s with
  | EmptyString => EmptyString
  | String c r =>
      match rstrip_sep r with
      | EmptyString => if Ascii.eqb c sep then EmptyString else String c EmptyString
      | t => String c t
      end
  end.

(** [os.path.dirname(p)] *)
Definition dirname (p : string) : string :=
  let h := head p in
  if negb (String.eqb h "") && negb (all_sep h) then rstrip_sep h else h.

(** The part of [p] after the last separator. *)
Definition basename (p : string) : string :=
  String.substring (String.length (head p))
                   (String.length p - String.length (head p)) p.

End Path.

(** ** The file system

    A flat map from path names to nodes.  A symbolic link holds the text
    it was created with; a relative text is read from the directory of the
    link.  Only a link in the final component of a path is followed:
    directories are not linked to their entries, and the creation of
    missing parent directories is not recorded. *)

Inductive node :=
| File (content : string)
| Dir
| Symlink (target : string)
| Special.

#[global] Instance node_eq_dec : EqDecision node.
Proof. solve_decision. Defined.

(** Calls that change the file system, in the order the installer makes
    them. *)
Inductive call :=
| TempScript (text : string)      (* run_script: written, run by /bin/sh, removed *)
| Makedirs (path : string)
| Unlink (path : string)
| Extract (name : string) (into : string)
| Rewrite (path : string)         (* relocate_file *)
| Remove (path : string)
| RunFile (path : string) (args : list string).

Record world := {
  fs : gmap string node;
  stdin : list string;       (* the lines still to be typed *)
  stdout : string;
  calls : list call;
}.

Definition set_fs (m : gmap string node) (w : world) : world :=
  {| fs := m; stdin := stdin w; stdout := stdout w; calls := calls w |}.
Definition add_call (c : call) (w : world) : world :=
  {| fs := fs w; stdin := stdin w; stdout := stdout w; calls := calls w ++ [c] |}.
Definition add_out (s : string) (w : world) : world :=
  {| fs := fs w; stdin := stdin w; stdout := stdout w +:+ s; calls := calls w |}.
Definition set_stdin (l : list string) (w : world) : world :=
  {| fs := fs w; stdin := l; stdout := stdout w; calls := calls w |}.

(** ** The monad of the installer: state and exceptions *)

Definition M (A : Type) : Type := world -> result A * world.

Definition ret {A} (a : A) : M A := fun w => (Ok a, w).
Definition bind {A B} (m : M A) (k : A -> M B) : M B :=
  fun w => match m w with
           | (Ok a, w') => k a w'
           | (Raise e, w') => (Raise e, w')
           end.
Definition raise {A} (e : exn) : M A := fun w => (Raise e, w).
Definition get : M world := fun w => (Ok w, w).
Definition modify (f : world -> world) : M unit := fun w => (Ok tt, f w).
Definition lift {A} (r : result A) : M A := fun w => (r, w).

(** [try: m finally: f] *)
Definition finally {A} (m : M A) (f : M unit) : M A :=
  fun w => let '(r, w') := m w in
           match f w' with
           | (Ok _, w'') => (r, w'')
           | (Raise e, w'') => (Raise e, w'')
           end.

(** [try: m except E: h] *)
Definition except {A} (m : M A) (E : exn) (h : M A) : M A :=
  fun w => match m w with
           | (Raise e, w') => if decide (e = E) then h w' else (Raise e, w')
           | r => r
           end.

(** [try: m except: pass] *)
Definition ignore_errors (m : M unit) : M unit :=
  fun w => match m w with
           | (Raise _, w') => (Ok tt, w')
           | r => r
           end.

Declare Scope inst_scope.
Delimit Scope inst_scope with inst.
Notation "x <- m ;; k" := (bind m (fun x => k))
  (at level 100, m at next level, right associativity) : inst_scope.
Notation "m ;; k" := (bind m (fun _ => k))
  (at level 100, right associativity) : inst_scope.

Local Open Scope inst_scope.

(** [print(s)] and [print(s, end="")] *)
Definition print (s : string) : M unit :=
  modify (add_out (s +:+ String PyStr.newline EmptyString)).
Definition print_raw (s : string) : M unit := modify (add_out s).

(** [input(prompt)]: [None] stands for [EOFError]. *)
Definition input (prompt : string) : M (option string) :=
  print_raw prompt;;
  w <- get;;
  match stdin w with
  | [] => ret None
  | l :: rest => modify (set_stdin rest);; ret (Some l)
  end.

(** ** os and os.path on the file system *)

Module OS.

Definition MAXSYMLINKS : nat := 40.

(** Follow the links at [p]; [None] when there are too many. *)
Fixpoint resolve_from (n : nat) (m : gmap string node) (p : string)
    : option string :=
  match m !! p with
  | Some (Symlink t) =>
      match n with
      | O => None
      | S k => resolve_from k m (Path.join (Path.dirname p) t)
      end
  | _ => Some p
  end.

Definition resolve (m : gmap string node) (p : string) : option string :=
  resolve_from MAXSYMLINKS m p.

Definition lexists (m : gmap string node) (p : string) : bool :=
  match m !! p with
  | Some _ => true
  | None => false
  end.

Definition islink (m : gmap string node) (p : string) : bool :=
  match m !! p with
  | Some (Symlink _) => true
  | _ => false
  end.

Definition isdir (m : gmap string node) (p : string) : bool :=
  match resolve m p with
  | Some r => match m !! r with
              | Some Dir => true
              | _ => false
              end
  | None => false
  end.

(** The text that a reader of [p] gets. *)
Definition file_text (m : gmap string node) (p : string) : option string :=
  match resolve m p with
  | Some r => match m !! r with
              | Some (File text) => Some text
              | _ => None
              end
  | None => None
  end.

Definition exists_ (m : gmap string node) (p : string) : bool :=
  match resolve m p with
  | Some r => lexists m r
  | None => false
  end.

Section Host.
(** The paths at which the host refuses to create, replace or remove
    an entry. *)
Variable denied : string -> bool.

Definition check_access (p : string) : M unit :=
  if denied p then raise PermissionError else ret tt.

(** [os.unlink(p)], [os.remove(p)] *)
Definition unlink (p : string) : M unit :=
  w <- get;;
  match fs w !! p with
  | None => raise FileNotFoundError
  | Some Dir => raise IsADirectoryError
  | Some _ => check_access p;; modify (set_fs (delete p (fs w)))
  end.

(** [os.makedirs(p, exist_ok=True)] *)
Definition makedirs (p : string) : M unit :=
  w <- get;;
  match fs w !! p with
  | None => check_access p;; modify (set_fs (<[p := Dir]> (fs w)))
  | Some _ => if isdir (fs w) p then ret tt else raise FileExistsError
  end.

(** [open(p, "r")]: the path of the file that is read. *)
Definition open_read (p : string) : M string :=
  w <- get;;
  match resolve (fs w) p with
  | None => raise TooManyLinks
  | Some r =>
      match fs w !! r with
      | Some (File _) => ret r
      | Some Dir => raise IsADirectoryError
      | Some _ => raise Unmodelled
      | None => raise FileNotFoundError
      end
  end.

(** [open(p, "w")]: the file is created or emptied at once; the path
    of the file that is written. *)
Definition open_write (p : string) : M string :=
  w <- get;;
  match resolve (fs w) p with
  | None => raise TooManyLinks
  | Some r =>
      match fs w !! r with
      | Some Dir => raise IsADirectoryError
      | Some Special => raise Unmodelled
      | _ => check_access r;;
             modify (set_fs (<[r := File ""]> (fs w)));;
             ret r
      end
  end.

(** The text of an open file. *)
Definition read (r : string) : M string :=
  w <- get;;
  match fs w !! r with
  | Some (File text) => ret text
  | _ => raise Unmodelled
  end.

(** Writing [text] to an open file and closing it. *)
Definition write (r : string) (text : string) : M unit :=
  modify (fun w => set_fs (<[r := File text]> (fs w)) w).

(** [os.rename(src, dst)] *)
Definition rename (src dst : string) : M unit :=
  w <- get;;
  match fs w !! src with
  | None => raise FileNotFoundError
  | Some n =>
      match n, fs w !! dst with
      | Dir, Some _ => raise Unmodelled
      | _, Some Dir => raise IsADirectoryError
      | _, _ => check_access src;; check_access dst;;
                modify (set_fs (<[dst := n]> (delete src (fs w))))
      end
  end.

(** [shutil.move(src, dst)] for a destination that is no directory. *)
Definition move (src dst : string) : M unit :=
  w <- get;;
  if isdir (fs w) dst then raise Unmodelled else rename src dst.

End Host.
End OS.

(** ** The archive (tarfile) *)

Module Tar.

Inductive member_type := REGTYPE | DIRTYPE | SYMTYPE | OTHERTYPE.

(** A member of the archive: [data] is the content of a regular file,
    [linkname] the text of a symbolic link. *)
Record info := {
  name : string;
  size : Z;
  type : member_type;
  data : string;
  linkname : string;
}.


Section Host.
Variable denied : string -> bool.

(** [tf.extract(f, path)] of the standard library: a regular file is
    opened for writing, which follows a link at the target path; a
    directory that is already there is kept; a link replaces what is
    at the target path. *)
Definition extract (f : info) (path : string) : M unit :=
  let targetpath := Path.join path (name f) in
  w <- get;;
  match type f with
  | REGTYPE =>
      r <- OS.open_write denied targetpath;;
      OS.write r (data f)
  | DIRTYPE =>
      match fs w !! targetpath with
      | None => OS.check_access denied targetpath;;
                modify (set_fs (<[targetpath := Dir]> (fs w)))
      | Some _ => if OS.isdir (fs w) targetpath then ret tt
                  else raise FileExistsError
      end
  | SYMTYPE =>
      (if OS.lexists (fs w) targetpath
       then OS.unlink denied targetpath else ret tt);;
      OS.check_access denied targetpath;;
      modify (fun w => set_fs (<[targetpath := Symlink (linkname f)]> (fs w)) w)
  | OTHERTYPE =>
      match fs w !! targetpath with
      | None => OS.check_access denied targetpath;;
                modify (set_fs (<[targetpath := Special]> (fs w)))
      | Some _ => raise FileExistsError
      end
  end.
End Host.

End Tar.

(** ** Build-time constants, command line and host *)

Record config := {
  SDK_TITLE : string;
  SDK_VERSION : string;
  SDK_ARCH : string;
  SDK_EXTENSIBLE : bool;
  SDKPATH_standard : string;          (* the value substituted for SDKPATH *)
  SDKEXTPATH : string;
  SDK_GCC_VER : string;
  SDK_EXT_TYPE : string;
  OLDEST_KERNEL : string;
  REAL_MULTIMACH_TARGET_SYS : string;
  sdk_tar : list Tar.info;            (* the members of SDK_TAR_NAME, in stream order *)
  pre_install_command : string;
  post_install_command : string;
}.

Definition SDKPATH (cfg : config) : string :=
  if SDK_EXTENSIBLE cfg then SDKEXTPATH cfg else SDKPATH_standard cfg.

Definition CHECKPOINT : Z := 25600000.

Record args := {
  yes : bool;
  dir : option string;
  save_scripts : bool;
  relocate : bool;
  debug : Z;
  list_files : bool;
  prepare_buildsystem : bool;
  publish : bool;
}.

(** What the installer asks of the machine it runs on. *)
Record host := {
  PLATFORM_IS_WINDOWS : bool;
  uname_r : result string;                     (* run_command("uname", "-r", capture=True) *)
  machine : string;                            (* platform.machine() *)
  gcc_version : result (option string);        (* get_gcc_version() *)
  realpath : string -> string;                 (* os.path.realpath(os.path.abspath(p)) *)
  denied : string -> bool;
  sh : string -> list string -> gmap string node -> option (gmap string node);
                                               (* /bin/sh on a script text with arguments;
                                                  None when it exits with an error *)
  tar_listing : list Tar.info -> string;       (* what tf.list() prints *)
}.

(** The two counters of the progress indicator. *)
Record progress := {
  current_size : Z;
  printed_checkpoints : Z;
}.

Definition MARKER : string := "OECORE_NATIVE_SYSROOT=".

Section Installer.
Variable cfg : config.
Variable h : host.

(** [run_command("/bin/sh", ...)] *)
Definition run_sh (text : string) (argv : list string) : M unit :=
  w <- get;;
  match sh h text argv (fs w) with
  | Some m => modify (set_fs m)
  | None => raise CalledProcessError
  end.

(** [run_script] (lines 106-123) with the body written by the caller. *)
Definition run_script (body : string) : M unit :=
  let text := "#!/bin/sh" +:+ String PyStr.newline body in
  modify (add_call (TempScript text));;
  run_sh text [].

(** [environment_setup_scripts] (lines 68-71): the entries of
    [destination] whose name starts with [environment-setup-]. *)
Definition is_setup_script (destination p : string) : bool :=
  let stem := Path.join destination "environment-setup-" in
  PyStr.startswith p stem
  && negb (PyStr.str_in "/" (String.substring (String.length stem)
                               (String.length p - String.length stem) p)).

Definition environment_setup_scripts (destination : string)
    (m : gmap string node) : list string :=
  PyStr.sorted (filter (fun p => is_setup_script destination p = true)
                       (map_to_list m).*1).

(** The set [extract_exclude] (lines 201, 236-238). *)
Definition extract_exclude : gset string :=
  if SDK_EXTENSIBLE cfg then
    {["ext-sdk-prepare.py"]}
    ∪ (if String.eqb (SDK_EXT_TYPE cfg) "minimal" then {["sstate-cache"]} else ∅)
  else ∅.

(** Lines 203-209. *)
Definition check_kernel : M (option Z) :=
  if PLATFORM_IS_WINDOWS h then ret None
  else
    out <- lift (uname_r h);;
    let kernel_version := PyStr.rstrip out in
    lt <- lift (ver_lt kernel_version (OLDEST_KERNEL cfg));;
    if lt : bool then
      print ("Error: The SDK needs a kernel > " +:+ OLDEST_KERNEL cfg);;
      ret (Some 1)
    else ret None.

(** Lines 211-221. *)
Definition check_arch : M (option Z) :=
  let host_arch := translate_arch (machine h) in
  let sdk_arch := translate_arch (SDK_ARCH cfg) in
  if negb (String.eqb host_arch sdk_arch)
     && (negb (String.eqb host_arch "x86_64") || negb (String.eqb sdk_arch "ix86"))
  then
    print ("Error: Incompatible SDK installer! Your host is " +:+ host_arch
           +:+ " and this SDK was built for " +:+ sdk_arch +:+ " hosts.");;
    ret (Some 1)
  else ret None.

(** Lines 223-234. *)
Definition check_gcc : M (option Z) :=
  if SDK_EXTENSIBLE cfg then
    host_gcc_ver <- lift (gcc_version h);;
    let host_is v := match host_gcc_ver with
                | Some g => String.eqb g v
                | None => false
                end in
    if host_is "4.8" && String.eqb (SDK_GCC_VER cfg) "4.9"
       || host_is "4.8" && String.eqb (SDK_GCC_VER cfg) ""
       || host_is "4.9" && String.eqb (SDK_GCC_VER cfg) ""
    then
      print ("Error: Incompatible SDK installer! Your host gcc version is "
             +:+ match host_gcc_ver with Some g => g | None => "None" end
             +:+ " and this SDK was built by gcc higher version.");;
      ret (Some 1)
    else ret None
  else ret None.

(** Lines 240-242. *)
Definition banner : M unit :=
  let title := SDK_TITLE cfg +:+ " installer version " +:+ SDK_VERSION cfg in
  print title;;
  print (PyStr.str_mul "=" (Z.of_nat (String.length title))).

Definition script_header : string :=
  "DEFAULT_INSTALL_DIR=" +:+ PyStr.dq +:+ SDKPATH cfg +:+ PyStr.dq
    +:+ String PyStr.newline
  ("SUDO_EXEC=" +:+ PyStr.dq +:+ PyStr.dq +:+ String PyStr.newline EmptyString).

(** The script that [pre_install] writes and runs. *)
Definition pre_install_script : string :=
  "#!/bin/sh" +:+ String PyStr.newline (script_header +:+ pre_install_command cfg).

(** Lines 244-250. *)
Definition pre_install : M unit :=
  if PLATFORM_IS_WINDOWS h then ret tt
  else run_script (script_header +:+ pre_install_command cfg).

(** Lines 252-267. *)
Definition choose_destination (a : args) : M string :=
  let given := match dir a with
               | Some d => negb (String.eqb d "")
               | None => false
               end in
  destination <-
    (if negb given then
       if yes a then ret (SDKPATH cfg)
       else
         reply <- input ("Enter target directory for SDK (default: "
                         +:+ SDKPATH cfg +:+ "): ");;
         match reply with
         | Some EmptyString | None => ret (SDKPATH cfg)
         | Some d => ret d
         end
     else ret (default "" (dir a)));;
  ret (realpath h destination).

Definition has_whitespace (s : string) : bool :=
  existsb PyStr.is_space (list_ascii_of_string s).

(** Lines 269-275. *)
Definition validate_destination (destination : string) : M (option Z) :=
  if 2048 <? Z.of_nat (String.length destination) then
    print "Error: The target directory path is too long!!!";;
    ret (Some 1)
  else if has_whitespace destination then
    print ("The target directory path (" +:+ destination
           +:+ ") contains whitespace. Abort!");;
    ret (Some 1)
  else ret None.

(** Lines 277-300. *)
Definition confirm (a : args) (destination : string) : M (option Z) :=
  w <- get;;
  proceed <-
    (if OS.exists_ (fs w)
          (Path.join destination
             ("environment-setup-" +:+ REAL_MULTIMACH_TARGET_SYS cfg))
     then
       print ("The directory " +:+ PyStr.dq +:+ destination +:+ PyStr.dq
              +:+ " already contains a SDK for this architecture.");;
       if yes a then ret true
       else
         reply <- input
           "If you continue, existing files will be overwritten! Proceed? [y/N]";;
         ret (prompt_bool reply false)
     else
       if yes a then ret true
       else
         reply <- input ("You are about to install the SDK to " +:+ PyStr.dq
                         +:+ destination +:+ PyStr.dq +:+ ". Proceed? [Y/n]");;
         ret (prompt_bool reply true));;
  if proceed : bool then ret None
  else print "Installation aborted!";; ret (Some 1).

(** Lines 320-325 of [extract_file]: what is in the way of the member
    is removed, unless it is a directory. *)
Definition remove_conflict (destination : string) (f : Tar.info) : M unit :=
  let dest := Path.join destination (Tar.name f) in
  w <- get;;
  if OS.lexists (fs w) dest
     && (OS.islink (fs w) dest || negb (OS.isdir (fs w) dest))
  then modify (add_call (Unlink dest));; OS.unlink (denied h) dest
  else ret tt.

(** Lines 329-336 of [extract_file]: the progress indicator. *)
Definition checkpoint (f : Tar.info) (pr : progress) : M progress :=
  let current_size := current_size pr + Tar.size f in
  let num := current_size / CHECKPOINT - printed_checkpoints pr in
  if negb (num =? 0) then
    print_raw (PyStr.str_mul "." num);;
    ret {| current_size := current_size;
           printed_checkpoints := printed_checkpoints pr + num |}
  else
    ret {| current_size := current_size;
           printed_checkpoints := printed_checkpoints pr |}.

(** [extract_file] (lines 316-336); the two nonlocal counters are
    passed in and returned. *)
Definition extract_file (destination : string) (f : Tar.info)
    (pr : progress) : M progress :=
  remove_conflict destination f;;
  modify (add_call (Extract (Tar.name f) destination));;
  Tar.extract (denied h) f destination;;
  checkpoint f pr.

(** The loop over the archive (lines 338-342). *)
Fixpoint extract_members (exclude : gset string) (destination : string)
    (members : list Tar.info) (pr : progress) : M progress :=
  match members with
  | [] => ret pr
  | f :: rest =>
      if PyStr.any_in exclude (Tar.name f)
      then extract_members exclude destination rest pr
      else
        pr' <- extract_file destination f pr;;
        extract_members exclude destination rest pr'
  end.

(** Lines 302-354. *)
Definition extract_sdk (a : args) (destination : string) : M (option Z) :=
  except
    (if list_files a then
       print_raw (tar_listing h (sdk_tar cfg));;
       ret (Some 0)
     else
       print "Extracting SDK";;
       modify (add_call (Makedirs destination));;
       OS.makedirs (denied h) destination;;
       finally
         (extract_members extract_exclude destination (sdk_tar cfg)
            {| current_size := 0; printed_checkpoints := 0 |})
         (print "");;
       ret None)
    PermissionError
    (print ("Permission denied. Please try re-running with "
            +:+ (if PLATFORM_IS_WINDOWS h then "Administrative privileges"
                 else "'sudo'") +:+ ":");;
     print "[Errno 13] Permission denied";;
     ret (Some 1)).

(** [relocate_file] (lines 358-377): the replacement in one line, in
    the whole text, and the test for the marker of the main script. *)
Definition relocate_line (destination l : string) : string :=
  PyStr.str_replace (SDKPATH cfg) destination l.

Definition relocate_text (destination text : string) : string :=
  PyStr.concat (map (relocate_line destination) (PyStr.readlines text)).

Definition is_real_env_script (text : string) : bool :=
  existsb (PyStr.str_in MARKER) (PyStr.readlines text).

Definition relocate_file (destination name : string) : M bool :=
  let tmp_file := name +:+ ".tmp" in
  modify (add_call (Rewrite name));;
  f <- OS.open_read name;;
  tmp <- OS.open_write (denied h) tmp_file;;
  text <- OS.read f;;
  OS.write tmp (relocate_text destination text);;
  OS.move (denied h) tmp_file name;;
  ret (is_real_env_script text).

(** The loop of lines 379-382. *)
Fixpoint relocate_scripts (destination : string) (scripts : list string)
    (real_env_setup_script : option string) : M (option string) :=
  match scripts with
  | [] => ret real_env_setup_script
  | s :: rest =>
      b <- relocate_file destination s;;
      relocate_scripts destination rest
        (if b : bool then Some s else real_env_setup_script)
  end.

(** Lines 384-385: [env_setup_script] is bound only here. *)
Definition bind_env_setup_script (real_env_setup_script : option string)
    : option string :=
  match real_env_setup_script with
  | Some s => if String.eqb s "" then None else Some s
  | None => None
  end.

(** Reading a local variable that may be unbound. *)
Definition local {A} (v : option A) : M A :=
  match v with
  | Some x => ret x
  | None => raise UnboundLocalError
  end.

(** Lines 389-399. *)
Definition post_install (a : args) (destination env_setup_script : string)
    : M unit :=
  if PLATFORM_IS_WINDOWS h then ret tt
  else
    let nl := String PyStr.newline EmptyString in
    run_script
      (script_header
       +:+ "env_setup_script=" +:+ PyStr.dq +:+ env_setup_script +:+ PyStr.dq +:+ nl
       +:+ "target_sdk_dir=" +:+ PyStr.dq +:+ destination +:+ PyStr.dq +:+ nl
       +:+ "relocate=" +:+ PyStr.str_bool (relocate a) +:+ nl
       +:+ "savescripts=" +:+ PyStr.str_bool (save_scripts a) +:+ nl
       +:+ post_install_command cfg).

Definition os_remove (p : string) : M unit :=
  modify (add_call (Remove p));; OS.unlink (denied h) p.

(** Lines 403-410. *)
Definition delete_relocating_scripts (a : args) (env_setup_script : string)
    : M unit :=
  if save_scripts a then ret tt
  else
    ignore_errors
      (os_remove (Path.join (Path.dirname env_setup_script) "relocate_sdk.py"));;
    ignore_errors
      (os_remove (Path.join (Path.dirname env_setup_script) "relocate_sdk.sh")).

(** Lines 413-419.  [/bin/sh] reads the script itself: a script that
    cannot be read makes the command fail. *)
Definition post_relocate (a : args) (destination : string) : M unit :=
  let post_relocate_script := Path.join destination "post-relocate-setup.sh" in
  w <- get;;
  if OS.exists_ (fs w) post_relocate_script then
    relocate_file destination post_relocate_script;;
    (if PLATFORM_IS_WINDOWS h then ret tt
     else
       modify (add_call (RunFile post_relocate_script [destination; SDKPATH cfg]));;
       w <- get;;
       match OS.file_text (fs w) post_relocate_script with
       | Some text => run_sh text [destination; SDKPATH cfg]
       | None => raise CalledProcessError
       end);;
    (if save_scripts a then ret tt else os_remove post_relocate_script)
  else ret tt.

(** Lines 421-429. *)
Fixpoint print_scripts (scripts : list string) : M unit :=
  match scripts with
  | [] => ret tt
  | script :: rest =>
      print ((if PLATFORM_IS_WINDOWS h then " $ call " else " $ . ") +:+ script);;
      print_scripts rest
  end.

(** Lines 387-431: the run once [env_setup_script] is bound. *)
Definition finish (a : args) (destination env_setup_script : string) : M Z :=
  post_install a destination env_setup_script;;
  delete_relocating_scripts a env_setup_script;;
  post_relocate a destination;;
  print "SDK has been successfully set up and is ready to be used.";;
  print "Each time you wish to use the SDK in a new shell session, you need to source the environment setup script e.g.";;
  w <- get;;
  print_scripts (environment_setup_scripts destination (fs w));;
  ret 0.

(** Lines 356-431. *)
Definition set_up (a : args) (destination : string) : M Z :=
  print "Setting it up...";;
  w <- get;;
  real_env_setup_script <-
    relocate_scripts destination
      (environment_setup_scripts destination (fs w)) None;;
  env_setup_script <- local (bind_env_setup_script real_env_setup_script);;
  finish a destination env_setup_script.

(** A step that may end the run with an exit status. *)
Definition or_else (m : M (option Z)) (k : M Z) : M Z :=
  r <- m;;
  match r with
  | Some status => ret status
  | None => k
  end.

(** Lines 269-431: the run once the destination is known. *)
Definition install (a : args) (destination : string) : M Z :=
  or_else (validate_destination destination) (
  or_else (confirm a destination) (
  or_else (extract_sdk a destination) (
  set_up a destination))).

(** [main] (lines 161-431). *)
Definition main (a : args) : M Z :=
  or_else check_kernel (
  or_else check_arch (
  or_else check_gcc (
  banner;;
  pre_install;;
  destination <- choose_destination a;;
  install a destination))).

End Installer.

(** ** check_env (lines 434-454)

    The environment is a map from names to values; [sys.executable] and
    [sys.argv] are given. *)

Definition PRESERVED_ENVS : list string :=
  ["HOME"; "TERM"; "ICECC_PATH"; "http_proxy"; "https_proxy"; "ftp_proxy";
   "no_proxy"; "all_proxy"; "GIT_PROXY_COMMAND"].

(** How [check_env] ends: it returns, with [os.environ] as it has left
    it; the process is replaced by [os.execv]; or [os.environ["PATH"]]
    raises [KeyError]. *)
Inductive env_step :=
  | EnvReturn (environ : gmap string string)
  | EnvExec (path : string) (argv : list string)
  | EnvKeyError.

(** [tweakpath] (lines 438-440); [None] stands for [KeyError]. *)
Definition tweakpath (p : string) (environ : gmap string string)
    : option (gmap string string) :=
  path ← environ !! "PATH";
  if negb (PyStr.str_in (":" +:+ p +:+ ":") path)
  then Some (<["PATH" := path +:+ ":" +:+ p]> environ)
  else Some environ.

(** [os.environ.get(e, "")] *)
Definition environ_get (environ : gmap string string) (e : string) : string :=
  match environ !! e with
  | Some v => v
  | None => ""
  end.

Definition check_env (h : host) (executable : string) (argv : list string)
    (environ : gmap string string) : env_step :=
  if PLATFORM_IS_WINDOWS h then EnvReturn environ
  else
    match environ !! "ENVCLEANED" with
    | Some (String _ _) =>
        match environ !! "PATH" with
        | None => EnvKeyError
        | Some path =>
            let environ :=
              <["PATH" := PyStr.str_replace "::" ""
                            (PyStr.str_replace ":." "" path)]> environ in
            match tweakpath "/usr/sbin" environ with
            | None => EnvKeyError
            | Some environ =>
                match tweakpath "/sbin" environ with
                | None => EnvKeyError
                | Some environ => EnvReturn environ
                end
            end
        end
    | _ =>
        EnvExec "/usr/bin/env"
          (["-i"; "ENVCLEANED=1"; "LC_ALL=en_US.UTF8"]
           ++ map (fun e => e +:+ "=" +:+ environ_get environ e) PRESERVED_ENVS
           ++ executable :: argv)
    end.


(** ** Notions used in the statements *)

(** The names of the members handed to [tf.extract], in order. *)
Definition extracted (cs : list call) : list string :=
  omap (fun c => match c with Extract n _ => Some n | _ => None end) cs.

Fixpoint total_size (l : list Tar.info) : Z :=
  match l with
  | [] => 0
  | f :: l' => Tar.size f + total_size l'
  end.

(** A step that leaves the terminal and the record of calls alone. *)
Definition only_fs (w w' : world) : Prop :=
  stdin w' = stdin w /\ stdout w' = stdout w /\ calls w' = calls w.

(** A step that at most prints. *)
Definition prints_only (w w' : world) : Prop :=
  fs w' = fs w /\ calls w' = calls w /\ stdin w' = stdin w.

(** How a check before the installation can end. *)
Definition gate_result (r : result (option Z)) : Prop :=
  r = Ok None \/ r = Ok (Some 1) \/ exists e, r = Raise e.

(** Does the file at [s] carry the marker of the main script? *)
Definition marked (m : gmap string node) (s : string) : bool :=
  match m !! s with
  | Some (File text) => is_real_env_script text
  | _ => false
  end.

(** A script that [relocate_file] can rewrite in place: a regular file
    with no entry at the name of its temporary copy, and no refusal of
    the host at either name. *)
Definition regular_script (h : host) (m : gmap string node) (s : string) : bool :=
  match m !! s with
  | Some (File _) => true
  | _ => false
  end
  && negb (OS.lexists m (s +:+ ".tmp"))
  && negb (denied h s) && negb (denied h (s +:+ ".tmp")).

(** The script that the loop of lines 379-382 has selected after
    [scripts]: the last one that carries the marker. *)
Definition selected (m : gmap string node) (scripts : list string)
    (before : option string) : option string :=
  match last (filter (fun s => marked m s = true) scripts) with
  | Some s => Some s
  | None => before
  end.

(** The world after line 356. *)
Definition setting_up (w : world) : world :=
  add_out ("Setting it up..." +:+ String PyStr.newline EmptyString) w.

(** ** A sample installation *)

Module Sample.
Definition nl : string := String PyStr.newline EmptyString.

Definition regular (name data : string) (size : Z) : Tar.info :=
  {| Tar.name := name; Tar.size := size; Tar.type := Tar.REGTYPE;
     Tar.data := data; Tar.linkname := "" |}.

Definition linux : host := {|
  PLATFORM_IS_WINDOWS := false;
  uname_r := Ok ("6.1.0-13-amd64" +:+ nl);
  machine := "x86_64";
  gcc_version := Ok (Some "12.2");
  realpath := fun p => p;
  denied := fun _ => false;
  sh := fun _ _ m => Some m;
  tar_listing := fun l => PyStr.concat (map (fun f => Tar.name f +:+ nl) l);
|}.

Definition poky_with (members : list Tar.info) : config := {|
  SDK_TITLE := "Poky";
  SDK_VERSION := "5.0";
  SDK_ARCH := "x86_64";
  SDK_EXTENSIBLE := false;
  SDKPATH_standard := "/opt/poky/5.0";
  SDKEXTPATH := "~/poky_sdk";
  SDK_GCC_VER := "";
  SDK_EXT_TYPE := "";
  OLDEST_KERNEL := "3.2.0";
  REAL_MULTIMACH_TARGET_SYS := "core2-64-poky-linux";
  sdk_tar := members;
  pre_install_command := "";
  post_install_command := "";
|}.

Definition poky : config := poky_with [].

Definition empty_world : world :=
  {| fs := ∅; stdin := []; stdout := ""; calls := [] |}.

Definition start : progress :=
  {| current_size := 0; printed_checkpoints := 0 |}.

(** A stale link where a tool of the SDK is to be installed. *)
Definition stale_link : world :=
  set_fs (<["/sdk/bin/tool" := Symlink "/etc/passwd"]>
            (<["/etc/passwd" := File "root"]>
               (<["/sdk/bin" := Dir]> (<["/sdk" := Dir]> ∅))))
         empty_world.


Definition bin_dir : Tar.info :=
  {| Tar.name := "bin"; Tar.size := 0; Tar.type := Tar.DIRTYPE;
     Tar.data := ""; Tar.linkname := "" |}.

(** Members of twice the checkpoint in all, apart from the excluded
    cache. *)
Definition payload : list Tar.info :=
  [ regular "environment-setup-x" "" 25600000;
    regular "sstate-cache/aa/obj" "" 7;
    regular "layers/my-sstate-cache.conf" "" 7;
    regular "sysroots/libc.so" "" 12800000;
    regular "sysroots/libm.so" "" 12800000 ].

Definition plain_script : string := "export PATH=/opt/poky/5.0/bin" +:+ nl.
Definition main_script : string :=
  "export OECORE_NATIVE_SYSROOT=/opt/poky/5.0/sysroots" +:+ nl.

(** An unpacked SDK with two candidate scripts. *)
Definition installed (a b : string) : world :=
  set_fs (<["/sdk/environment-setup-a" := File a]>
            (<["/sdk/environment-setup-b" := File b]>
               (<["/sdk/version" := File "5.0"]> (<["/sdk" := Dir]> ∅))))
         empty_world.

Definition sdk_members : list Tar.info :=
  [ regular "environment-setup-a" plain_script 30;
    regular "environment-setup-b" main_script 52;
    regular "sysroots/libc.so" "" 25600000 ].

Definition unattended : args := {|
  yes := true; dir := Some "/sdk"; save_scripts := false; relocate := true;
  debug := 0; list_files := false; prepare_buildsystem := true; publish := false;
|}.

(** Installing next to the default place: the destination contains the
    build-time path. *)
Definition beside : string := "/opt/poky/5.0-test".

Definition unpacked : world :=
  set_fs (<["/opt/poky/5.0-test/environment-setup-x" := File plain_script]> ∅)
         empty_world.

(** A destination with a space in it. *)
Definition spaced : args := {|
  yes := true; dir := Some "/home/u/my sdk"; save_scripts := false;
  relocate := true; debug := 0; list_files := false;
  prepare_buildsystem := true; publish := false;
|}.
End Sample.

(** ** Notions used in the further statements *)

(** A step keeps a relation between the world before and after it,
    however it ends. *)
Definition keeps {A} (R : world -> world -> Prop) (m : M A) : Prop :=
  forall w r w', m w = (r, w') -> R w w'.

(** The terminal has not been read. *)
Definition same_stdin (w w' : world) : Prop := stdin w' = stdin w.


(** A step returns only results with a given property. *)
Definition returns {A} (P : A -> Prop) (m : M A) : Prop :=
  forall w a w', m w = (Ok a, w') -> P a.


(** The calls that run a shell. *)
Definition is_shell_call (c : call) : bool :=
  match c with
  | TempScript _ | RunFile _ _ => true
  | _ => false
  end.

(** The record of calls has grown. *)
Definition calls_grow (w w' : world) : Prop := calls w `prefix_of` calls w'.

(** The record of calls has grown by calls that run no shell. *)
Definition no_shell_since (w w' : world) : Prop :=
  exists cs, calls w' = calls w ++ cs
             /\ Forall (fun c => is_shell_call c = false) cs.


(** The destination passes lines 269-275. *)
Definition valid_destination (destination : string) : Prop :=
  Z.of_nat (String.length destination) <= 2048
  /\ has_whitespace destination = false.

(** The three compatibility checks of lines 203-234, as conditions on
    the host and the build. *)
Definition kernel_is_too_old (cfg : config) (h : host) : Prop :=
  PLATFORM_IS_WINDOWS h = false
  /\ exists out, uname_r h = Ok out
                 /\ ver_lt (PyStr.rstrip out) (OLDEST_KERNEL cfg) = Ok true.

Definition arch_incompatible (cfg : config) (h : host) : Prop :=
  translate_arch (machine h) <> translate_arch (SDK_ARCH cfg)
  /\ (translate_arch (machine h) <> "x86_64"
      \/ translate_arch (SDK_ARCH cfg) <> "ix86").

Definition gcc_incompatible (cfg : config) (h : host) : Prop :=
  SDK_EXTENSIBLE cfg = true
  /\ ((gcc_version h = Ok (Some "4.8") /\ SDK_GCC_VER cfg = "4.9")
      \/ (gcc_version h = Ok (Some "4.8") /\ SDK_GCC_VER cfg = "")
      \/ (gcc_version h = Ok (Some "4.9") /\ SDK_GCC_VER cfg = "")).

(** The file whose presence tells that an SDK is installed. *)
Definition installed_marker (cfg : config) (destination : string) : string :=
  Path.join destination ("environment-setup-" +:+ REAL_MULTIMACH_TARGET_SYS cfg).


(** A version that [splitlines] leaves in one piece. *)
Fixpoint single_line (s : string) : bool :=
  match s with
  | EmptyString => true
  | String c s' => negb (is_line_boundary c) && single_line s'
  end.


(** The end of a line. *)
Definition nl : string := String PyStr.newline EmptyString.

(** The two scripts that lines 403-410 delete. *)
Definition relocating_scripts (env_setup_script : string) : list string :=
  [ Path.join (Path.dirname env_setup_script) "relocate_sdk.py";
    Path.join (Path.dirname env_setup_script) "relocate_sdk.sh" ].

(** [os.remove] succeeds at [p]. *)
Definition removable (h : host) (m : gmap string node) (p : string) : bool :=
  match m !! p with
  | Some Dir | None => false
  | Some _ => negb (denied h p)
  end.


(** [p] is a component of the search path [path], and not the first. *)
Definition on_path (p path : string) : bool :=
  PyStr.str_in (":" +:+ p +:+ ":") (path +:+ ":").

(** ** Further sample hosts, arguments and worlds *)

Module Scenario.

Definition windows : host := {|
  PLATFORM_IS_WINDOWS := true;
  uname_r := Raise CalledProcessError;
  machine := "AMD64";
  gcc_version := Ok None;
  realpath := fun p => p;
  denied := fun _ => false;
  sh := fun _ _ _ => None;
  tar_listing := fun l => PyStr.concat (map (fun f => Tar.name f +:+ Sample.nl) l);
|}.

Definition arm : host := {|
  PLATFORM_IS_WINDOWS := false;
  uname_r := Ok ("6.1.0-13-arm64" +:+ Sample.nl);
  machine := "aarch64";
  gcc_version := Ok (Some "12.2");
  realpath := fun p => p;
  denied := fun _ => false;
  sh := fun _ _ m => Some m;
  tar_listing := fun l => PyStr.concat (map (fun f => Tar.name f +:+ Sample.nl) l);
|}.

(** A host that refuses every change of the file system. *)
Definition locked : host := {|
  PLATFORM_IS_WINDOWS := false;
  uname_r := Ok ("6.1.0-13-amd64" +:+ Sample.nl);
  machine := "x86_64";
  gcc_version := Ok (Some "12.2");
  realpath := fun p => p;
  denied := fun _ => true;
  sh := fun _ _ m => Some m;
  tar_listing := fun l => PyStr.concat (map (fun f => Tar.name f +:+ Sample.nl) l);
|}.

Definition interactive : args := {|
  yes := false; dir := Some "/sdk"; save_scripts := false; relocate := true;
  debug := 0; list_files := false; prepare_buildsystem := true; publish := false;
|}.

Definition listing : args := {|
  yes := true; dir := Some "/sdk"; save_scripts := false; relocate := true;
  debug := 0; list_files := true; prepare_buildsystem := true; publish := false;
|}.

(** A terminal on which [lines] are typed. *)
Definition answering (lines : list string) : world :=
  set_stdin lines Sample.empty_world.

(** The destination is taken by a regular file. *)
Definition occupied : world :=
  set_fs (<["/sdk" := File "notes"]> ∅) Sample.empty_world.

(** A minimal extensible SDK. *)
Definition extensible : config := {|
  SDK_TITLE := "Poky";
  SDK_VERSION := "5.0";
  SDK_ARCH := "x86_64";
  SDK_EXTENSIBLE := true;
  SDKPATH_standard := "/opt/poky/5.0";
  SDKEXTPATH := "~/poky_sdk";
  SDK_GCC_VER := "12.2";
  SDK_EXT_TYPE := "minimal";
  OLDEST_KERNEL := "3.2.0";
  REAL_MULTIMACH_TARGET_SYS := "core2-64-poky-linux";
  sdk_tar := Sample.payload;
  pre_install_command := "";
  post_install_command := "";
|}.

(** The environment of a first run. *)
Definition login : gmap string string :=
  {[ "HOME" := "/root"; "PATH" := "/usr/bin:/bin"; "TERM" := "xterm" ]}.

(** An unpacked SDK with its relocation scripts. *)
Definition relocated : world :=
  set_fs (<["/sdk/relocate_sdk.py" := File "import os"]>
            (<["/sdk/relocate_sdk.sh" := File "exit 0"]>
               (<["/sdk/post-relocate-setup.sh" := File "exit 0"]>
                  (<["/sdk/environment-setup-a" := File Sample.main_script]>
                     (<["/sdk" := Dir]> ∅)))))
         Sample.empty_world.

(** The environment of the run that [check_env] has started again. *)
Definition cleaned : gmap string string :=
  {[ "ENVCLEANED" := "1"; "PATH" := "/usr/local/bin:/usr/bin:/bin:." ]}.

End Scenario.


(** * Properties *)

#[local] Arguments String.append !_ _ / : simpl nomatch.

(** ** prompt_bool *)

Module PromptFacts.
Import PyStr.

Ltac by_cases_on_char c :=
  destruct c as [[] [] [] [] [] [] [] []]; vm_compute; intuition congruence.

Lemma lower_char_y c : lower_char c = "y"%char <-> c = "y"%char \/ c = "Y"%char.
Proof. by_cases_on_char c. Qed.

Lemma is_space_lower_char c : is_space (lower_char c) = is_space c.
Proof. by_cases_on_char c. Qed.

Lemma all_space_lower s : all_space (lower s) = all_space s.
Proof.
  induction s as [|c r IH]; simpl; [reflexivity|].
  now rewrite is_space_lower_char, IH.
Qed.

Lemma lower_app a b : lower (a +:+ b) = lower a +:+ lower b.
Proof. induction a as [|c a IH]; simpl; [reflexivity|]. now rewrite IH. Qed.

Lemma lower_split s a b :
  lower s = a +:+ b -> exists a0 b0, s = a0 +:+ b0 /\ lower a0 = a /\ lower b0 = b.
Proof.
  revert s; induction a as [|c a IH]; intros s H; simpl in H.
  - exists EmptyString, s. auto.
  - destruct s as [|d s]; simpl in H; [discriminate|].
    injection H as Hc Hs. destruct (IH _ Hs) as (a0 & b0 & -> & Ha & Hb).
    exists (String d a0), b0. simpl. rewrite Hc, Ha. auto.
Qed.

Lemma rstrip_empty s : rstrip s = EmptyString <-> all_space s = true.
Proof.
  induction s as [|c r IH]; simpl; [tauto|].
  destruct (rstrip r) eqn:E.
  - destruct (is_space c); simpl; [tauto|]. split; discriminate.
  - split; [discriminate|]. intros H. apply andb_true_iff in H as [_ H].
    apply IH in H. discriminate.
Qed.

Lemma lstrip_split s :
  exists pre, s = pre +:+ lstrip s /\ all_space pre = true.
Proof.
  induction s as [|c r (pre & E & Hp)]; simpl.
  - exists EmptyString. auto.
  - destruct (is_space c) eqn:Hc.
    + exists (String c pre). simpl. rewrite Hc, Hp.
      split; [f_equal; exact E|reflexivity].
    + exists EmptyString. auto.
Qed.

Lemma lstrip_spaces pre r : all_space pre = true -> lstrip (pre +:+ r) = lstrip r.
Proof.
  induction pre as [|c pre IH]; simpl; [reflexivity|].
  intros H. apply andb_true_iff in H as [-> H]. auto.
Qed.

Lemma strip_is_y s :
  strip s = "y" <->
  exists pre post, s = pre +:+ "y" +:+ post
                   /\ all_space pre = true /\ all_space post = true.
Proof.
  unfold strip. split.
  - intros H. destruct (lstrip_split s) as (pre & E & Hp).
    destruct (lstrip s) as [|c r] eqn:El; simpl in H; [discriminate|].
    destruct (rstrip r) eqn:Er.
    + destruct (is_space c); [discriminate|]. injection H as ->.
      exists pre, r. split; [exact E|]. split; [exact Hp|].
      now apply rstrip_empty.
    + discriminate.
  - intros (pre & post & -> & Hp & Hq).
    rewrite lstrip_spaces by exact Hp. simpl.
    apply rstrip_empty in Hq. now rewrite Hq.
Qed.

(** The replies that count as acceptance: one [y] or [Y] with white
    space around it. *)
Lemma accepted_replies s :
  strip (lower s) = "y" <->
  exists pre c post, s = pre +:+ String c post
                     /\ (c = "y"%char \/ c = "Y"%char)
                     /\ all_space pre = true /\ all_space post = true.
Proof.
  rewrite strip_is_y. split.
  - intros (pre & post & E & Hp & Hq).
    destruct (lower_split _ _ _ E) as (a0 & b0 & -> & Ha & Hb).
    destruct b0 as [|c b0]; simpl in Hb; [discriminate|].
    injection Hb as Hc Hb. exists a0, c, b0.
    split; [reflexivity|]. split; [now apply lower_char_y|].
    rewrite <- (all_space_lower a0), <- (all_space_lower b0), Ha, Hb. auto.
  - intros (pre & c & post & -> & Hc & Hp & Hq).
    exists (lower pre), (lower post). rewrite lower_app. simpl.
    apply lower_char_y in Hc. rewrite Hc, !all_space_lower. auto.
Qed.
End PromptFacts.

(** C9: at end of input and on an empty reply the prompt gives its
    default; any other reply counts as acceptance exactly when it is [y]
    once lowered and stripped, that is one [y] or [Y] with nothing but
    white space around it; the reply [yes] declines. *)
Theorem prompt_bool_answer :
  (forall default, prompt_bool None default = default)
  /\ (forall default, prompt_bool (Some "") default = default)
  /\ (forall c s default,
        prompt_bool (Some (String c s)) default = true
        <-> PyStr.strip (PyStr.lower (String c s)) = "y")
  /\ (forall c s default,
        prompt_bool (Some (String c s)) default = true
        <-> exists pre k post,
              String c s = pre +:+ String k post
              /\ (k = "y"%char \/ k = "Y"%char)
              /\ PyStr.all_space pre = true
              /\ PyStr.all_space post = true)
  /\ (forall default, prompt_bool (Some "yes") default = false).
Proof.
  split; [reflexivity|]. split; [reflexivity|].
  assert (E : forall c s default,
             prompt_bool (Some (String c s)) default = true
             <-> PyStr.strip (PyStr.lower (String c s)) = "y").
  { intros c s default. unfold prompt_bool. apply String.eqb_eq. }
  split; [exact E|]. split; [|reflexivity].
  intros c s default. rewrite E. apply PromptFacts.accepted_replies.
Qed.


(** ** Strings *)

Module StrFacts.
Import PyStr.

Lemma append_assoc (a b c : string) : (a +:+ b) +:+ c = a +:+ (b +:+ c).
Proof. induction a as [|x a IH]; simpl; [reflexivity|]. now rewrite IH. Qed.

Lemma append_nil_r (a : string) : a +:+ "" = a.
Proof. induction a as [|x a IH]; simpl; [reflexivity|]. now rewrite IH. Qed.

Lemma length_append (a b : string) :
  String.length (a +:+ b) = (String.length a + String.length b)%nat.
Proof. induction a as [|x a IH]; simpl; [reflexivity|]. now rewrite IH. Qed.

Lemma prefix_spec p s : String.prefix p s = true <-> exists t, s = p +:+ t.
Proof.
  revert s; induction p as [|c p IH]; intros s; simpl.
  - split; [exists s; reflexivity | destruct s; reflexivity].
  - destruct s as [|d s].
    + split; [discriminate | intros [t H]; discriminate].
    + simpl. destruct (ascii_dec c d) as [->|Hne].
      * rewrite IH. split; intros [t H]; exists t; [now rewrite H | congruence].
      * split; [discriminate | intros [t H]; congruence].
Qed.

(** [needle in hay] holds exactly when [needle] is a substring. *)
Lemma str_in_spec needle hay :
  str_in needle hay = true <-> exists a b, hay = a +:+ needle +:+ b.
Proof.
  induction hay as [|c hay IH]; cbn [str_in].
  - rewrite orb_false_r, prefix_spec. split.
    + intros [t H]. exists EmptyString, t. exact H.
    + intros (a & b & H). destruct a; simpl in H; [now exists b | discriminate].
  - rewrite orb_true_iff, prefix_spec, IH. split.
    + intros [[t H] | (a & b & H)].
      * exists EmptyString, t. exact H.
      * exists (String c a), b. simpl. now rewrite H.
    + intros (a & b & H). destruct a as [|d a]; simpl in H.
      * left. now exists b.
      * right. exists a, b. congruence.
Qed.

Lemma subst_from_absent matches width new s :
  (forall a b, s = a +:+ b -> matches b = false) ->
  subst_from matches width new 0 s = s.
Proof.
  induction s as [|c s IH]; intros H; simpl; [reflexivity|].
  rewrite (H EmptyString (String c s) eq_refl). f_equal. apply IH.
  intros a b ->. apply (H (String c a) b). reflexivity.
Qed.

(** Replacing a text that does not occur changes nothing. *)
Lemma str_replace_absent old new s :
  str_in old s = false -> str_replace old new s = s.
Proof.
  intros H. destruct old as [|c old].
  - destruct s; discriminate.
  - unfold str_replace. apply subst_from_absent. intros a b ->.
    destruct (String.prefix (String c old) b) eqn:E; [|reflexivity].
    apply prefix_spec in E as [t ->].
    assert (str_in (String c old) (a +:+ String c old +:+ t) = true) as E
      by (apply str_in_spec; eauto).
    congruence.
Qed.

Lemma concat_lines_from cur p s :
  (forall r, cur r = p +:+ r) -> concat (lines_from cur s) = p +:+ s.
Proof.
  revert cur p; induction s as [|c s IH]; intros cur p Hcur; simpl.
  - rewrite Hcur. destruct (p +:+ "") eqn:E; simpl; [reflexivity|].
    now rewrite append_nil_r.
  - destruct (Ascii.eqb c newline).
    + simpl. rewrite Hcur, (IH (fun r => r) EmptyString) by reflexivity.
      simpl. now rewrite append_assoc.
    + rewrite (IH _ (p +:+ String c EmptyString)).
      * now rewrite append_assoc.
      * intros r. now rewrite Hcur, append_assoc.
Qed.

(** The lines of a text, put together again, are the text. *)
Lemma concat_readlines s : concat (readlines s) = s.
Proof. apply (concat_lines_from _ EmptyString). reflexivity. Qed.

Lemma str_mul_add c a b :
  0 <= a -> 0 <= b -> str_mul c a +:+ str_mul c b = str_mul c (a + b).
Proof.
  intros Ha Hb. unfold str_mul. rewrite Z2Nat.inj_add by assumption.
  induction (Z.to_nat a) as [|n IH]; simpl; [reflexivity|]. now rewrite IH.
Qed.

Lemma any_in_spec (fragments : gset string) name :
  any_in fragments name = true
  <-> exists s, s ∈ fragments /\ exists a b, name = a +:+ s +:+ b.
Proof.
  unfold any_in. rewrite existsb_exists. split.
  - intros (s & Hs & H). exists s. split.
    + apply elem_of_elements, list_elem_of_In, Hs.
    + now apply str_in_spec.
  - intros (s & Hs & H). exists s. split.
    + apply list_elem_of_In, elem_of_elements, Hs.
    + now apply str_in_spec.
Qed.
End StrFacts.

(** ** The monad *)

Lemma bind_ok {A B} (m : M A) (k : A -> M B) w a w' :
  m w = (Ok a, w') -> bind m k w = k a w'.
Proof. unfold bind. now intros ->. Qed.

Lemma bind_raise {A B} (m : M A) (k : A -> M B) w e w' :
  m w = (Raise e, w') -> bind m k w = (Raise e, w').
Proof. unfold bind. now intros ->. Qed.

Lemma bind_inv {A B} (m : M A) (k : A -> M B) w r w' :
  bind m k w = (r, w') ->
  (exists a w1, m w = (Ok a, w1) /\ k a w1 = (r, w'))
  \/ (exists e, m w = (Raise e, w') /\ r = Raise e).
Proof.
  unfold bind. destruct (m w) as [[a|e] w1]; intros H.
  - left. eauto.
  - right. injection H as <- <-. eauto.
Qed.

Lemma only_fs_refl w : only_fs w w.
Proof. now unfold only_fs. Qed.

Lemma only_fs_trans w1 w2 w3 : only_fs w1 w2 -> only_fs w2 w3 -> only_fs w1 w3.
Proof. unfold only_fs. intuition congruence. Qed.

Lemma only_fs_set_fs m w : only_fs w (set_fs m w).
Proof. now unfold only_fs. Qed.

Ltac munfold :=
  unfold OS.check_access in *;
  unfold bind, ret, get, modify, raise, lift in *;
  cbv beta in *.

Ltac mcrush :=
  munfold; intros;
  repeat (simplify_eq/=; try case_match); simplify_eq/=;
  try (unfold only_fs in *; simpl in *; intuition congruence).

Module OSFacts.
Import OS.

Lemma resolve_from_eq n m p :
  resolve_from n m p =
  match m !! p with
  | Some (Symlink t) =>
      match n with
      | O => None
      | S k => resolve_from k m (Path.join (Path.dirname p) t)
      end
  | _ => Some p
  end.
Proof. destruct n; reflexivity. Qed.

Lemma resolve_absent m p : m !! p = None -> resolve m p = Some p.
Proof. intros H. unfold resolve. now rewrite resolve_from_eq, H. Qed.

Lemma resolve_plain m p n :
  m !! p = Some n -> (forall t, n <> Symlink t) -> resolve m p = Some p.
Proof.
  intros H Hn. unfold resolve. rewrite resolve_from_eq, H.
  destruct n; try reflexivity. now destruct (Hn target).
Qed.

Lemma resolve_link m p t :
  m !! p = Some (Symlink t) ->
  resolve m p = resolve_from (pred MAXSYMLINKS) m (Path.join (Path.dirname p) t).
Proof. intros H. unfold resolve. now rewrite resolve_from_eq, H. Qed.

Lemma unlink_only_fs d p w r w' : unlink d p w = (r, w') -> only_fs w w'.
Proof. unfold unlink. mcrush. Qed.

Lemma makedirs_only_fs d p w r w' : makedirs d p w = (r, w') -> only_fs w w'.
Proof. unfold makedirs. mcrush. Qed.

Lemma open_read_same p w r w' : open_read p w = (r, w') -> w' = w.
Proof. unfold open_read. mcrush. Qed.

Lemma open_write_only_fs d p w r w' : open_write d p w = (r, w') -> only_fs w w'.
Proof. unfold open_write. mcrush. Qed.

Lemma read_same p w r w' : read p w = (r, w') -> w' = w.
Proof. unfold read. mcrush. Qed.

Lemma write_only_fs p t w r w' : write p t w = (r, w') -> only_fs w w'.
Proof. unfold write. mcrush. Qed.

Lemma rename_only_fs d a b w r w' : rename d a b w = (r, w') -> only_fs w w'.
Proof. unfold rename. mcrush. Qed.

Lemma move_only_fs d a b w r w' : move d a b w = (r, w') -> only_fs w w'.
Proof.
  unfold move. munfold. destruct (isdir (fs w) b).
  - mcrush.
  - apply rename_only_fs.
Qed.

(** Which node is at [p] decides the three tests of [extract_file]. *)
Lemma conflict_test m p :
  lexists m p && (islink m p || negb (isdir m p)) =
  match m !! p with
  | Some Dir | None => false
  | Some _ => true
  end.
Proof.
  unfold lexists, islink, isdir. destruct (m !! p) as [n|] eqn:E; [|reflexivity].
  destruct n; try reflexivity.
  - erewrite resolve_plain by (eassumption || discriminate). now rewrite E.
  - erewrite resolve_plain by (eassumption || discriminate). now rewrite E.
  - erewrite resolve_plain by (eassumption || discriminate). now rewrite E.
Qed.
End OSFacts.

Module TarFacts.
Import Tar.

Lemma extract_only_fs d f path w r w' :
  extract d f path w = (r, w') -> only_fs w w'.
Proof.
  unfold extract. munfold. destruct (type f).
  - destruct (OS.open_write d (Path.join path (name f)) w) as [[t|e] w1] eqn:E.
    + intros H. apply OSFacts.open_write_only_fs in E.
      apply OSFacts.write_only_fs in H. eapply only_fs_trans; eassumption.
    + intros H. injection H as <- <-. eapply OSFacts.open_write_only_fs, E.
  - mcrush.
  - destruct (OS.lexists (fs w) _).
    + destruct (OS.unlink d _ w) as [[[]|e] w1] eqn:E.
      * apply OSFacts.unlink_only_fs in E. destruct E as (? & ? & ?).
        unfold only_fs. mcrush.
      * apply OSFacts.unlink_only_fs in E. mcrush.
    + mcrush.
  - mcrush.
Qed.


(** A directory that is in the way stays: it is kept for a directory
    member and makes the extraction of any other member fail. *)
Lemma extract_onto_directory d f path w r w' :
  fs w !! Path.join path (name f) = Some Dir ->
  extract d f path w = (r, w') ->
  w' = w /\ (r = Ok tt <-> type f = DIRTYPE).
Proof.
  intros Hdir. unfold extract. munfold.
  assert (OS.resolve (fs w) (Path.join path (name f)) = Some (Path.join path (name f)))
    as Hres by (eapply OSFacts.resolve_plain; [eassumption | discriminate]).
  destruct (type f).
  - unfold OS.open_write. munfold. rewrite Hres, Hdir.
    intros H; simplify_eq/=. split; [reflexivity|]. split; discriminate.
  - rewrite Hdir. unfold OS.isdir. rewrite Hres, Hdir.
    intros H; simplify_eq/=. tauto.
  - unfold OS.lexists, OS.unlink. munfold. simpl. rewrite !Hdir. simpl.
    intros H; simplify_eq/=. split; [reflexivity|]. split; discriminate.
  - rewrite Hdir.
    intros H; simplify_eq/=. split; [reflexivity|]. split; discriminate.
Qed.
End TarFacts.

Section ExtractionFacts.
Variable h : host.


Lemma remove_conflict_keeps destination f w :
  fs w !! Path.join destination (Tar.name f) = Some Dir
  \/ fs w !! Path.join destination (Tar.name f) = None ->
  remove_conflict h destination f w = (Ok tt, w).
Proof.
  intros H. unfold remove_conflict. munfold.
  rewrite OSFacts.conflict_test. now destruct H as [-> | ->].
Qed.

(** What [remove_conflict] can do at all: nothing, or one [unlink] of
    the destination path of the member, which is no directory. *)
Lemma remove_conflict_inv destination f w r w' :
  remove_conflict h destination f w = (r, w') ->
  stdin w' = stdin w /\ stdout w' = stdout w
  /\ ((w' = w /\ r = Ok tt)
      \/ (calls w' = calls w ++ [Unlink (Path.join destination (Tar.name f))]
          /\ exists n, fs w !! Path.join destination (Tar.name f) = Some n
                       /\ n <> Dir
                       /\ (fs w' = fs w
                           \/ fs w' = delete (Path.join destination (Tar.name f)) (fs w)))).
Proof.
  unfold remove_conflict. munfold. rewrite OSFacts.conflict_test.
  destruct (fs w !! _) as [n|] eqn:E.
  - destruct n; unfold OS.unlink; munfold; simpl; rewrite ?E;
      try (intros H; simplify_eq/=; tauto);
      (destruct (denied h _); intros H; simplify_eq/=;
       (split; [reflexivity|]); (split; [reflexivity|]); right;
       (split; [reflexivity|]); eexists; (split; [reflexivity|]);
       (split; [discriminate|]); auto).
  - intros H; simplify_eq/=. tauto.
Qed.

Lemma checkpoint_spec f pr w :
  exists pr' w',
    checkpoint f pr w = (Ok pr', w')
    /\ current_size pr' = current_size pr + Tar.size f
    /\ printed_checkpoints pr' = current_size pr' / CHECKPOINT
    /\ fs w' = fs w /\ stdin w' = stdin w /\ calls w' = calls w
    /\ stdout w' = stdout w
         +:+ PyStr.str_mul "." (printed_checkpoints pr' - printed_checkpoints pr).
Proof.
  unfold checkpoint, print_raw. munfold.
  destruct (negb _) eqn:E; simpl.
  - eexists _, _. split; [reflexivity|]. simpl.
    repeat split; try lia.
    f_equal. f_equal. lia.
  - eexists _, _. split; [reflexivity|]. simpl.
    apply negb_false_iff, Z.eqb_eq in E.
    repeat split; try lia.
    rewrite Z.sub_diag. symmetry. apply StrFacts.append_nil_r.
Qed.

(** The steps of one complete call of [extract_file]. *)
Lemma extract_file_ok destination f pr w pr' w' :
  extract_file h destination f pr w = (Ok pr', w') ->
  exists w1 w2,
    remove_conflict h destination f w = (Ok tt, w1)
    /\ Tar.extract (denied h) f destination
         (add_call (Extract (Tar.name f) destination) w1) = (Ok tt, w2)
    /\ checkpoint f pr w2 = (Ok pr', w').
Proof.
  unfold extract_file. intros H.
  apply bind_inv in H as [([] & w1 & H1 & H) | (e & _ & ?)]; [|discriminate].
  apply bind_inv in H as [([] & w1' & H2 & H) | (e & _ & ?)]; [|discriminate].
  apply bind_inv in H as [([] & w2 & H3 & H) | (e & _ & ?)]; [|discriminate].
  unfold modify in H2. simplify_eq/=. eauto.
Qed.

Lemma extracted_app a b : extracted (a ++ b) = extracted a ++ extracted b.
Proof. apply omap_app. Qed.

(** One call of [extract_file] hands its member to [tf.extract], unless
    the removal of what is in the way fails first. *)
Lemma extract_file_calls destination f pr w r w' :
  extract_file h destination f pr w = (r, w') ->
  extracted (calls w') = extracted (calls w) ++ [Tar.name f]
  \/ (extracted (calls w') = extracted (calls w) /\ exists e, r = Raise e).
Proof.
  unfold extract_file. intros H.
  apply bind_inv in H as [([] & w1 & H1 & H) | (e & H1 & ->)].
  - apply remove_conflict_inv in H1 as (_ & _ & H1).
    assert (extracted (calls w1) = extracted (calls w)) as E1.
    { destruct H1 as [[-> _] | [-> _]]; [reflexivity|].
      rewrite extracted_app. simpl. apply app_nil_r. }
    left.
    apply bind_inv in H as [([] & w1' & H2 & H) | (e & H2 & ->)];
      unfold modify in H2; simplify_eq/=.
    assert (forall w2 r2, only_fs (add_call (Extract (Tar.name f) destination) w1) w2 ->
              checkpoint f pr w2 = (r2, w') ->
              extracted (calls w') = extracted (calls w) ++ [Tar.name f]) as K.
    { intros w2 r2 (_ & _ & Hc) Hk.
      destruct (checkpoint_spec f pr w2) as (? & ? & Hk' & _ & _ & _ & _ & Hc' & _).
      rewrite Hk in Hk'. simplify_eq/=. rewrite Hc', Hc. simpl.
      rewrite extracted_app, E1. reflexivity. }
    apply bind_inv in H as [([] & w2 & H3 & H) | (e & H3 & ->)].
    + eapply K; [eapply TarFacts.extract_only_fs, H3 | exact H].
    + apply TarFacts.extract_only_fs in H3 as (_ & _ & ->). simpl.
      rewrite extracted_app, E1. reflexivity.
  - right. apply remove_conflict_inv in H1 as (_ & _ & H1).
    split; [|eauto].
    destruct H1 as [[-> _] | [-> _]]; [reflexivity|].
    rewrite extracted_app. simpl. apply app_nil_r.
Qed.

Lemma extract_members_calls exclude destination members pr w r w' :
  extract_members h exclude destination members pr w = (r, w') ->
  exists done,
    extracted (calls w') = extracted (calls w) ++ done
    /\ done `prefix_of`
         map Tar.name (filter (fun f => PyStr.any_in exclude (Tar.name f) = false) members)
    /\ (forall pr', r = Ok pr' ->
          done = map Tar.name
                   (filter (fun f => PyStr.any_in exclude (Tar.name f) = false) members)).
Proof.
  revert pr w; induction members as [|f members IH]; intros pr w; simpl.
  - unfold ret. intros H; simplify_eq/=. exists []. rewrite app_nil_r. auto.
  - destruct (PyStr.any_in exclude (Tar.name f)) eqn:E.
    + rewrite filter_cons_False by congruence. apply IH.
    + rewrite filter_cons_True by assumption. simpl. intros H.
      apply bind_inv in H as [(pr1 & w1 & H1 & H) | (e & H1 & ->)].
      * apply extract_file_calls in H1 as [H1 | [_ [e ?]]]; [|discriminate].
        apply IH in H as (done & Hd & Hp & Hok).
        exists (Tar.name f :: done). rewrite Hd, H1, <- app_assoc. simpl.
        split; [reflexivity|]. split; [now apply prefix_cons|].
        intros pr' ->. f_equal. eauto.
      * apply extract_file_calls in H1 as [H1 | [H1 _]].
        -- exists [Tar.name f]. split; [exact H1|].
           split; [apply prefix_cons, prefix_nil | discriminate].
        -- exists []. rewrite app_nil_r. split; [exact H1|].
           split; [apply prefix_nil | discriminate].
Qed.

Lemma extract_members_progress exclude destination members pr w pr' w' :
  Forall (fun f => 0 <= Tar.size f)
         (filter (fun f => PyStr.any_in exclude (Tar.name f) = false) members) ->
  0 <= current_size pr ->
  printed_checkpoints pr = current_size pr / CHECKPOINT ->
  extract_members h exclude destination members pr w = (Ok pr', w') ->
  current_size pr' = current_size pr
    + total_size (filter (fun f => PyStr.any_in exclude (Tar.name f) = false) members)
  /\ printed_checkpoints pr' = current_size pr' / CHECKPOINT
  /\ stdout w' = stdout w
       +:+ PyStr.str_mul "." (printed_checkpoints pr' - printed_checkpoints pr).
Proof.
  revert pr w; induction members as [|f members IH]; intros pr w; simpl.
  - unfold ret. intros _ _ Hp H; simplify_eq/=.
    rewrite Z.add_0_r, Z.sub_diag. split; [reflexivity|]. split; [exact Hp|].
    symmetry. apply StrFacts.append_nil_r.
  - destruct (PyStr.any_in exclude (Tar.name f)) eqn:E.
    + rewrite filter_cons_False by congruence. apply IH.
    + rewrite filter_cons_True by assumption. simpl.
      intros Hall Hc Hp H. apply Forall_cons in Hall as [Hf Hall].
      apply bind_inv in H as [(pr1 & w1 & H1 & H) | (e & _ & ?)]; [|discriminate].
      apply extract_file_ok in H1 as (u1 & u2 & R1 & R2 & R3).
      apply remove_conflict_inv in R1 as (_ & O1 & _).
      apply TarFacts.extract_only_fs in R2 as (_ & O2 & _).
      destruct (checkpoint_spec f pr u2) as (? & ? & R3' & C1 & C2 & _ & _ & _ & C3).
      rewrite R3 in R3'. simplify_eq/=.
      apply IH in H as (I1 & I2 & I3); [|assumption|lia|assumption].
      split; [lia|]. split; [exact I2|].
      rewrite I3, C3, O2. simpl. rewrite O1, StrFacts.append_assoc.
      f_equal. rewrite StrFacts.str_mul_add.
      * f_equal. lia.
      * rewrite C2, Hp, C1. apply Z.le_0_sub, Z.div_le_mono; unfold CHECKPOINT; lia.
      * rewrite I2, C2, I1. apply Z.le_0_sub, Z.div_le_mono; [unfold CHECKPOINT; lia|].
        assert (0 <= total_size (filter (fun f => PyStr.any_in exclude (Tar.name f) = false) members)).
        { clear -Hall. induction Hall; simpl; lia. }
        lia.
Qed.
End ExtractionFacts.

Section ExtractionClaims.
Variable h : host.

(** Without the removal, the regular file of a member is written
    through a link that is in its place. *)
Lemma tar_extract_follows_link f path w t :
  Tar.type f = Tar.REGTYPE ->
  fs w !! Path.join path (Tar.name f) = Some (Symlink t) ->
  PyStr.startswith t "/" = true ->
  (forall t', fs w !! t <> Some (Symlink t')) ->
  fs w !! t <> Some Dir -> fs w !! t <> Some Special ->
  denied h t = false ->
  Tar.extract (denied h) f path w
  = (Ok tt, set_fs (<[t := File (Tar.data f)]> (fs w)) w).
Proof.
  intros Hty Hl Ht Hnl Hnd Hns Hd. unfold Tar.extract. munfold. rewrite Hty.
  unfold OS.open_write, OS.write. munfold.
  assert (OS.resolve (fs w) (Path.join path (Tar.name f)) = Some t) as ->.
  { rewrite (OSFacts.resolve_link _ _ _ Hl). unfold Path.join at 1. rewrite Ht.
    rewrite OSFacts.resolve_from_eq.
    destruct (fs w !! t) as [[]|] eqn:E; try reflexivity.
    now destruct (Hnl target). }
  destruct (fs w !! t) as [[]|] eqn:E; try congruence;
    rewrite Hd; unfold set_fs; simpl; now rewrite insert_insert_eq.
Qed.


(** C10: a directory at the destination path of a member is not
    removed and is still there afterwards; what [extract_file] removes
    is never a directory. *)
Theorem extract_file_keeps_directory destination f pr w :
  OS.lexists (fs w) (Path.join destination (Tar.name f)) = true ->
  OS.islink (fs w) (Path.join destination (Tar.name f)) = false ->
  OS.isdir (fs w) (Path.join destination (Tar.name f)) = true ->
  remove_conflict h destination f w = (Ok tt, w)
  /\ (forall r w', extract_file h destination f pr w = (r, w') ->
        fs w' = fs w
        /\ calls w' = calls w ++ [Extract (Tar.name f) destination])
  /\ (forall v r v', remove_conflict h destination f v = (r, v') ->
        fs v' <> fs v ->
        exists n, fs v !! Path.join destination (Tar.name f) = Some n
                  /\ n <> Dir
                  /\ fs v' = delete (Path.join destination (Tar.name f)) (fs v)).
Proof.
  set (dest := Path.join destination (Tar.name f)).
  intros Hex Hlink Hdir.
  assert (fs w !! dest = Some Dir) as Hn.
  { unfold OS.lexists, OS.islink, OS.isdir in *.
    destruct (fs w !! dest) as [n|] eqn:E; [|discriminate].
    destruct n; try discriminate; try reflexivity;
      erewrite OSFacts.resolve_plain in Hdir by (eassumption || discriminate);
      rewrite E in Hdir; discriminate. }
  pose proof (remove_conflict_keeps h destination f w (or_introl Hn)) as R1.
  split; [exact R1|]. split.
  - intros r w' H. unfold extract_file in H.
    rewrite (bind_ok _ _ _ _ _ R1) in H.
    erewrite bind_ok in H by reflexivity.
    apply bind_inv in H as [([] & w2 & H2 & H) | (e & H2 & ->)].
    + apply TarFacts.extract_onto_directory in H2 as [-> _]; [|exact Hn].
      destruct (checkpoint_spec f pr (add_call (Extract (Tar.name f) destination) w))
        as (? & ? & R3 & _ & _ & Hfs & _ & Hcalls & _).
      rewrite H in R3. simplify_eq/=. auto.
    + apply TarFacts.extract_onto_directory in H2 as [-> _]; [|exact Hn]. auto.
  - intros v r v' H Hne.
    apply remove_conflict_inv in H as (_ & _ & [[-> _] | (_ & n & Hv & Hnd & Hfs)]).
    + contradiction.
    + exists n. destruct Hfs as [Hfs | Hfs]; [contradiction | auto].
Qed.


(** C6: after an extraction that started with both counters at zero,
    the dots printed are as many as the checkpoint fits into the bytes
    of the extracted members; two of them for twice the checkpoint. *)
Theorem progress_ticks exclude destination members w pr' w' :
  Forall (fun f => 0 <= Tar.size f)
         (filter (fun f => PyStr.any_in exclude (Tar.name f) = false) members) ->
  extract_members h exclude destination members
    {| current_size := 0; printed_checkpoints := 0 |} w = (Ok pr', w') ->
  let total :=
    total_size (filter (fun f => PyStr.any_in exclude (Tar.name f) = false) members) in
  current_size pr' = total
  /\ printed_checkpoints pr' = total / CHECKPOINT
  /\ stdout w' = stdout w +:+ PyStr.str_mul "." (total / CHECKPOINT)
  /\ (total = 2 * CHECKPOINT -> stdout w' = stdout w +:+ "..").
Proof.
  intros Hall H total.
  apply extract_members_progress in H as (H1 & H2 & H3);
    [|assumption|simpl; lia|reflexivity].
  simpl in H1, H3. fold total in H1. rewrite Z.sub_0_r, H2, H1 in H3.
  rewrite H2, H1. repeat split; try assumption.
  intros E. rewrite H3, E. reflexivity.
Qed.
End ExtractionClaims.


Lemma extract_file_keeps_directory_witness :
  remove_conflict Sample.linux "/sdk" Sample.bin_dir Sample.stale_link
  = (Ok tt, Sample.stale_link).
Proof.
  apply (extract_file_keeps_directory Sample.linux "/sdk" Sample.bin_dir
           Sample.start Sample.stale_link); vm_compute; reflexivity.
Defined.


Lemma progress_ticks_witness :
  stdout (snd (extract_members Sample.linux {["sstate-cache"]} "/sdk"
                 Sample.payload Sample.start Sample.empty_world))
  = "..".
Proof.
  destruct (progress_ticks Sample.linux {["sstate-cache"]} "/sdk"
              Sample.payload Sample.empty_world
              {| current_size := 51200000; printed_checkpoints := 2 |}
              (snd (extract_members Sample.linux {["sstate-cache"]} "/sdk"
                      Sample.payload Sample.start Sample.empty_world)))
    as (_ & _ & _ & K).
  - vm_compute. repeat constructor; discriminate.
  - etransitivity; [apply surjective_pairing|].
    f_equal; vm_compute; reflexivity.
  - rewrite K by (vm_compute; reflexivity). reflexivity.
Defined.

Module SortFacts.
Import PyStr.

Lemma insert_by_perm le x l : insert_by le x l ≡ₚ x :: l.
Proof.
  induction l as [|y l IH]; simpl; [reflexivity|].
  destruct (le x y); [reflexivity|]. rewrite IH. apply Permutation_swap.
Qed.

Lemma sort_by_perm le l : sort_by le l ≡ₚ l.
Proof.
  induction l as [|x l IH]; simpl; [reflexivity|].
  rewrite insert_by_perm. now rewrite IH.
Qed.

Section Total.
Variable le : string -> string -> bool.
Hypothesis le_total : forall a b, le a b = true \/ le b a = true.

Lemma insert_by_hd x y l :
  le y x = true -> HdRel (fun a b => le a b = true) y l ->
  HdRel (fun a b => le a b = true) y (insert_by le x l).
Proof.
  intros Hyx Hl. destruct l as [|z l]; simpl.
  - now constructor.
  - destruct (le x z); constructor; [assumption|]. now inversion Hl.
Qed.

Lemma insert_by_sorted x l :
  Sorted (fun a b => le a b = true) l ->
  Sorted (fun a b => le a b = true) (insert_by le x l).
Proof.
  induction 1 as [|y l Hs IH Hhd]; simpl.
  - repeat constructor.
  - destruct (le x y) eqn:E.
    + constructor; [now constructor|]. now constructor.
    + constructor; [exact IH|]. apply insert_by_hd; [|exact Hhd].
      destruct (le_total x y); congruence.
Qed.

Lemma sort_by_sorted l : Sorted (fun a b => le a b = true) (sort_by le l).
Proof.
  induction l as [|x l IH]; simpl; [constructor|].
  now apply insert_by_sorted.
Qed.
End Total.

Lemma sorted_sorted l : Sorted (fun a b => String.leb a b = true) (sorted l).
Proof. apply sort_by_sorted, String.leb_total. Qed.
End SortFacts.

Section RelocationFacts.
Variable cfg : config.
Variable h : host.

Lemma scripts_perm destination m :
  environment_setup_scripts destination m
  ≡ₚ filter (fun p => is_setup_script destination p = true) (map_to_list m).*1.
Proof. apply SortFacts.sort_by_perm. Qed.

Lemma scripts_NoDup destination m :
  NoDup (environment_setup_scripts destination m).
Proof.
  rewrite scripts_perm. apply NoDup_filter, NoDup_fst_map_to_list.
Qed.

Lemma scripts_elem destination m s :
  s ∈ environment_setup_scripts destination m ->
  is_setup_script destination s = true /\ is_Some (m !! s).
Proof.
  rewrite scripts_perm, list_elem_of_filter, list_elem_of_fmap.
  intros (Hs & [k x] & -> & Hk). split; [exact Hs|].
  apply elem_of_map_to_list in Hk. simpl. eauto.
Qed.

Lemma setup_script_nonempty destination s :
  is_setup_script destination s = true -> s <> "".
Proof.
  unfold is_setup_script. intros H ->.
  apply andb_true_iff in H as [H _]. unfold PyStr.startswith in H.
  apply StrFacts.prefix_spec in H as [t H].
  unfold Path.join in H. simpl in H.
  destruct (_ || _); destruct destination; discriminate.
Qed.

Lemma tmp_name_differs (s : string) : s +:+ ".tmp" <> s.
Proof.
  intros H. apply (f_equal String.length) in H.
  rewrite StrFacts.length_append in H. simpl in H. lia.
Qed.

Lemma open_read_file p text w :
  fs w !! p = Some (File text) -> OS.open_read p w = (Ok p, w).
Proof.
  intros H. unfold OS.open_read. munfold.
  rewrite (OSFacts.resolve_plain _ _ _ H) by discriminate. now rewrite H.
Qed.

Lemma open_write_fresh d p w :
  fs w !! p = None -> d p = false ->
  OS.open_write d p w = (Ok p, set_fs (<[p := File ""]> (fs w)) w).
Proof.
  intros H Hd. unfold OS.open_write. munfold.
  rewrite (OSFacts.resolve_absent _ _ H), H, Hd. reflexivity.
Qed.

Lemma read_file p text w :
  fs w !! p = Some (File text) -> OS.read p w = (Ok text, w).
Proof. intros H. unfold OS.read. munfold. now rewrite H. Qed.

Lemma move_onto_file d src dst text text' w :
  fs w !! src = Some (File text) ->
  fs w !! dst = Some (File text') ->
  d src = false -> d dst = false ->
  OS.move d src dst w
  = (Ok tt, set_fs (<[dst := File text]> (delete src (fs w))) w).
Proof.
  intros Hs Hd Hds Hdd. unfold OS.move, OS.rename, OS.isdir. munfold.
  rewrite (OSFacts.resolve_plain _ _ _ Hd) by discriminate.
  rewrite Hd. cbv beta iota. rewrite Hs, Hd. cbv beta iota.
  now rewrite Hds, Hdd.
Qed.

(** [relocate_file] on a script that it can rewrite in place. *)
Lemma relocate_file_regular destination name text w :
  fs w !! name = Some (File text) ->
  fs w !! (name +:+ ".tmp") = None ->
  denied h name = false ->
  denied h (name +:+ ".tmp") = false ->
  relocate_file cfg h destination name w
  = (Ok (is_real_env_script text),
     set_fs (<[name := File (relocate_text cfg destination text)]> (fs w))
            (add_call (Rewrite name) w)).
Proof.
  intros Hn Ht Hdn Hdt.
  assert (name +:+ ".tmp" <> name) as Hne by apply tmp_name_differs.
  unfold relocate_file.
  erewrite bind_ok by reflexivity.
  erewrite bind_ok by (eapply open_read_file; exact Hn).
  erewrite bind_ok by (apply open_write_fresh; [exact Ht | exact Hdt]).
  erewrite bind_ok
    by (eapply read_file; simpl; rewrite lookup_insert_ne by exact Hne; exact Hn).
  erewrite bind_ok by reflexivity.
  erewrite bind_ok.
  2:{ eapply move_onto_file; simpl; [apply lookup_insert_eq | | exact Hdt | exact Hdn].
      rewrite !lookup_insert_ne by exact Hne. exact Hn. }
  unfold ret, set_fs, add_call. simpl.
  rewrite !insert_insert_eq, delete_insert_id by exact Ht.
  reflexivity.
Qed.

Lemma selected_cons m s scripts before :
  selected m (s :: scripts) before
  = selected m scripts (if marked m s then Some s else before).
Proof.
  unfold selected. destruct (marked m s) eqn:E.
  - rewrite filter_cons_True by exact E. rewrite last_cons.
    now destruct (last _).
  - rewrite filter_cons_False by congruence. reflexivity.
Qed.

Lemma selected_ext m1 m2 scripts before :
  (forall s, s ∈ scripts -> marked m1 s = marked m2 s) ->
  selected m1 scripts before = selected m2 scripts before.
Proof.
  revert before; induction scripts as [|s scripts IH]; intros before H.
  - reflexivity.
  - rewrite !selected_cons, (H s) by apply list_elem_of_here.
    apply IH. intros s' Hs'. apply H. now apply list_elem_of_further.
Qed.

Lemma regular_script_inv m s :
  regular_script h m s = true ->
  (exists text, m !! s = Some (File text))
  /\ m !! (s +:+ ".tmp") = None
  /\ denied h s = false /\ denied h (s +:+ ".tmp") = false.
Proof.
  unfold regular_script, OS.lexists. intros H.
  repeat (apply andb_true_iff in H as [H ?]).
  destruct (m !! s) as [[]|]; try discriminate.
  destruct (m !! (s +:+ ".tmp")); try discriminate.
  repeat split; eauto; now apply negb_true_iff.
Qed.

(** The loop over scripts that can all be rewritten in place: every
    one is rewritten, in the order of the list, and the last one that
    carries the marker is selected. *)
Lemma relocate_scripts_regular destination scripts before w :
  NoDup scripts ->
  forallb (regular_script h (fs w)) scripts = true ->
  exists w',
    relocate_scripts cfg h destination scripts before w
    = (Ok (selected (fs w) scripts before), w')
    /\ calls w' = calls w ++ map Rewrite scripts
    /\ stdin w' = stdin w /\ stdout w' = stdout w
    /\ (forall p, p ∉ scripts -> fs w' !! p = fs w !! p)
    /\ (forall s text, s ∈ scripts -> fs w !! s = Some (File text) ->
          fs w' !! s = Some (File (relocate_text cfg destination text))).
Proof.
  revert before w; induction scripts as [|s scripts IH]; intros before w Hnd Hreg.
  - exists w. simpl. unfold ret. rewrite app_nil_r.
    repeat split; try reflexivity. intros s text Hs. inversion Hs.
  - apply NoDup_cons in Hnd as [Hs Hnd].
    simpl in Hreg. apply andb_true_iff in Hreg as [Hr Hreg].
    destruct (regular_script_inv _ _ Hr) as ([text Ht] & Htmp & Hd1 & Hd2).
    pose proof (relocate_file_regular destination s text w Ht Htmp Hd1 Hd2) as R.
    set (w1 := set_fs (<[s := File (relocate_text cfg destination text)]> (fs w))
                      (add_call (Rewrite s) w)) in R.
    assert (forall s', s' ∈ scripts ->
              fs w1 !! s' = fs w !! s'
              /\ fs w1 !! (s' +:+ ".tmp") = fs w !! (s' +:+ ".tmp")) as Hsame.
    { intros s' Hs'. simpl.
      rewrite forallb_forall in Hreg.
      destruct (regular_script_inv _ _ (Hreg s' (proj1 (list_elem_of_In _ _) Hs')))
        as (_ & Htmp' & _).
      rewrite !lookup_insert_ne; [auto| |]; intros ->; [congruence|contradiction]. }
    destruct (IH (if is_real_env_script text then Some s else before) w1 Hnd)
      as (w' & R' & Hc & Hi & Ho & Hframe & Hnew).
    { apply forallb_forall. intros s' Hs'. apply list_elem_of_In in Hs'.
      rewrite forallb_forall in Hreg.
      specialize (Hreg s' (proj1 (list_elem_of_In _ _) Hs')).
      destruct (Hsame s' Hs') as [E1 E2].
      unfold regular_script, OS.lexists in *. now rewrite E1, E2. }
    exists w'. split.
    { simpl. rewrite (bind_ok _ _ _ _ _ R), R'. f_equal. f_equal.
      rewrite selected_cons.
      assert (marked (fs w) s = is_real_env_script text) as ->
        by (unfold marked; now rewrite Ht).
      apply selected_ext. intros s' Hs'. unfold marked.
      now rewrite (proj1 (Hsame s' Hs')). }
    split; [rewrite Hc; simpl; now rewrite <- app_assoc|].
    split; [rewrite Hi; reflexivity|]. split; [rewrite Ho; reflexivity|].
    split.
    + intros p Hp. apply not_elem_of_cons in Hp as [Hps Hp].
      rewrite (Hframe p Hp). simpl. now rewrite lookup_insert_ne.
    + intros s' text' Hs' Ht'. apply elem_of_cons in Hs' as [-> | Hs'].
      * rewrite (Hframe s Hs). simpl. rewrite lookup_insert_eq. congruence.
      * apply Hnew; [exact Hs'|]. now rewrite (proj1 (Hsame s' Hs')).
Qed.

(** Whatever the scripts are, a script selected by the loop is one of
    them. *)
Lemma relocate_scripts_selects destination scripts before w r w' :
  relocate_scripts cfg h destination scripts before w = (Ok r, w') ->
  r = before \/ exists s, r = Some s /\ s ∈ scripts.
Proof.
  revert before w; induction scripts as [|s scripts IH]; intros before w; simpl.
  - unfold ret. intros H; simplify_eq/=. now left.
  - intros H.
    apply bind_inv in H as [(b & w1 & _ & H) | (e & _ & ?)]; [|discriminate].
    apply IH in H as [-> | (s' & -> & Hs')].
    + destruct b; [|now left]. right. exists s. split; [reflexivity|left].
    + right. exists s'. split; [reflexivity|now right].
Qed.
End RelocationFacts.

Section RelocationClaims.
Variable cfg : config.
Variable h : host.

Lemma set_up_eq a destination w :
  set_up cfg h a destination w
  = bind (relocate_scripts cfg h destination
            (environment_setup_scripts destination (fs w)) None)
         (fun real =>
            bind (local (bind_env_setup_script real))
                 (fun env => finish cfg h a destination env))
         (setting_up w).
Proof. reflexivity. Qed.

Lemma set_up_unbound a destination w w1 :
  relocate_scripts cfg h destination
    (environment_setup_scripts destination (fs w)) None (setting_up w)
  = (Ok None, w1) ->
  set_up cfg h a destination w = (Raise UnboundLocalError, w1).
Proof. intros H. rewrite set_up_eq. now rewrite (bind_ok _ _ _ _ _ H). Qed.

Lemma set_up_bound a destination w s w1 :
  s <> "" ->
  relocate_scripts cfg h destination
    (environment_setup_scripts destination (fs w)) None (setting_up w)
  = (Ok (Some s), w1) ->
  set_up cfg h a destination w = finish cfg h a destination s w1.
Proof.
  intros Hs H. rewrite set_up_eq, (bind_ok _ _ _ _ _ H).
  unfold bind_env_setup_script. apply String.eqb_neq in Hs. now rewrite Hs.
Qed.

(** C5: the candidate scripts are rewritten in the order of their
    names, and the last one that carries the marker is the script that
    the rest of the run refers to. *)
Theorem canonical_script_selected a destination w :
  let scripts := environment_setup_scripts destination (fs w) in
  let canonical := last (filter (fun s => marked (fs w) s = true) scripts) in
  forallb (regular_script h (fs w)) scripts = true ->
  Sorted (fun x y => String.leb x y = true) scripts
  /\ exists w',
       relocate_scripts cfg h destination scripts None (setting_up w)
       = (Ok canonical, w')
       /\ calls w' = calls w ++ map Rewrite scripts
       /\ (forall s text, s ∈ scripts -> fs w !! s = Some (File text) ->
             fs w' !! s = Some (File (relocate_text cfg destination text)))
       /\ (forall s, canonical = Some s ->
             set_up cfg h a destination w = finish cfg h a destination s w').
Proof.
  intros scripts canonical Hreg.
  split; [apply SortFacts.sorted_sorted|].
  destruct (relocate_scripts_regular cfg h destination scripts None (setting_up w))
    as (w' & R & Hc & _ & _ & _ & Hnew);
    [apply scripts_NoDup | exact Hreg |].
  assert (selected (fs w) scripts None = canonical) as E.
  { unfold selected. fold canonical. now destruct canonical. }
  simpl in R. rewrite E in R.
  exists w'. split; [exact R|]. split; [exact Hc|]. split; [exact Hnew|].
  intros s Hs. apply set_up_bound; [|now rewrite <- Hs].
  assert (s ∈ filter (fun s => marked (fs w) s = true) scripts) as Hin.
  { apply last_Some in Hs as [l' Hl]. fold scripts in Hl. rewrite Hl.
    apply elem_of_app. right. left. }
  apply list_elem_of_filter in Hin as [_ Hin].
  apply scripts_elem in Hin as [Hin _].
  eapply setup_script_nonempty, Hin.
Qed.

(** C8: when the loop ends without a script that carries the marker
    (there may be no script at all), the run stops with
    [UnboundLocalError]; a run that completes had such a script. *)
Theorem missing_canonical_script a destination w :
  let scripts := environment_setup_scripts destination (fs w) in
  (forall w1,
      relocate_scripts cfg h destination scripts None (setting_up w)
      = (Ok None, w1) ->
      set_up cfg h a destination w = (Raise UnboundLocalError, w1))
  /\ (scripts = [] ->
      set_up cfg h a destination w = (Raise UnboundLocalError, setting_up w))
  /\ (forallb (regular_script h (fs w)) scripts = true ->
      (forall s, s ∈ scripts -> marked (fs w) s = false) ->
      fst (set_up cfg h a destination w) = Raise UnboundLocalError)
  /\ (forall status w',
        set_up cfg h a destination w = (Ok status, w') ->
        exists s w1,
          s ∈ scripts
          /\ relocate_scripts cfg h destination scripts None (setting_up w)
             = (Ok (Some s), w1)).
Proof.
  intros scripts. split; [intros w1; apply set_up_unbound|].
  split; [|split].
  - intros E. apply set_up_unbound. fold scripts. now rewrite E.
  - intros Hreg Hnone.
    destruct (relocate_scripts_regular cfg h destination scripts None (setting_up w))
      as (w' & R & _); [apply scripts_NoDup | exact Hreg |].
    assert (selected (fs w) scripts None = None) as E.
    { unfold selected.
      assert (filter (fun s => marked (fs w) s = true) scripts = []) as ->; [|reflexivity].
      clear -Hnone. induction scripts as [|s l IH]; [reflexivity|].
      rewrite filter_cons_False.
      - apply IH. intros s' Hs'. apply Hnone. now right.
      - rewrite (Hnone s) by left. discriminate. }
    simpl in R. rewrite E in R. now rewrite (set_up_unbound _ _ _ _ R).
  - intros status w' H. rewrite set_up_eq in H.
    apply bind_inv in H as [(real & w1 & R & H) | (e & _ & ?)]; [|discriminate].
    apply bind_inv in H as [(env & w2 & L & _) | (e & _ & ?)]; [|discriminate].
    destruct real as [s|]; [|discriminate].
    exists s, w1. split; [|exact R].
    apply relocate_scripts_selects in R as [? | (s' & ? & Hs')]; [discriminate|].
    now simplify_eq.
Qed.

(** C2 as amended: rewriting a file in which the build-time path does
    not occur changes nothing, so relocating twice is the same as
    relocating once whenever the path no longer occurs after the first
    time. *)
Theorem relocate_file_again destination name text w :
  fs w !! name = Some (File text) ->
  fs w !! (name +:+ ".tmp") = None ->
  denied h name = false ->
  denied h (name +:+ ".tmp") = false ->
  (Forall (fun l => PyStr.str_in (SDKPATH cfg) l = false) (PyStr.readlines text) ->
   relocate_text cfg destination text = text
   /\ exists b w1, relocate_file cfg h destination name w = (Ok b, w1)
                   /\ fs w1 = fs w)
  /\ (Forall (fun l => PyStr.str_in (SDKPATH cfg) l = false)
             (PyStr.readlines (relocate_text cfg destination text)) ->
      exists b1 w1 b2 w2,
        relocate_file cfg h destination name w = (Ok b1, w1)
        /\ relocate_file cfg h destination name w1 = (Ok b2, w2)
        /\ fs w2 = fs w1).
Proof.
  intros Hn Ht Hdn Hdt.
  assert (forall t, Forall (fun l => PyStr.str_in (SDKPATH cfg) l = false)
                           (PyStr.readlines t) ->
                    relocate_text cfg destination t = t) as Hid.
  { intros t Hall. unfold relocate_text.
    rewrite <- (StrFacts.concat_readlines t) at 2. f_equal.
    induction Hall as [|l ls Hl _ IH]; simpl; [reflexivity|].
    rewrite IH. f_equal. unfold relocate_line.
    now apply StrFacts.str_replace_absent. }
  assert (forall v t, fs v !! name = Some (File t) ->
            fs v !! (name +:+ ".tmp") = None ->
            Forall (fun l => PyStr.str_in (SDKPATH cfg) l = false) (PyStr.readlines t) ->
            exists b v1, relocate_file cfg h destination name v = (Ok b, v1)
                         /\ fs v1 = fs v) as Hnoop.
  { intros v t Hv Hvt Hall.
    rewrite (relocate_file_regular cfg h destination name t v Hv Hvt Hdn Hdt).
    eexists _, _. split; [reflexivity|]. simpl.
    rewrite (Hid t Hall). now apply insert_id. }
  split.
  - intros Hall. split; [now apply Hid | eapply Hnoop; eassumption].
  - intros Hall.
    pose proof (relocate_file_regular cfg h destination name text w Hn Ht Hdn Hdt) as R1.
    set (w1 := set_fs _ _) in R1.
    destruct (Hnoop w1 (relocate_text cfg destination text)) as (b2 & w2 & R2 & E).
    + simpl. apply lookup_insert_eq.
    + simpl. rewrite lookup_insert_ne by (intros E; symmetry in E; revert E; apply tmp_name_differs).
      exact Ht.
    + exact Hall.
    + eauto 10.
Qed.
End RelocationClaims.

Lemma canonical_script_selected_witness :
  (exists w',
     relocate_scripts Sample.poky Sample.linux "/sdk"
       (environment_setup_scripts "/sdk"
          (fs (Sample.installed Sample.plain_script Sample.main_script)))
       None
       (setting_up (Sample.installed Sample.plain_script Sample.main_script))
     = (Ok (Some "/sdk/environment-setup-b"), w'))
  /\ (exists w',
        relocate_scripts Sample.poky Sample.linux "/sdk"
          (environment_setup_scripts "/sdk"
             (fs (Sample.installed Sample.main_script Sample.plain_script)))
          None
          (setting_up (Sample.installed Sample.main_script Sample.plain_script))
        = (Ok (Some "/sdk/environment-setup-a"), w')).
Proof.
  split.
  - destruct (canonical_script_selected Sample.poky Sample.linux Sample.unattended "/sdk"
                (Sample.installed Sample.plain_script Sample.main_script))
      as (_ & w' & R & _); [vm_compute; reflexivity|].
    exists w'. rewrite R. apply (f_equal (fun c => (Ok c, w'))).
    vm_compute. reflexivity.
  - destruct (canonical_script_selected Sample.poky Sample.linux Sample.unattended "/sdk"
                (Sample.installed Sample.main_script Sample.plain_script))
      as (_ & w' & R & _); [vm_compute; reflexivity|].
    exists w'. rewrite R. apply (f_equal (fun c => (Ok c, w'))).
    vm_compute. reflexivity.
Defined.

Lemma none_marked m l :
  forallb (fun s => negb (marked m s)) l = true ->
  forall s, s ∈ l -> marked m s = false.
Proof.
  rewrite forallb_forall. intros H s Hs.
  apply negb_true_iff, H, list_elem_of_In, Hs.
Qed.

Lemma missing_canonical_script_witness :
  fst (set_up Sample.poky Sample.linux Sample.unattended "/sdk"
         (Sample.installed Sample.plain_script Sample.plain_script))
  = Raise UnboundLocalError.
Proof.
  destruct (missing_canonical_script Sample.poky Sample.linux Sample.unattended "/sdk"
              (Sample.installed Sample.plain_script Sample.plain_script))
    as (_ & _ & K & _).
  refine (K _ (none_marked _ _ _)); vm_compute; reflexivity.
Defined.

(** C2 as stated fails: installed beside the default place, a script is
    rewritten again by a second relocation. *)
Lemma relocation_not_idempotent :
  let once :=
    snd (relocate_file Sample.poky Sample.linux Sample.beside
           "/opt/poky/5.0-test/environment-setup-x" Sample.unpacked) in
  let twice :=
    snd (relocate_file Sample.poky Sample.linux Sample.beside
           "/opt/poky/5.0-test/environment-setup-x" once) in
  fs once !! "/opt/poky/5.0-test/environment-setup-x"
  = Some (File ("export PATH=/opt/poky/5.0-test/bin" +:+ Sample.nl))
  /\ fs twice !! "/opt/poky/5.0-test/environment-setup-x"
     = Some (File ("export PATH=/opt/poky/5.0-test-test/bin" +:+ Sample.nl))
  /\ fs twice <> fs once.
Proof.
  intros once twice.
  assert (fs once !! "/opt/poky/5.0-test/environment-setup-x"
          = Some (File ("export PATH=/opt/poky/5.0-test/bin" +:+ Sample.nl))) as H1
    by (vm_compute; reflexivity).
  assert (fs twice !! "/opt/poky/5.0-test/environment-setup-x"
          = Some (File ("export PATH=/opt/poky/5.0-test-test/bin" +:+ Sample.nl))) as H2
    by (vm_compute; reflexivity).
  split; [exact H1|]. split; [exact H2|].
  intros E. rewrite E, H1 in H2. vm_compute in H2. discriminate H2.
Qed.

Lemma relocate_file_again_witness :
  exists b1 w1 b2 w2,
    relocate_file Sample.poky Sample.linux "/sdk" "/sdk/environment-setup-b"
      (Sample.installed Sample.plain_script Sample.main_script) = (Ok b1, w1)
    /\ relocate_file Sample.poky Sample.linux "/sdk" "/sdk/environment-setup-b" w1
       = (Ok b2, w2)
    /\ fs w2 = fs w1.
Proof.
  apply (relocate_file_again Sample.poky Sample.linux "/sdk"
           "/sdk/environment-setup-b" Sample.main_script
           (Sample.installed Sample.plain_script Sample.main_script));
    try (vm_compute; reflexivity).
  vm_compute. repeat constructor.
Defined.

Section DriverFacts.
Variable cfg : config.
Variable h : host.

Lemma prints_only_refl w : prints_only w w.
Proof. now unfold prints_only. Qed.

Lemma prints_only_trans w1 w2 w3 : prints_only w1 w2 -> prints_only w2 w3 -> prints_only w1 w3.
Proof. unfold prints_only. intuition congruence. Qed.

Lemma prints_only_add_out s w : prints_only w (add_out s w).
Proof. now unfold prints_only. Qed.

Lemma or_else_none m k w w' :
  m w = (Ok None, w') -> or_else m k w = k w'.
Proof. intros H. unfold or_else. now rewrite (bind_ok _ _ _ _ _ H). Qed.

Lemma or_else_some m k w status w' :
  m w = (Ok (Some status), w') -> or_else m k w = (Ok status, w').
Proof. intros H. unfold or_else. now rewrite (bind_ok _ _ _ _ _ H). Qed.

Lemma or_else_raise m k w e w' :
  m w = (Raise e, w') -> or_else m k w = (Raise e, w').
Proof. intros H. unfold or_else. now rewrite (bind_raise _ _ _ _ _ H). Qed.

Lemma check_kernel_spec w :
  exists r w', check_kernel cfg h w = (r, w') /\ prints_only w w' /\ gate_result r.
Proof.
  unfold check_kernel, gate_result, print. munfold.
  destruct (PLATFORM_IS_WINDOWS h).
  - eexists _, _. split; [reflexivity|]. split; [apply prints_only_refl|]. auto.
  - destruct (uname_r h) as [out|e].
    + destruct (ver_lt _ _) as [[]|e].
      * eexists _, _. split; [reflexivity|]. split; [apply prints_only_add_out|]. auto.
      * eexists _, _. split; [reflexivity|]. split; [apply prints_only_refl|]. auto.
      * eexists _, _. split; [reflexivity|]. split; [apply prints_only_refl|]. eauto.
    + eexists _, _. split; [reflexivity|]. split; [apply prints_only_refl|]. eauto.
Qed.

Lemma check_arch_spec w :
  exists r w', check_arch cfg h w = (r, w') /\ prints_only w w' /\ gate_result r.
Proof.
  unfold check_arch, gate_result, print. munfold.
  destruct (_ && _).
  - eexists _, _. split; [reflexivity|]. split; [apply prints_only_add_out|]. auto.
  - eexists _, _. split; [reflexivity|]. split; [apply prints_only_refl|]. auto.
Qed.

Lemma check_gcc_spec w :
  exists r w', check_gcc cfg h w = (r, w') /\ prints_only w w' /\ gate_result r.
Proof.
  unfold check_gcc, gate_result, print. munfold.
  destruct (SDK_EXTENSIBLE cfg).
  - destruct (gcc_version h) as [v|e].
    + destruct (_ || _).
      * eexists _, _. split; [reflexivity|]. split; [apply prints_only_add_out|]. auto.
      * eexists _, _. split; [reflexivity|]. split; [apply prints_only_refl|]. auto.
    + eexists _, _. split; [reflexivity|]. split; [apply prints_only_refl|]. eauto.
  - eexists _, _. split; [reflexivity|]. split; [apply prints_only_refl|]. auto.
Qed.

Lemma banner_spec w :
  exists w', banner cfg w = (Ok tt, w') /\ prints_only w w'.
Proof.
  unfold banner, print. munfold. eexists. split; [reflexivity|].
  now unfold prints_only.
Qed.

Lemma pre_install_spec w :
  exists r w',
    pre_install cfg h w = (r, w')
    /\ stdin w' = stdin w
    /\ (r = Ok tt \/ exists e, r = Raise e)
    /\ ((PLATFORM_IS_WINDOWS h = true /\ fs w' = fs w /\ calls w' = calls w)
        \/ (PLATFORM_IS_WINDOWS h = false
            /\ calls w' = calls w ++ [TempScript (pre_install_script cfg)]
            /\ fs w' = default (fs w) (sh h (pre_install_script cfg) [] (fs w)))).
Proof.
  unfold pre_install, run_script, run_sh. munfold.
  destruct (PLATFORM_IS_WINDOWS h).
  - eexists _, _. split; [reflexivity|]. auto 10.
  - cbn [fs add_call]. fold (pre_install_script cfg).
    destruct (sh h (pre_install_script cfg) [] (fs w)) as [m|];
      eexists _, _; (split; [reflexivity|]); simpl; eauto 10.
Qed.

(** The destination is decided by the command line and by what is
    typed; the file system is not touched. *)
Lemma choose_destination_spec a w :
  exists d w',
    choose_destination cfg h a w = (Ok d, w')
    /\ fs w' = fs w /\ calls w' = calls w
    /\ forall v, stdin v = stdin w -> fst (choose_destination cfg h a v) = Ok d.
Proof.
  unfold choose_destination, input, print_raw. munfold.
  destruct (negb _).
  - destruct (yes a).
    + eexists _, _. split; [reflexivity|]. auto.
    + cbn [stdin add_out]. destruct (stdin w) as [|l rest] eqn:E.
      * eexists _, _. split; [reflexivity|]. repeat split.
        intros v Hv. now rewrite Hv.
      * destruct l; eexists _, _; (split; [reflexivity|]); repeat split;
          intros v Hv; now rewrite Hv.
  - eexists _, _. split; [reflexivity|]. auto.
Qed.

(** Lines 269-275 end the run before anything else is done. *)
Lemma install_rejects a destination w :
  2048 < Z.of_nat (String.length destination)
  \/ has_whitespace destination = true ->
  exists msg, install cfg h a destination w = (Ok 1, add_out msg w).
Proof.
  intros Hbad. unfold install.
  destruct (2048 <? Z.of_nat (String.length destination)) eqn:E.
  - eexists. apply or_else_some. unfold validate_destination, print. munfold.
    rewrite E. reflexivity.
  - destruct Hbad as [Hlong | Hws]; [apply Z.ltb_lt in Hlong; congruence|].
    eexists. apply or_else_some. unfold validate_destination, print. munfold.
    rewrite E, Hws. reflexivity.
Qed.

Ltac stopped :=
  eexists _, _; split; [reflexivity|]; split;
  [eauto | left; split; etransitivity; eauto; etransitivity; eauto;
           etransitivity; eauto].

(** C4 as amended: a destination with white space or of more than 2048
    characters ends the run with a status other than 0 before the
    destination directory is made and before anything is extracted or
    rewritten; the only call made by then is the pre-install script,
    on a host that is not Windows. *)
Theorem invalid_destination_rejected a w destination :
  fst (choose_destination cfg h a w) = Ok destination ->
  2048 < Z.of_nat (String.length destination)
  \/ has_whitespace destination = true ->
  exists r w',
    main cfg h a w = (r, w')
    /\ (r = Ok 1 \/ exists e, r = Raise e)
    /\ ((fs w' = fs w /\ calls w' = calls w)
        \/ (PLATFORM_IS_WINDOWS h = false
            /\ calls w' = calls w ++ [TempScript (pre_install_script cfg)]
            /\ fs w' = default (fs w) (sh h (pre_install_script cfg) [] (fs w)))).
Proof.
  intros Hd Hbad. unfold main.
  destruct (check_kernel_spec w) as (r1 & w1 & R1 & (F1 & C1 & I1) & G1).
  destruct G1 as [-> | [-> | [e ->]]];
    [ rewrite (or_else_none _ _ _ _ R1)
    | rewrite (or_else_some _ _ _ _ _ R1); stopped
    | rewrite (or_else_raise _ _ _ _ _ R1); stopped ].
  destruct (check_arch_spec w1) as (r2 & w2 & R2 & (F2 & C2 & I2) & G2).
  destruct G2 as [-> | [-> | [e ->]]];
    [ rewrite (or_else_none _ _ _ _ R2)
    | rewrite (or_else_some _ _ _ _ _ R2); stopped
    | rewrite (or_else_raise _ _ _ _ _ R2); stopped ].
  destruct (check_gcc_spec w2) as (r3 & w3 & R3 & (F3 & C3 & I3) & G3).
  destruct G3 as [-> | [-> | [e ->]]];
    [ rewrite (or_else_none _ _ _ _ R3)
    | rewrite (or_else_some _ _ _ _ _ R3); stopped
    | rewrite (or_else_raise _ _ _ _ _ R3); stopped ].
  destruct (banner_spec w3) as (w4 & R4 & F4 & C4 & I4).
  rewrite (bind_ok _ _ _ _ _ R4).
  destruct (pre_install_spec w4) as (r5 & w5 & R5 & I5 & G5 & E5).
  assert ((fs w5 = fs w /\ calls w5 = calls w)
          \/ (PLATFORM_IS_WINDOWS h = false
              /\ calls w5 = calls w ++ [TempScript (pre_install_script cfg)]
              /\ fs w5 = default (fs w) (sh h (pre_install_script cfg) [] (fs w)))) as E5'.
  { destruct E5 as [(_ & Hf & Hc) | (Hw & Hc & Hf)].
    - left. rewrite Hf, Hc, F4, F3, F2, F1, C4, C3, C2, C1. now split.
    - right. split; [exact Hw|].
      rewrite Hf, Hc, F4, F3, F2, F1, C4, C3, C2, C1. now split. }
  destruct G5 as [-> | [e ->]];
    [ rewrite (bind_ok _ _ _ _ _ R5)
    | rewrite (bind_raise _ _ _ _ _ R5); eexists _, _;
      split; [reflexivity|]; split; [eauto | exact E5'] ].
  destruct (choose_destination_spec a w5) as (d & w6 & R6 & F6 & C6 & Hdep).
  rewrite (bind_ok _ _ _ _ _ R6).
  assert (d = destination) as ->.
  { specialize (Hdep w). rewrite Hd in Hdep.
    assert (stdin w = stdin w5) as Hs by congruence.
    specialize (Hdep Hs). congruence. }
  destruct (install_rejects a destination w6 Hbad) as [msg R7].
  rewrite R7. eexists _, _. split; [reflexivity|]. split; [auto|].
  simpl. rewrite F6, C6. exact E5'.
Qed.
End DriverFacts.

Lemma invalid_destination_rejected_witness :
  exists r w',
    main Sample.poky Sample.linux Sample.spaced Sample.empty_world = (r, w')
    /\ (r = Ok 1 \/ exists e, r = Raise e).
Proof.
  destruct (invalid_destination_rejected Sample.poky Sample.linux Sample.spaced
              Sample.empty_world "/home/u/my sdk")
    as (r & w' & R & Hr & _).
  - vm_compute. reflexivity.
  - right. vm_compute. reflexivity.
  - eauto.
Defined.

(** C4 as stated fails: the run that rejects a destination with a space
    has by then written and run the pre-install script. *)
Lemma rejected_after_pre_install :
  has_whitespace "/home/u/my sdk" = true
  /\ fst (main Sample.poky Sample.linux Sample.spaced Sample.empty_world) = Ok 1
  /\ calls (snd (main Sample.poky Sample.linux Sample.spaced Sample.empty_world))
     = [TempScript (pre_install_script Sample.poky)]
  /\ calls (snd (main Sample.poky Sample.linux Sample.spaced Sample.empty_world))
     <> calls Sample.empty_world.
Proof.
  assert (calls (snd (main Sample.poky Sample.linux Sample.spaced Sample.empty_world))
          = [TempScript (pre_install_script Sample.poky)]) as E
    by (vm_compute; reflexivity).
  split; [vm_compute; reflexivity|]. split; [vm_compute; reflexivity|].
  split; [exact E|]. rewrite E. discriminate.
Qed.

(** ** Sample values of the string and path functions *)

Example replace_all_occurrences :
  PyStr.str_replace "ab" "X" "abcabab" = "XcXX".
Proof. reflexivity. Qed.

Example replace_does_not_overlap : PyStr.str_replace "aa" "b" "aaa" = "ba".
Proof. reflexivity. Qed.

Example replace_empty : PyStr.str_replace "" "X" "abc" = "XaXbXcX".
Proof. reflexivity. Qed.

Example readlines_keeps_ends :
  PyStr.readlines ("a" +:+ String PyStr.newline "bc")
  = ["a" +:+ String PyStr.newline ""; "bc"].
Proof. reflexivity. Qed.

Example strip_both_ends : PyStr.strip "  a b  " = "a b".
Proof. reflexivity. Qed.

Example relocate_marker_line :
  relocate_line Sample.poky "/home/u/mysdk"
    "OECORE_NATIVE_SYSROOT=/opt/poky/5.0/sysroots/x86_64"
  = "OECORE_NATIVE_SYSROOT=/home/u/mysdk/sysroots/x86_64"
  /\ is_real_env_script "OECORE_NATIVE_SYSROOT=/opt/poky/5.0/sysroots/x86_64" = true.
Proof. split; reflexivity. Qed.

Example kernel_new_enough : ver_lt "5.15.0-91-generic" "3.2.0" = Ok false.
Proof. reflexivity. Qed.

Example kernel_too_old : ver_lt "2.6.32" "3.2.0" = Ok true.
Proof. reflexivity. Qed.

Example translate_arch_values :
  translate_arch "i686" = "ix86"
  /\ translate_arch "AMD64" = "x86_64"
  /\ translate_arch "x86-64" = "x86_64".
Proof. repeat split; reflexivity. Qed.

Example dirname_values :
  Path.dirname "/sdk/environment-setup-x" = "/sdk"
  /\ Path.dirname "/x" = "/"
  /\ Path.dirname "x" = "".
Proof. repeat split; reflexivity. Qed.

Example join_values :
  Path.join "/sdk" "bin/tool" = "/sdk/bin/tool"
  /\ Path.join "/sdk/" "bin" = "/sdk/bin"
  /\ Path.join "/sdk" "/etc/passwd" = "/etc/passwd".
Proof. repeat split; reflexivity. Qed.

(** A complete run on the sample host. *)
Example sample_run :
  fst (main (Sample.poky_with Sample.sdk_members) Sample.linux Sample.unattended
         Sample.empty_world) = Ok 0.
Proof. vm_compute. reflexivity. Qed.

(** * Further properties of the run *)

(** ** Relations that every step keeps *)

Section Keeps.
Context (R : world -> world -> Prop) `{!PreOrder R}.

Lemma keeps_ret {A} (a : A) : keeps R (ret a).
Proof. intros w r w' H. unfold ret in H. simplify_eq. reflexivity. Qed.

Lemma keeps_raise {A} e : keeps R (raise (A:=A) e).
Proof. intros w r w' H. unfold raise in H. simplify_eq. reflexivity. Qed.

Lemma keeps_get : keeps R get.
Proof. intros w r w' H. unfold get in H. simplify_eq. reflexivity. Qed.

Lemma keeps_lift {A} (x : result A) : keeps R (lift x).
Proof. intros w r w' H. unfold lift in H. simplify_eq. reflexivity. Qed.

Lemma keeps_modify f : (forall w, R w (f w)) -> keeps R (modify f).
Proof. intros Hf w r w' H. unfold modify in H. simplify_eq. apply Hf. Qed.

Lemma keeps_bind {A B} (m : M A) (k : A -> M B) :
  keeps R m -> (forall a, keeps R (k a)) -> keeps R (bind m k).
Proof.
  intros Hm Hk w r w' H.
  apply bind_inv in H as [(a & w1 & H1 & H2) | (e & H1 & _)].
  - transitivity w1; [eapply Hm, H1 | eapply Hk, H2].
  - eapply Hm, H1.
Qed.

Lemma keeps_finally {A} (m : M A) f :
  keeps R m -> keeps R f -> keeps R (finally m f).
Proof.
  intros Hm Hf w r w' H. unfold finally in H.
  destruct (m w) as [r1 w1] eqn:E1. destruct (f w1) as [[[]|e] w2] eqn:E2;
    simplify_eq; (transitivity w1; [eapply Hm, E1 | eapply Hf, E2]).
Qed.

Lemma keeps_except {A} (m : M A) E handler :
  keeps R m -> keeps R handler -> keeps R (except m E handler).
Proof.
  intros Hm Hh w r w' H. unfold except in H.
  destruct (m w) as [[a|e] w1] eqn:E1.
  - simplify_eq. eapply Hm, E1.
  - destruct (decide (e = E)).
    + transitivity w1; [eapply Hm, E1 | eapply Hh, H].
    + simplify_eq. eapply Hm, E1.
Qed.

Lemma keeps_ignore_errors m : keeps R m -> keeps R (ignore_errors m).
Proof.
  intros Hm w r w' H. unfold ignore_errors in H.
  destruct (m w) as [[a|e] w1] eqn:E1; simplify_eq; eapply Hm, E1.
Qed.

Lemma keeps_or_else m k : keeps R m -> keeps R k -> keeps R (or_else m k).
Proof.
  intros Hm Hk. unfold or_else. apply keeps_bind; [exact Hm|].
  intros [status|]; [apply keeps_ret | exact Hk].
Qed.
End Keeps.

Lemma keeps_weaken {A} (R S : world -> world -> Prop) (m : M A) :
  (forall w w', R w w' -> S w w') -> keeps R m -> keeps S m.
Proof. intros HRS Hm w r w' H. eapply HRS, Hm, H. Qed.

#[local] Instance same_stdin_preorder : PreOrder same_stdin.
Proof. split; unfold same_stdin; [now intros ?|intros ? ? ?; congruence]. Qed.

(** Taking a monadic term apart, for a relation that printing and the
    changes of the file system keep. *)
Ltac keeps_step :=
  match goal with
  | |- keeps _ (bind _ _) =>
      apply keeps_bind; try typeclasses eauto; [| intros ?]
  | |- keeps _ (ret _) => apply keeps_ret; typeclasses eauto
  | |- keeps _ (raise _) => apply keeps_raise; typeclasses eauto
  | |- keeps _ get => apply keeps_get; typeclasses eauto
  | |- keeps _ (lift _) => apply keeps_lift; typeclasses eauto
  | |- keeps _ (modify _) =>
      apply keeps_modify; try typeclasses eauto; intros ?
  | |- keeps _ (finally _ _) => apply keeps_finally; try typeclasses eauto
  | |- keeps _ (except _ _ _) => apply keeps_except; try typeclasses eauto
  | |- keeps _ (ignore_errors _) =>
      apply keeps_ignore_errors; try typeclasses eauto
  | |- keeps _ (or_else _ _) => apply keeps_or_else; try typeclasses eauto
  | |- keeps _ (print _) => unfold print
  | |- keeps _ (print_raw _) => unfold print_raw
  | |- keeps _ (if ?b then _ else _) => destruct b
  | |- keeps _ (match ?x with _ => _ end) => destruct x
  end.

#[local] Instance calls_grow_preorder : PreOrder calls_grow.
Proof.
  split; unfold calls_grow; [now intros ?|].
  intros ? ? ? H1 H2. etransitivity; eassumption.
Qed.

#[local] Instance no_shell_since_preorder : PreOrder no_shell_since.
Proof.
  split.
  - intros w. exists []. now rewrite app_nil_r.
  - intros w1 w2 w3 (c1 & E1 & F1) (c2 & E2 & F2). exists (c1 ++ c2).
    rewrite E2, E1, <- app_assoc. split; [reflexivity|].
    now apply Forall_app.
Qed.

(** ** What the whole run keeps

    A relation that the steps on the file system and printing keep is
    kept by the whole run, provided it is kept by the calls that run a
    shell on a host where a shell is run, and by reading the terminal in
    a run that prompts. *)
Section RunKeeps.
Variable cfg : config.
Variable h : host.
Variable a : args.
Variable R : world -> world -> Prop.
Context `{!PreOrder R}.
Hypothesis R_fs : forall w w', only_fs w w' -> R w w'.
Hypothesis R_out : forall s w, R w (add_out s w).
Hypothesis R_call : forall c w, is_shell_call c = false -> R w (add_call c w).
Hypothesis R_shell :
  PLATFORM_IS_WINDOWS h = false -> forall c w, R w (add_call c w).
Hypothesis R_input : yes a = false -> forall l w, R w (set_stdin l w).

Ltac by_only_fs lem :=
  eapply keeps_weaken; [exact R_fs|];
  intros ? ? ? ?; eapply lem; eassumption.

Lemma unlink_keeps p : keeps R (OS.unlink (denied h) p).
Proof. by_only_fs OSFacts.unlink_only_fs. Qed.

Lemma makedirs_keeps p : keeps R (OS.makedirs (denied h) p).
Proof. by_only_fs OSFacts.makedirs_only_fs. Qed.

Lemma tar_extract_keeps f p : keeps R (Tar.extract (denied h) f p).
Proof. by_only_fs TarFacts.extract_only_fs. Qed.

Lemma open_write_keeps p : keeps R (OS.open_write (denied h) p).
Proof. by_only_fs OSFacts.open_write_only_fs. Qed.

Lemma move_keeps x y : keeps R (OS.move (denied h) x y).
Proof. by_only_fs OSFacts.move_only_fs. Qed.

Lemma write_keeps p t : keeps R (OS.write p t).
Proof. by_only_fs OSFacts.write_only_fs. Qed.

Lemma open_read_keeps p : keeps R (OS.open_read p).
Proof.
  intros w r w' H. apply OSFacts.open_read_same in H as ->. reflexivity.
Qed.

Lemma read_keeps p : keeps R (OS.read p).
Proof. intros w r w' H. apply OSFacts.read_same in H as ->. reflexivity. Qed.

Lemma set_fs_keeps m w : R w (set_fs m w).
Proof. apply R_fs. now unfold only_fs. Qed.

Ltac keeps_auto :=
  repeat first
    [ apply unlink_keeps | apply makedirs_keeps
    | apply tar_extract_keeps | apply open_write_keeps
    | apply move_keeps | apply write_keeps
    | apply open_read_keeps | apply read_keeps
    | apply R_out | apply set_fs_keeps
    | solve [apply R_call; reflexivity]
    | keeps_step ].

Lemma run_sh_keeps text argv : keeps R (run_sh h text argv).
Proof. unfold run_sh. keeps_auto. Qed.

Lemma run_script_keeps body :
  PLATFORM_IS_WINDOWS h = false -> keeps R (run_script h body).
Proof.
  intros Hw. unfold run_script. keeps_auto;
    [apply (R_shell Hw) | apply run_sh_keeps].
Qed.

Lemma extract_file_keeps destination f pr :
  keeps R (extract_file h destination f pr).
Proof. unfold extract_file, remove_conflict, checkpoint. keeps_auto. Qed.

Lemma extract_members_keeps exclude destination members pr :
  keeps R (extract_members h exclude destination members pr).
Proof.
  revert pr; induction members as [|f members IH]; intros pr; simpl.
  - keeps_auto.
  - destruct (PyStr.any_in _ _); [apply IH|].
    apply keeps_bind; try typeclasses eauto; [apply extract_file_keeps |].
    intros pr'. apply IH.
Qed.

Lemma relocate_file_keeps destination name :
  keeps R (relocate_file cfg h destination name).
Proof. unfold relocate_file. keeps_auto. Qed.

Lemma relocate_scripts_keeps destination scripts real :
  keeps R (relocate_scripts cfg h destination scripts real).
Proof.
  revert real; induction scripts as [|s scripts IH]; intros real; simpl.
  - keeps_auto.
  - apply keeps_bind; try typeclasses eauto; [apply relocate_file_keeps |].
    intros b. apply IH.
Qed.

Lemma print_scripts_keeps scripts : keeps R (print_scripts h scripts).
Proof. induction scripts as [|s scripts IH]; simpl; keeps_auto. exact IH. Qed.

Lemma pre_install_keeps : keeps R (pre_install cfg h).
Proof.
  unfold pre_install. case_eq (PLATFORM_IS_WINDOWS h); intros Hw.
  - keeps_auto.
  - now apply run_script_keeps.
Qed.

Lemma post_install_keeps destination s :
  keeps R (post_install cfg h a destination s).
Proof.
  unfold post_install. case_eq (PLATFORM_IS_WINDOWS h); intros Hw.
  - keeps_auto.
  - now apply run_script_keeps.
Qed.

Lemma post_relocate_keeps destination :
  keeps R (post_relocate cfg h a destination).
Proof.
  unfold post_relocate, os_remove.
  case_eq (PLATFORM_IS_WINDOWS h); intros Hw;
    keeps_auto;
    first [ apply relocate_file_keeps | apply run_sh_keeps
          | apply (R_shell Hw) ].
Qed.

Lemma finish_keeps destination s : keeps R (finish cfg h a destination s).
Proof.
  unfold finish, delete_relocating_scripts, os_remove.
  keeps_auto;
    first [ apply post_install_keeps | apply post_relocate_keeps
          | apply print_scripts_keeps ].
Qed.

Lemma set_up_keeps destination : keeps R (set_up cfg h a destination).
Proof.
  unfold set_up, local. keeps_auto;
    first [ apply relocate_scripts_keeps | apply finish_keeps ].
Qed.

Lemma extract_sdk_keeps destination : keeps R (extract_sdk cfg h a destination).
Proof. unfold extract_sdk. keeps_auto. apply extract_members_keeps. Qed.

Lemma input_keeps prompt : yes a = false -> keeps R (input prompt).
Proof.
  intros Hyes. unfold input. keeps_auto. apply (R_input Hyes).
Qed.

Lemma confirm_keeps destination : keeps R (confirm cfg a destination).
Proof.
  unfold confirm. case_eq (yes a); intros Hyes; keeps_auto;
    now apply input_keeps.
Qed.

Lemma choose_destination_keeps : keeps R (choose_destination cfg h a).
Proof.
  unfold choose_destination. case_eq (yes a); intros Hyes; keeps_auto;
    now apply input_keeps.
Qed.

Lemma install_keeps destination : keeps R (install cfg h a destination).
Proof.
  unfold install, validate_destination. keeps_auto;
    first [ apply confirm_keeps | apply extract_sdk_keeps | apply set_up_keeps ].
Qed.

Lemma main_keeps : keeps R (main cfg h a).
Proof.
  unfold main, check_kernel, check_arch, check_gcc, banner.
  keeps_auto;
    first [ apply pre_install_keeps | apply choose_destination_keeps
          | apply install_keeps ].
Qed.
End RunKeeps.

Section RunNever.
Variable cfg : config.
Variable h : host.

(** X1: with [--yes] the run never reads the terminal. *)
Theorem yes_never_prompts a w :
  yes a = true -> stdin (snd (main cfg h a w)) = stdin w.
Proof.
  intros Hyes.
  assert (keeps same_stdin (main cfg h a)) as K.
  { apply main_keeps; try typeclasses eauto; unfold same_stdin; try easy.
    - now intros w1 w2 (? & _).
    - congruence. }
  destruct (main cfg h a w) as [r w'] eqn:E. exact (K _ _ _ E).
Qed.

(** X2: on Windows the run starts no shell: neither hook script is written
    and run, and the post-relocate script is not run. *)
Theorem windows_runs_no_shell a w :
  PLATFORM_IS_WINDOWS h = true ->
  exists cs,
    calls (snd (main cfg h a w)) = calls w ++ cs
    /\ Forall (fun c => is_shell_call c = false) cs.
Proof.
  intros Hw.
  assert (keeps no_shell_since (main cfg h a)) as K.
  { apply main_keeps; try typeclasses eauto.
    - intros w1 w2 (_ & _ & E). exists []. now rewrite app_nil_r.
    - intros s w1. exists []. now rewrite app_nil_r.
    - intros c w1 Hc. exists [c]. split; [reflexivity|]. now constructor.
    - congruence.
    - intros _ l w1. exists []. now rewrite app_nil_r. }
  destruct (main cfg h a w) as [r w'] eqn:E. exact (K _ _ _ E).
Qed.

(** The calls made are never taken back. *)
Lemma install_calls_grow a destination :
  keeps calls_grow (install cfg h a destination).
Proof.
  apply install_keeps; try typeclasses eauto; unfold calls_grow.
  - now intros w1 w2 (_ & _ & ->).
  - reflexivity.
  - intros c w1 _. now apply prefix_app_r.
  - intros _ c w1. now apply prefix_app_r.
  - reflexivity.
Qed.
End RunNever.

(** ** The checks before the installation *)

Section DriverEdges.
Variable cfg : config.
Variable h : host.

Lemma check_kernel_fails w :
  kernel_is_too_old cfg h ->
  exists msg, check_kernel cfg h w = (Ok (Some 1), add_out msg w).
Proof.
  intros (Hw & out & Hu & Hlt). unfold check_kernel, print. munfold.
  rewrite Hw, Hu, Hlt. eexists. reflexivity.
Qed.

Lemma check_arch_fails w :
  arch_incompatible cfg h ->
  exists msg, check_arch cfg h w = (Ok (Some 1), add_out msg w).
Proof.
  intros (Hne & Hor). unfold check_arch, print. munfold.
  apply String.eqb_neq in Hne. rewrite Hne.
  assert (negb (translate_arch (machine h) =? "x86_64")%string
          || negb (translate_arch (SDK_ARCH cfg) =? "ix86")%string = true) as ->.
  { destruct Hor as [H | H]; apply String.eqb_neq in H; rewrite H;
      [reflexivity | apply orb_true_r]. }
  eexists. reflexivity.
Qed.

Lemma check_gcc_fails w :
  gcc_incompatible cfg h ->
  exists msg, check_gcc cfg h w = (Ok (Some 1), add_out msg w).
Proof.
  intros (He & Hbad). unfold check_gcc, print. munfold. rewrite He.
  destruct Hbad as [[-> ->] | [[-> ->] | [-> ->]]]; eexists; reflexivity.
Qed.

(** X3: a host that fails one of the compatibility checks: the run ends
    with a status other than 0, or with the exception of a failed probe,
    and has done nothing but print. *)
Theorem incompatible_host_only_prints a w :
  kernel_is_too_old cfg h \/ arch_incompatible cfg h \/ gcc_incompatible cfg h ->
  exists r w',
    main cfg h a w = (r, w')
    /\ (r = Ok 1 \/ exists e, r = Raise e)
    /\ fs w' = fs w /\ calls w' = calls w /\ stdin w' = stdin w.
Proof.
  intros Hbad. unfold main.
  destruct (check_kernel_spec cfg h w) as (r1 & w1 & R1 & (F1 & C1 & I1) & G1).
  destruct G1 as [-> | [-> | [e ->]]];
    [ rewrite (or_else_none _ _ _ _ R1)
    | rewrite (or_else_some _ _ _ _ _ R1); eauto 10
    | rewrite (or_else_raise _ _ _ _ _ R1); eauto 10 ].
  destruct Hbad as [Hk | Hbad].
  { destruct (check_kernel_fails w Hk) as [msg E]. congruence. }
  destruct (check_arch_spec cfg h w1) as (r2 & w2 & R2 & (F2 & C2 & I2) & G2).
  destruct G2 as [-> | [-> | [e ->]]];
    [ rewrite (or_else_none _ _ _ _ R2)
    | rewrite (or_else_some _ _ _ _ _ R2); eexists _, _;
      split; [reflexivity|]; split; [auto|]; repeat split; congruence
    | rewrite (or_else_raise _ _ _ _ _ R2); eexists _, _;
      split; [reflexivity|]; split; [eauto|]; repeat split; congruence ].
  destruct Hbad as [Ha | Hg].
  { destruct (check_arch_fails w1 Ha) as [msg E]. congruence. }
  destruct (check_gcc_fails w2 Hg) as [msg R3].
  rewrite (or_else_some _ _ _ _ _ R3). eexists _, _.
  split; [reflexivity|]. split; [auto|]. simpl. repeat split; congruence.
Qed.

Lemma validate_passes destination w :
  valid_destination destination ->
  validate_destination destination w = (Ok None, w).
Proof.
  intros [Hlen Hws]. unfold validate_destination.
  apply Z.ltb_ge in Hlen. now rewrite Hlen, Hws.
Qed.

(** What [confirm] does with the reply: the default is to go on,
    except over an installed SDK. *)
Lemma confirm_asks a destination w :
  yes a = false ->
  exists w',
    confirm cfg a destination w
    = (Ok (if prompt_bool (head (stdin w))
                (negb (OS.exists_ (fs w) (installed_marker cfg destination)))
           then None else Some 1), w')
    /\ fs w' = fs w /\ calls w' = calls w /\ stdin w' = tail (stdin w).
Proof.
  intros Hyes. unfold confirm, input, print, print_raw, installed_marker.
  munfold. rewrite Hyes.
  destruct (OS.exists_ (fs w) _); cbn [stdin add_out negb];
    destruct (stdin w) as [|l rest] eqn:E; cbn [head tail];
    destruct (prompt_bool _ _); eexists; (split; [reflexivity|]);
    simpl; rewrite ?E; auto.
Qed.

Lemma confirm_yes a destination w :
  yes a = true ->
  exists w',
    confirm cfg a destination w = (Ok None, w')
    /\ fs w' = fs w /\ calls w' = calls w /\ stdin w' = stdin w
    /\ exists notice, stdout w' = stdout w +:+ notice.
Proof.
  intros Hyes. unfold confirm, print. munfold. rewrite Hyes.
  destruct (OS.exists_ (fs w) _); eexists; (split; [reflexivity|]);
    repeat split; simpl; eauto.
  exists "". symmetry. apply StrFacts.append_nil_r.
Qed.

(** X4: a reply that declines ends the run with status 1; nothing has been
    made, extracted or removed. *)
Theorem declined_installation_changes_nothing a destination w :
  valid_destination destination ->
  yes a = false ->
  prompt_bool (head (stdin w))
    (negb (OS.exists_ (fs w) (installed_marker cfg destination))) = false ->
  exists w',
    install cfg h a destination w = (Ok 1, w')
    /\ fs w' = fs w /\ calls w' = calls w /\ stdin w' = tail (stdin w).
Proof.
  intros Hvalid Hyes Hno. unfold install.
  rewrite (or_else_none _ _ _ _ (validate_passes destination w Hvalid)).
  destruct (confirm_asks a destination w Hyes) as (w' & R & F & C & I).
  rewrite Hno in R. rewrite (or_else_some _ _ _ _ _ R). eauto.
Qed.

(** X5: with [-l] the members are listed and the run ends with status 0:
    the destination is not made and nothing is extracted. *)
Theorem list_files_extracts_nothing a destination w :
  valid_destination destination ->
  yes a = true ->
  list_files a = true ->
  exists w' notice,
    install cfg h a destination w = (Ok 0, w')
    /\ fs w' = fs w /\ calls w' = calls w
    /\ stdout w' = (stdout w +:+ notice) +:+ tar_listing h (sdk_tar cfg).
Proof.
  intros Hvalid Hyes Hlist. unfold install.
  rewrite (or_else_none _ _ _ _ (validate_passes destination w Hvalid)).
  destruct (confirm_yes a destination w Hyes) as (w1 & R & F & C & I & notice & O).
  rewrite (or_else_none _ _ _ _ R).
  assert (extract_sdk cfg h a destination w1
          = (Ok (Some 0), add_out (tar_listing h (sdk_tar cfg)) w1)) as E.
  { unfold extract_sdk, except, print_raw. munfold. now rewrite Hlist. }
  rewrite (or_else_some _ _ _ _ _ E). eexists _, notice.
  split; [reflexivity|]. simpl. rewrite O. auto.
Qed.

(** X6: [PermissionError] never leaves lines 302-354; when the host refuses
    to make the destination the run ends with status 1 and an unchanged
    file system. *)
Theorem permission_error_is_reported a destination w :
  fst (extract_sdk cfg h a destination w) <> Raise PermissionError
  /\ (list_files a = false ->
      fs w !! destination = None ->
      denied h destination = true ->
      exists w', extract_sdk cfg h a destination w = (Ok (Some 1), w')
                 /\ fs w' = fs w).
Proof.
  split.
  - unfold extract_sdk, except.
    destruct (_ w) as [[x|e] w1]; simpl; [discriminate|].
    destruct (decide (e = PermissionError)) as [->|Hne].
    + unfold print. munfold. simpl. discriminate.
    + simpl. congruence.
  - intros Hlist Hfree Hden.
    unfold extract_sdk, except, OS.makedirs, print. munfold.
    rewrite Hlist. cbn [fs add_out add_call]. rewrite Hfree, Hden.
    simpl. eexists. split; reflexivity.
Qed.

Lemma makedirs_onto_file p text w :
  fs w !! p = Some (File text) ->
  OS.makedirs (denied h) p w = (Raise FileExistsError, w).
Proof.
  intros Hfile. unfold OS.makedirs, OS.isdir. munfold. rewrite Hfile.
  erewrite OSFacts.resolve_plain by (eassumption || discriminate).
  now rewrite Hfile.
Qed.

(** X7: a destination that is a regular file: [os.makedirs] raises
    [FileExistsError], which is not caught; the file is left as it is. *)
Theorem destination_is_a_file a destination text w :
  valid_destination destination ->
  yes a = true ->
  list_files a = false ->
  fs w !! destination = Some (File text) ->
  exists w',
    install cfg h a destination w = (Raise FileExistsError, w')
    /\ fs w' = fs w.
Proof.
  intros Hvalid Hyes Hlist Hfile. unfold install.
  rewrite (or_else_none _ _ _ _ (validate_passes destination w Hvalid)).
  destruct (confirm_yes a destination w Hyes) as (w1 & R & F & C & I & _).
  rewrite (or_else_none _ _ _ _ R).
  assert (exists w2, extract_sdk cfg h a destination w1 = (Raise FileExistsError, w2)
                     /\ fs w2 = fs w1) as (w2 & E & F2).
  { unfold extract_sdk, except. rewrite Hlist.
    erewrite bind_ok by reflexivity.
    erewrite bind_ok by reflexivity.
    erewrite bind_raise
      by (eapply makedirs_onto_file; simpl; rewrite F; exact Hfile).
    simpl. eexists. split; reflexivity. }
  rewrite (or_else_raise _ _ _ _ _ E). eexists. split; [reflexivity|].
  congruence.
Qed.
End DriverEdges.

(** ** The extraction, the hook before it and the exit status *)

Lemma returns_bind {A B} (P : B -> Prop) (m : M A) (k : A -> M B) :
  (forall a, returns P (k a)) -> returns P (bind m k).
Proof.
  intros Hk w b w' H.
  apply bind_inv in H as [(a & w1 & _ & H) | (e & _ & ?)]; [|discriminate].
  eapply Hk, H.
Qed.

Lemma returns_or_else (P : Z -> Prop) m k :
  returns (fun r => forall s, r = Some s -> P s) m ->
  returns P k -> returns P (or_else m k).
Proof.
  intros Hm Hk w s w' H. unfold or_else in H.
  apply bind_inv in H as [(r & w1 & H1 & H) | (e & _ & ?)]; [|discriminate].
  destruct r as [s'|].
  - unfold ret in H. simplify_eq. eapply Hm; [exact H1 | reflexivity].
  - eapply Hk, H.
Qed.

Section ExtractionFrame.
Variable cfg : config.
Variable h : host.





(** X9: the set of excluded fragments is empty for an SDK that is not
    extensible: a run of the extraction that completes has handed every
    member of the archive to [tf.extract]. *)
Theorem standard_sdk_extracts_everything destination members pr w pr' w' :
  SDK_EXTENSIBLE cfg = false ->
  extract_members h (extract_exclude cfg) destination members pr w = (Ok pr', w') ->
  extracted (calls w') = extracted (calls w) ++ map Tar.name members.
Proof.
  intros Hstd H. apply extract_members_calls in H as (done & Hd & _ & Hok).
  rewrite Hd, (Hok pr' eq_refl). f_equal. f_equal.
  unfold extract_exclude. rewrite Hstd.
  clear. induction members as [|f members IH]; [reflexivity|].
  rewrite filter_cons_True; [now rewrite IH|].
  unfold PyStr.any_in. now rewrite elements_empty.
Qed.

(** X10: for an extensible SDK the preparation script is never extracted,
    and nor is the shared state cache of a minimal one. *)
Theorem extensible_sdk_skips_its_scripts destination members pr w r w' name :
  SDK_EXTENSIBLE cfg = true ->
  extract_members h (extract_exclude cfg) destination members pr w = (r, w') ->
  PyStr.str_in "ext-sdk-prepare.py" name = true
  \/ (SDK_EXT_TYPE cfg = "minimal" /\ PyStr.str_in "sstate-cache" name = true) ->
  name ∈ extracted (calls w') -> name ∈ extracted (calls w).
Proof.
  intros Hext H Hname Hin.
  apply extract_members_calls in H as (done & Hd & Hp & _).
  rewrite Hd in Hin. apply elem_of_app in Hin as [Hin | Hin]; [exact Hin|].
  exfalso. destruct Hp as [rest Hp].
  assert (name ∈ map Tar.name
            (filter (fun f => PyStr.any_in (extract_exclude cfg) (Tar.name f) = false)
                    members)) as Hk.
  { rewrite Hp. apply elem_of_app. now left. }
  apply list_elem_of_fmap in Hk as (f & -> & Hf).
  apply list_elem_of_filter in Hf as [Hf _].
  assert (PyStr.any_in (extract_exclude cfg) (Tar.name f) = true) as Hex; [|congruence].
  apply StrFacts.any_in_spec. unfold extract_exclude. rewrite Hext.
  destruct Hname as [Hn | [Hmin Hn]].
  - exists "ext-sdk-prepare.py". split; [set_solver|].
    now apply StrFacts.str_in_spec.
  - exists "sstate-cache". rewrite Hmin. split; [set_solver|].
    now apply StrFacts.str_in_spec.
Qed.

Lemma pre_install_ok w w' :
  PLATFORM_IS_WINDOWS h = false ->
  pre_install cfg h w = (Ok tt, w') ->
  exists m, sh h (pre_install_script cfg) [] (fs w) = Some m
            /\ w' = set_fs m (add_call (TempScript (pre_install_script cfg)) w).
Proof.
  intros Hw. unfold pre_install, run_script, run_sh. munfold. rewrite Hw.
  cbn [fs add_call]. fold (pre_install_script cfg).
  destruct (sh h (pre_install_script cfg) [] (fs w)) as [m|]; intros H;
    simplify_eq/=. eauto.
Qed.

(** X11: a run that ends with status 0 on a host that is not Windows has
    written and run the pre-install script, and the script has
    succeeded. *)
Theorem successful_run_ran_pre_install a w w' :
  PLATFORM_IS_WINDOWS h = false ->
  main cfg h a w = (Ok 0, w') ->
  (exists m, sh h (pre_install_script cfg) [] (fs w) = Some m)
  /\ TempScript (pre_install_script cfg) ∈ calls w'.
Proof.
  intros Hw H. unfold main in H.
  destruct (check_kernel_spec cfg h w) as (r1 & w1 & R1 & (F1 & C1 & I1) & G1).
  destruct G1 as [-> | [-> | [e ->]]];
    [ rewrite (or_else_none _ _ _ _ R1) in H
    | rewrite (or_else_some _ _ _ _ _ R1) in H; discriminate
    | rewrite (or_else_raise _ _ _ _ _ R1) in H; discriminate ].
  destruct (check_arch_spec cfg h w1) as (r2 & w2 & R2 & (F2 & C2 & I2) & G2).
  destruct G2 as [-> | [-> | [e ->]]];
    [ rewrite (or_else_none _ _ _ _ R2) in H
    | rewrite (or_else_some _ _ _ _ _ R2) in H; discriminate
    | rewrite (or_else_raise _ _ _ _ _ R2) in H; discriminate ].
  destruct (check_gcc_spec cfg h w2) as (r3 & w3 & R3 & (F3 & C3 & I3) & G3).
  destruct G3 as [-> | [-> | [e ->]]];
    [ rewrite (or_else_none _ _ _ _ R3) in H
    | rewrite (or_else_some _ _ _ _ _ R3) in H; discriminate
    | rewrite (or_else_raise _ _ _ _ _ R3) in H; discriminate ].
  destruct (banner_spec cfg w3) as (w4 & R4 & F4 & C4 & I4).
  rewrite (bind_ok _ _ _ _ _ R4) in H.
  apply bind_inv in H as [([] & w5 & R5 & H) | (e & _ & ?)]; [|discriminate].
  apply pre_install_ok in R5 as (m & Hsh & ->); [|exact Hw].
  split; [exists m; congruence|].
  apply bind_inv in H as [(d & w6 & R6 & H) | (e & _ & ?)]; [|discriminate].
  destruct (choose_destination_spec cfg h a
              (set_fs m (add_call (TempScript (pre_install_script cfg)) w4)))
    as (d' & w6' & R6' & _ & C6 & _).
  rewrite R6 in R6'. simplify_eq.
  apply install_calls_grow in H. unfold calls_grow in H.
  eapply elem_of_prefix; [|exact H]. rewrite C6. simpl.
  apply elem_of_app. right. left.
Qed.

(** X12: the run ends with status 0 or 1 when it ends in a [return]. *)
Theorem exit_status_is_0_or_1 a w status w' :
  main cfg h a w = (Ok status, w') -> status = 0 \/ status = 1.
Proof.
  revert w status w'.
  change (returns (fun s => s = 0 \/ s = 1) (main cfg h a)).
  assert (forall (m : M (option Z)),
            (forall w, exists r w', m w = (r, w') /\ prints_only w w' /\ gate_result r) ->
            returns (fun r => forall s, r = Some s -> s = 0 \/ s = 1) m) as Hgate.
  { intros m Hm w r w' H s ->. destruct (Hm w) as (r' & w'' & E & _ & G).
    rewrite H in E. destruct G as [? | [? | [e ?]]]; simplify_eq. now right. }
  unfold main.
  apply returns_or_else; [apply Hgate, check_kernel_spec|].
  apply returns_or_else; [apply Hgate, check_arch_spec|].
  apply returns_or_else; [apply Hgate, check_gcc_spec|].
  apply returns_bind; intros _. apply returns_bind; intros _.
  apply returns_bind; intros destination. unfold install.
  apply returns_or_else.
  { intros w r w' H s ->. unfold validate_destination, print in H. munfold.
    destruct (_ <? _); [simplify_eq; now right|].
    destruct (has_whitespace _); simplify_eq. now right. }
  apply returns_or_else.
  { unfold confirm. apply returns_bind; intros v. apply returns_bind; intros p.
    destruct p; [|apply returns_bind; intros _];
      intros w r w' H s ->; unfold ret in H; simplify_eq. now right. }
  apply returns_or_else.
  { intros w r w' H s ->. unfold extract_sdk, except in H.
    destruct (list_files a).
    - unfold print_raw in H. munfold. simplify_eq. now left.
    - match type of H with
      | (match ?m w with _ => _ end) = _ => destruct (m w) as [[x|e] w1] eqn:E
      end.
      + simplify_eq.
        repeat (apply bind_inv in E as [(? & ? & _ & E) | (? & _ & ?)];
                [|discriminate]).
        unfold ret in E. simplify_eq.
      + destruct (decide (e = PermissionError)); [|discriminate].
        unfold print in H. munfold. simplify_eq. now right. }
  unfold set_up, finish.
  repeat (apply returns_bind; intros ?).
  intros w r w' H. unfold ret in H. simplify_eq. now left.
Qed.
End ExtractionFrame.

(** ** Replacement *)

Module ReplaceFacts.
Import PyStr.

Lemma subst_from_skip m w new pre s :
  subst_from m w new (String.length pre) (pre +:+ s) = subst_from m w new 0 s.
Proof. induction pre as [|c pre IH]; simpl; [reflexivity | exact IH]. Qed.

Lemma prefix_app p s : String.prefix p (p +:+ s) = true.
Proof. apply StrFacts.prefix_spec. now exists s. Qed.

(** [str.replace] at a match: the replacement, then what follows the
    match. *)
Lemma str_replace_match old new s :
  old <> "" -> str_replace old new (old +:+ s) = new +:+ str_replace old new s.
Proof.
  destruct old as [|c old]; [done|]. intros _. unfold str_replace.
  change (String c old +:+ s) with (String c (old +:+ s)).
  cbn [subst_from].
  change (String c (old +:+ s)) with (String c old +:+ s).
  rewrite prefix_app. f_equal. cbn [String.length].
  replace (S (String.length old) - 1)%nat with (String.length old) by lia.
  apply subst_from_skip.
Qed.

(** [str.replace] where no match starts: the character is kept. *)
Lemma str_replace_nomatch old new c s :
  old <> "" -> String.prefix old (String c s) = false ->
  str_replace old new (String c s) = String c (str_replace old new s).
Proof.
  destruct old as [|d old]; [done|]. intros _ H. unfold str_replace.
  cbn [subst_from]. now rewrite H.
Qed.

Lemma intersperse_nil s : intersperse_str "" s = s.
Proof. induction s as [|c s IH]; simpl; [reflexivity|]. now rewrite IH. Qed.

Lemma str_replace_same_bounded a n s :
  (String.length s <= n)%nat -> str_replace a a s = s.
Proof.
  destruct a as [|c a]; [intros _; apply intersperse_nil|].
  revert s; induction n as [|n IH]; intros s Hn.
  - destruct s; [reflexivity | simpl in Hn; lia].
  - destruct s as [|d s]; [reflexivity|].
    destruct (String.prefix (String c a) (String d s)) eqn:E.
    + apply StrFacts.prefix_spec in E as [t E]. rewrite E.
      rewrite str_replace_match by done. f_equal. apply IH.
      apply (f_equal String.length) in E.
      rewrite StrFacts.length_append in E. simpl in *. lia.
    + rewrite str_replace_nomatch by done. f_equal. apply IH.
      simpl in Hn. lia.
Qed.

(** Replacing a text by itself changes nothing. *)
Lemma str_replace_same a s : str_replace a a s = s.
Proof. now apply (str_replace_same_bounded a (String.length s)). Qed.

End ReplaceFacts.

(** ** The order of versions *)

Module VersionFacts.
Import PyStr VersionSort.

Lemma cmp_text_sym s1 s2 :
  cmp_text s2 s1 = match cmp_text s1 s2 with
                   | inl d => inl (- d)
                   | inr (t1, t2) => inr (t2, t1)
                   end.
Proof.
  revert s2; induction s1 as [|c1 r1 IH]; intros [|c2 r2]; cbn [cmp_text].
  - reflexivity.
  - rewrite orb_comm, Z.eqb_sym.
    destruct (_ || _); [|reflexivity].
    destruct (_ =? _); [reflexivity|]. f_equal. lia.
  - rewrite orb_comm, Z.eqb_sym.
    destruct (_ || _); [|reflexivity].
    destruct (_ =? _); [reflexivity|]. f_equal. lia.
  - rewrite orb_comm, Z.eqb_sym.
    destruct (_ || _); [|reflexivity].
    destruct (_ =? _); [apply IH|]. f_equal. lia.
Qed.

Lemma cmp_digits_sym fd s1 s2 :
  cmp_digits (- fd) s2 s1
  = let '(d, u1, u2) := cmp_digits fd s1 s2 in (- d, u2, u1).
Proof.
  revert fd s2; induction s1 as [|c1 r1 IH]; intros fd [|c2 r2];
    cbn [cmp_digits]; try reflexivity.
  rewrite andb_comm. destruct (_ && _); [|reflexivity].
  rewrite <- IH. f_equal.
  replace (- fd =? 0) with (fd =? 0) by (destruct (Z.eqb_spec fd 0), (Z.eqb_spec (- fd) 0); lia).
  destruct (fd =? 0); lia.
Qed.

(** The runs of digits end together unless one of them is at a
    character that is no digit. *)
Lemma cmp_digits_stop fd s1 s2 :
  let '(d, u1, u2) := cmp_digits fd s1 s2 in
  at_digit u1 && at_digit u2 = false.
Proof.
  revert fd s2; induction s1 as [|c1 r1 IH]; intros fd [|c2 r2];
    cbn [cmp_digits at_digit]; try reflexivity.
  - apply andb_false_r.
  - destruct (is_digit c1 && is_digit c2) eqn:E; [apply IH | exact E].
Qed.

Lemma verrevcmp_loop_sym fuel s1 s2 :
  verrevcmp_loop fuel s2 s1 = - verrevcmp_loop fuel s1 s2.
Proof.
  revert s1 s2; induction fuel as [|fuel IH]; intros s1 s2; [reflexivity|].
  cbn [verrevcmp_loop].
  assert (match cmp_text s2 s1 with
          | inl d => d
          | inr (t1, t2) =>
              let '(first_diff, u1, u2) :=
                cmp_digits 0 (skip_zeros t1) (skip_zeros t2) in
              if at_digit u1 then 1
              else if at_digit u2 then -1
              else if negb (first_diff =? 0) then first_diff
              else verrevcmp_loop fuel u1 u2
          end
          = - match cmp_text s1 s2 with
              | inl d => d
              | inr (t1, t2) =>
                  let '(first_diff, u1, u2) :=
                    cmp_digits 0 (skip_zeros t1) (skip_zeros t2) in
                  if at_digit u1 then 1
                  else if at_digit u2 then -1
                  else if negb (first_diff =? 0) then first_diff
                  else verrevcmp_loop fuel u1 u2
              end) as Hbody.
  { rewrite cmp_text_sym. destruct (cmp_text s1 s2) as [d | [t1 t2]]; [reflexivity|].
    change 0 with (- 0) at 1. rewrite cmp_digits_sym.
    pose proof (cmp_digits_stop 0 (skip_zeros t1) (skip_zeros t2)) as Hstop.
    destruct (cmp_digits 0 (skip_zeros t1) (skip_zeros t2)) as [[d u1] u2].
    destruct (at_digit u1), (at_digit u2); try discriminate; try reflexivity.
    replace (- d =? 0) with (d =? 0)
      by (destruct (Z.eqb_spec d 0), (Z.eqb_spec (- d) 0); lia).
    destruct (d =? 0); [apply IH | reflexivity]. }
  destruct s1, s2; try reflexivity; exact Hbody.
Qed.

Lemma verrevcmp_sym s1 s2 : verrevcmp s2 s1 = - verrevcmp s1 s2.
Proof.
  unfold verrevcmp. rewrite (Nat.add_comm (String.length s2)).
  apply verrevcmp_loop_sym.
Qed.

Lemma eqb_opp_0 d : (- d =? 0) = (d =? 0).
Proof. destruct (Z.eqb_spec d 0), (Z.eqb_spec (- d) 0); lia. Qed.

(** [filevercmp] is antisymmetric. *)
Lemma filevercmp_sym a b : filevercmp b a = - filevercmp a b.
Proof.
  destruct a as [|a0 a'], b as [|b0 b']; try reflexivity.
  unfold filevercmp.
  rewrite (verrevcmp_sym (file_prefix (String a0 a')) (file_prefix (String b0 b'))).
  rewrite (verrevcmp_sym (String a0 a') (String b0 b')).
  rewrite eqb_opp_0.
  destruct (verrevcmp (file_prefix (String a0 a')) (file_prefix (String b0 b')) =? 0);
    cbn [negb];
    destruct (Ascii.eqb a0 dot), (Ascii.eqb b0 dot); try reflexivity;
    destruct (String.eqb (String a0 a') "."), (String.eqb (String b0 b') "."),
      (String.eqb (String a0 a') ".."), (String.eqb (String b0 b') "..");
    reflexivity.
Qed.

Lemma leb_total_strict a b : a <> b -> String.leb a b = negb (String.leb b a).
Proof.
  intros Hne. unfold String.leb.
  rewrite (String.compare_antisym a b).
  destruct (String.compare b a) eqn:E; try reflexivity.
  apply String.compare_eq_iff in E. congruence.
Qed.

(** Of two different lines, [sort -V] puts exactly one first. *)
Lemma line_le_strict a b : a <> b -> line_le a b = negb (line_le b a).
Proof.
  intros Hne. unfold line_le. rewrite (filevercmp_sym a b).
  destruct (Z.ltb_spec (filevercmp a b) 0), (Z.ltb_spec 0 (filevercmp a b)),
    (Z.ltb_spec (- filevercmp a b) 0), (Z.ltb_spec 0 (- filevercmp a b));
    try lia; try reflexivity.
  now apply leb_total_strict.
Qed.

(** *** What [sort -V] reads and writes *)

Lemma single_line_no_newline c s :
  single_line (String c s) = true -> Ascii.eqb c newline = false /\ single_line s = true.
Proof.
  simpl. intros H. apply andb_true_iff in H as [H1 H2]. split; [|exact H2].
  destruct (Ascii.eqb_spec c newline) as [->|]; [discriminate | reflexivity].
Qed.

Lemma lines_from_single cur s r :
  single_line s = true ->
  lines_from cur (s +:+ String newline r)
  = cur (s +:+ nl) :: lines_from (fun x => x) r.
Proof.
  revert cur; induction s as [|c s IH]; intros cur Hs.
  - reflexivity.
  - apply single_line_no_newline in Hs as [Hc Hs].
    change (String c s +:+ String newline r) with (String c (s +:+ String newline r)).
    cbn [lines_from]. rewrite Hc. now rewrite IH.
Qed.

Lemma lines_from_last cur s :
  single_line s = true ->
  lines_from cur s = match cur s with EmptyString => [] | l => [l] end.
Proof.
  revert cur; induction s as [|c s IH]; intros cur Hs; [reflexivity|].
  apply single_line_no_newline in Hs as [Hc Hs].
  cbn [lines_from]. rewrite Hc. now rewrite IH.
Qed.

Lemma readlines_two a b :
  single_line a = true -> single_line b = true ->
  readlines (a +:+ nl +:+ b)
  = (a +:+ nl) :: match b with EmptyString => [] | _ => [b] end.
Proof.
  intros Ha Hb. unfold readlines, nl.
  change (a +:+ String newline "" +:+ b) with (a +:+ String newline b).
  rewrite lines_from_single by exact Ha. f_equal.
  rewrite lines_from_last by exact Hb. now destruct b.
Qed.

Lemma last_char_nl a : last_char (a +:+ nl) = Some newline.
Proof.
  induction a as [|c a IH]; [reflexivity|].
  change (String c a +:+ nl) with (String c (a +:+ nl)). cbn [last_char].
  destruct (a +:+ nl) eqn:E; [destruct a; discriminate | exact IH].
Qed.

Lemma last_char_single s c :
  single_line s = true -> last_char s = Some c -> Ascii.eqb c newline = false.
Proof.
  induction s as [|d s IH]; [discriminate|]. intros Hs.
  apply single_line_no_newline in Hs as [Hd Hs]. cbn [last_char].
  destruct s; [intros [= <-]; exact Hd | now apply IH].
Qed.

Lemma substring_prefix a r :
  String.substring 0 (String.length a) (a +:+ r) = a.
Proof. induction a as [|c a IH]; simpl; [now destruct r | now rewrite IH]. Qed.

Lemma input_lines_two a b :
  single_line a = true -> single_line b = true ->
  input_lines (a +:+ nl +:+ b)
  = a :: match b with EmptyString => [] | _ => [b] end.
Proof.
  intros Ha Hb. unfold input_lines. rewrite readlines_two by assumption.
  cbn [map]. rewrite last_char_nl, Ascii.eqb_refl. f_equal.
  - rewrite StrFacts.length_append. simpl.
    replace (String.length a + 1 - 1)%nat with (String.length a) by lia.
    apply substring_prefix.
  - destruct b as [|c b]; [reflexivity|]. cbn [map]. f_equal.
    destruct (last_char (String c b)) as [d|] eqn:E; [|reflexivity].
    now rewrite (last_char_single _ _ Hb E).
Qed.

Lemma until_boundary_line x r :
  single_line x = true -> until_boundary (x +:+ String newline r) = x.
Proof.
  induction x as [|c x IH]; intros Hx; [reflexivity|].
  simpl in Hx. apply andb_true_iff in Hx as [Hc Hx].
  change (String c x +:+ String newline r) with (String c (x +:+ String newline r)).
  cbn [until_boundary]. apply negb_true_iff in Hc. rewrite Hc. now rewrite IH.
Qed.

Lemma first_line_of x r :
  single_line x = true -> first_line (x +:+ String newline r) = Ok x.
Proof.
  intros Hx. unfold first_line. rewrite until_boundary_line by exact Hx.
  now destruct x.
Qed.

Lemma sort_V_head x ls :
  PyStr.concat (map (fun l => l +:+ nl) (x :: ls))
  = x +:+ String newline (PyStr.concat (map (fun l => l +:+ nl) ls)).
Proof. cbn [map concat]. unfold nl. now rewrite StrFacts.append_assoc. Qed.

(** [ver_lteq] on versions of one line each. *)
Lemma ver_lteq_single a b :
  single_line a = true -> single_line b = true ->
  ver_lteq a b
  = Ok (match b with
        | EmptyString => true
        | _ => line_le a b || String.eqb b a
        end).
Proof.
  intros Ha Hb. unfold ver_lteq, sort_V. fold nl.
  rewrite input_lines_two by assumption.
  destruct b as [|c b]; unfold sort_lines, sort_by; cbn [foldr insert_by].
  - rewrite sort_V_head, first_line_of by exact Ha. cbn.
    now rewrite String.eqb_refl.
  - destruct (line_le a (String c b)).
    + rewrite sort_V_head, first_line_of by exact Ha. cbn.
      now rewrite String.eqb_refl.
    + rewrite sort_V_head, first_line_of by exact Hb. reflexivity.
Qed.

Lemma lines_from_nonempty cur s :
  (s <> "" \/ cur "" <> "") -> (forall r, r <> "" -> cur r <> "") ->
  lines_from cur s <> [].
Proof.
  revert cur; induction s as [|c s IH]; intros cur H Hcur.
  - simpl. destruct H as [H|H]; [done|]. now destruct (cur "").
  - cbn [lines_from]. destruct (Ascii.eqb c newline); [done|].
    apply IH.
    + right. now apply Hcur.
    + intros r _. now apply Hcur.
Qed.

Lemma concat_lines_nonempty (ls : list string) :
  ls <> [] -> exists c r, PyStr.concat (map (fun l => l +:+ nl) ls) = String c r.
Proof.
  destruct ls as [|l ls]; [done|]. intros _. cbn [map concat].
  destruct l as [|c l]; cbn; eauto.
Qed.

(** [sort -V] writes at least one line when its input is not empty. *)
Lemma sort_V_nonempty text : text <> "" -> exists c r, sort_V text = String c r.
Proof.
  intros H. unfold sort_V. apply concat_lines_nonempty.
  intros E. apply (f_equal (@length _)) in E.
  unfold sort_lines in E.
  rewrite (Permutation_length (SortFacts.sort_by_perm _ _)) in E.
  unfold input_lines in E. rewrite length_map in E.
  apply length_zero_iff_nil in E. revert E.
  apply lines_from_nonempty; [now left | done].
Qed.

End VersionFacts.

(** X13: [ver_lt] never fails: the first line of what [sort -V] writes is
    always there. *)
Theorem ver_lt_never_fails a b : exists r, ver_lt a b = Ok r.
Proof.
  unfold ver_lt. destruct (String.eqb a b); [now exists false|].
  unfold ver_lteq.
  destruct (VersionFacts.sort_V_nonempty (a +:+ String PyStr.newline EmptyString +:+ b))
    as (c & r & ->).
  { destruct a; discriminate. }
  cbn. eauto.
Qed.

(** X14: an empty version is before every other version of one line, and
    every other version of one line is before it. *)
Theorem ver_lt_empty_version a :
  single_line a = true -> a <> "" ->
  ver_lt a "" = Ok true /\ ver_lt "" a = Ok true.
Proof.
  intros Ha Hne. unfold ver_lt.
  assert (String.eqb a "" = false) as E1 by now apply String.eqb_neq.
  assert (String.eqb "" a = false) as E2 by (apply String.eqb_neq; congruence).
  rewrite E1, E2, !VersionFacts.ver_lteq_single by (exact Ha || reflexivity).
  split; [reflexivity|]. destruct a as [|c a]; [done|]. reflexivity.
Qed.

(** X15: of two different versions, of one line each and not empty, exactly
    one is before the other. *)
Theorem ver_lt_total_and_asymmetric a b :
  single_line a = true -> single_line b = true ->
  a <> "" -> b <> "" -> a <> b ->
  exists r, ver_lt a b = Ok r /\ ver_lt b a = Ok (negb r).
Proof.
  intros Ha Hb Hna Hnb Hne. unfold ver_lt.
  assert (String.eqb a b = false) as E1 by now apply String.eqb_neq.
  assert (String.eqb b a = false) as E2 by (apply String.eqb_neq; congruence).
  rewrite E1, E2, !VersionFacts.ver_lteq_single by assumption.
  destruct a as [|c a]; [done|]. destruct b as [|d b]; [done|].
  rewrite E1, E2, !orb_false_r.
  exists (VersionSort.line_le (String c a) (String d b)). split; [reflexivity|].
  f_equal. apply VersionFacts.line_le_strict. congruence.
Qed.

Section RelocationIdentity.
Variable cfg : config.

(** X16: relocating to the path the SDK was built for changes no text. *)
Theorem relocation_to_build_path_is_identity text :
  relocate_text cfg (SDKPATH cfg) text = text.
Proof.
  unfold relocate_text.
  rewrite <- (StrFacts.concat_readlines text) at 2. f_equal.
  induction (PyStr.readlines text) as [|l ls IH]; simpl; [reflexivity|].
  rewrite IH. f_equal. apply ReplaceFacts.str_replace_same.
Qed.
End RelocationIdentity.

(** ** The scripts of the SDK *)

Module ScriptFacts.

Lemma substring_all r : String.substring 0 (String.length r) r = r.
Proof. induction r as [|c r IH]; simpl; [reflexivity | now rewrite IH]. Qed.

Lemma substring_suffix a r :
  String.substring (String.length a)
    (String.length (a +:+ r) - String.length a) (a +:+ r) = r.
Proof.
  induction a as [|c a IH]; simpl.
  - rewrite Nat.sub_0_r. apply substring_all.
  - exact IH.
Qed.

(** The names that [glob] matches: the stem, then anything without a
    separator. *)
Lemma is_setup_script_spec destination p :
  is_setup_script destination p = true
  <-> exists rest,
        p = Path.join destination "environment-setup-" +:+ rest
        /\ PyStr.str_in "/" rest = false.
Proof.
  unfold is_setup_script, PyStr.startswith. rewrite andb_true_iff, negb_true_iff.
  rewrite StrFacts.prefix_spec. split.
  - intros [[rest ->] H]. exists rest. split; [reflexivity|].
    now rewrite substring_suffix in H.
  - intros (rest & -> & H). split; [now exists rest|].
    now rewrite substring_suffix.
Qed.

Lemma append_inj_r (a b c : string) : a +:+ b = a +:+ c -> b = c.
Proof. induction a as [|x a IH]; simpl; [done|]. intros [= H]. now apply IH. Qed.

Lemma relocating_scripts_differ d :
  Path.join d "relocate_sdk.py" <> Path.join d "relocate_sdk.sh".
Proof.
  unfold Path.join. cbn [PyStr.startswith String.prefix].
  replace (String.prefix "/" "relocate_sdk.py") with false by reflexivity.
  replace (String.prefix "/" "relocate_sdk.sh") with false by reflexivity.
  destruct (_ || _); intros H; apply append_inj_r in H; discriminate.
Qed.

End ScriptFacts.

Section ScriptSteps.
Variable cfg : config.
Variable h : host.

(** X17: the scripts that are relocated and then listed to the user are the
    entries of the file system named [environment-setup-] and anything
    without a separator, directly in the destination; each of them
    once, in ascending order. *)
Theorem setup_scripts_listed destination m :
  (forall s, s ∈ environment_setup_scripts destination m
             <-> is_Some (m !! s)
                 /\ exists rest,
                      s = Path.join destination "environment-setup-" +:+ rest
                      /\ PyStr.str_in "/" rest = false)
  /\ NoDup (environment_setup_scripts destination m)
  /\ Sorted (fun a b => String.leb a b = true)
            (environment_setup_scripts destination m).
Proof.
  split; [|split].
  - intros s. rewrite <- ScriptFacts.is_setup_script_spec.
    rewrite scripts_perm, list_elem_of_filter, list_elem_of_fmap. split.
    + intros (Hs & [k x] & -> & Hk). split; [|exact Hs].
      apply elem_of_map_to_list in Hk. simpl. eauto.
    + intros [[x Hx] Hs]. split; [exact Hs|]. exists (s, x). split; [reflexivity|].
      now apply elem_of_map_to_list.
  - apply scripts_NoDup.
  - apply SortFacts.sorted_sorted.
Qed.

Lemma os_remove_spec p w :
  exists r,
    os_remove h p w
    = (r, set_fs (if removable h (fs w) p then delete p (fs w) else fs w)
                 (add_call (Remove p) w))
    /\ (r = Ok tt <-> removable h (fs w) p = true).
Proof.
  unfold os_remove, OS.unlink, removable. munfold. cbn [fs add_call].
  destruct (fs w !! p) as [[]|]; try destruct (denied h p); cbn;
    eexists; (split; [try reflexivity|]); try (split; (done || discriminate)).
  all: destruct w; reflexivity.
Qed.

Lemma ignore_remove p w :
  ignore_errors (os_remove h p) w
  = (Ok tt, set_fs (if removable h (fs w) p then delete p (fs w) else fs w)
                   (add_call (Remove p) w)).
Proof.
  unfold ignore_errors. destruct (os_remove_spec p w) as (r & -> & _).
  now destruct r as [[]|].
Qed.

(** X18: deleting the relocation scripts never fails.  With [-S] nothing is
    done; without it each of the two scripts is gone afterwards, unless
    it is a directory or the host refuses, and nothing else has
    changed. *)
Theorem relocating_scripts_are_deleted a env_setup_script w :
  exists w',
    delete_relocating_scripts h a env_setup_script w = (Ok tt, w')
    /\ stdin w' = stdin w /\ stdout w' = stdout w
    /\ (save_scripts a = true -> w' = w)
    /\ (save_scripts a = false ->
        forall p, p ∈ relocating_scripts env_setup_script ->
                  fs w' !! p
                  = if removable h (fs w) p then None else fs w !! p)
    /\ (forall q, q ∉ relocating_scripts env_setup_script ->
                  fs w' !! q = fs w !! q).
Proof.
  unfold delete_relocating_scripts, relocating_scripts.
  set (py := Path.join (Path.dirname env_setup_script) "relocate_sdk.py").
  set (sh := Path.join (Path.dirname env_setup_script) "relocate_sdk.sh").
  assert (py <> sh) as Hne by apply ScriptFacts.relocating_scripts_differ.
  destruct (save_scripts a).
  { exists w. unfold ret. repeat split; try done. }
  erewrite bind_ok by apply ignore_remove.
  rewrite ignore_remove. cbn [fs set_fs add_call].
  eexists. split; [reflexivity|]. cbn [stdin stdout fs set_fs add_call].
  split; [reflexivity|]. split; [reflexivity|]. split; [discriminate|].
  assert (removable h (if removable h (fs w) py then delete py (fs w) else fs w) sh
          = removable h (fs w) sh) as Hsh.
  { unfold removable at 1 3. destruct (removable h (fs w) py); [|reflexivity].
    now rewrite lookup_delete_ne. }
  rewrite Hsh. split.
  - intros _ p Hp. apply elem_of_cons in Hp as [-> | Hp];
      [|apply list_elem_of_singleton in Hp as ->].
    + destruct (removable h (fs w) sh), (removable h (fs w) py) eqn:Epy;
        rewrite ?lookup_delete_ne by done; rewrite ?lookup_delete_eq; done.
    + destruct (removable h (fs w) sh), (removable h (fs w) py);
        rewrite ?lookup_delete_eq; rewrite ?lookup_delete_ne by done; done.
  - intros q Hq.
    assert (q <> py /\ q <> sh) as [Hq1 Hq2] by set_solver.
    destruct (removable h (fs w) sh), (removable h (fs w) py);
      rewrite ?lookup_delete_ne by done; done.
Qed.

Lemma os_remove_ok p w w' :
  os_remove h p w = (Ok tt, w') -> fs w' !! p = None.
Proof.
  destruct (os_remove_spec p w) as (r & E & Hr). rewrite E. intros [= -> <-].
  destruct Hr as [Hr _]. rewrite (Hr eq_refl). cbn. apply lookup_delete_eq.
Qed.

(** X19: a post-relocation step that ends well without [-S] has removed its
    script: afterwards [post-relocate-setup.sh] does not exist in the
    destination. *)
Theorem post_relocate_removes_script a destination w w' :
  save_scripts a = false ->
  post_relocate cfg h a destination w = (Ok tt, w') ->
  OS.exists_ (fs w') (Path.join destination "post-relocate-setup.sh") = false.
Proof.
  intros Hs. unfold post_relocate. rewrite Hs.
  set (p := Path.join destination "post-relocate-setup.sh").
  intros H. apply bind_inv in H as [(w0 & w0' & G & H) | (e & _ & ?)]; [|discriminate].
  unfold get in G. injection G as <- <-.
  destruct (OS.exists_ (fs w) p) eqn:E.
  - apply bind_inv in H as [(b & w1 & _ & H) | (e & _ & ?)]; [|discriminate].
    apply bind_inv in H as [([] & w2 & _ & H) | (e & _ & ?)]; [|discriminate].
    apply os_remove_ok in H. unfold OS.exists_.
    rewrite (OSFacts.resolve_absent _ _ H). unfold OS.lexists. now rewrite H.
  - unfold ret in H. injection H as <-. exact E.
Qed.

(** X20: a script that does not exist, or a link to nothing, is not
    relocated: [relocate_file] fails when it opens it, before the
    temporary file is made, and the file system is as it was. *)
Theorem missing_script_is_not_relocated destination name w :
  OS.exists_ (fs w) name = false ->
  exists e w',
    relocate_file cfg h destination name w = (Raise e, w')
    /\ (e = FileNotFoundError \/ e = TooManyLinks)
    /\ fs w' = fs w /\ stdout w' = stdout w.
Proof.
  intros Hno. unfold relocate_file.
  erewrite bind_ok by reflexivity.
  assert (exists e, OS.open_read name (add_call (Rewrite name) w)
                    = (Raise e, add_call (Rewrite name) w)
                    /\ (e = FileNotFoundError \/ e = TooManyLinks)) as (e & E & He).
  { unfold OS.open_read, OS.exists_, OS.lexists in *. munfold. cbn [fs add_call].
    destruct (OS.resolve (fs w) name) as [r|]; [|eauto].
    destruct (fs w !! r) as [[]|]; try done; eauto. }
  erewrite bind_raise by exact E. eauto 10.
Qed.
End ScriptSteps.

(** ** The environment *)

Module EnvFacts.

Lemma str_in_app_r needle a b :
  PyStr.str_in needle a = true -> PyStr.str_in needle (a +:+ b) = true.
Proof.
  rewrite !StrFacts.str_in_spec. intros (x & y & ->). exists x, (y +:+ b).
  now rewrite !StrFacts.append_assoc.
Qed.

Lemma str_in_app_l needle a b :
  PyStr.str_in needle b = true -> PyStr.str_in needle (a +:+ b) = true.
Proof.
  rewrite !StrFacts.str_in_spec. intros (x & y & ->). exists (a +:+ x), y.
  now rewrite !StrFacts.append_assoc.
Qed.

Lemma str_in_refl needle : PyStr.str_in needle needle = true.
Proof.
  apply StrFacts.str_in_spec. exists "", "". simpl.
  now rewrite StrFacts.append_nil_r.
Qed.

Lemma tweakpath_spec p environ environ' :
  tweakpath p environ = Some environ' ->
  exists path extra,
    environ !! "PATH" = Some path
    /\ (extra = "" \/ extra = ":" +:+ p)
    /\ environ' = <["PATH" := path +:+ extra]> environ
    /\ on_path p (path +:+ extra) = true.
Proof.
  unfold tweakpath, on_path. destruct (environ !! "PATH") as [path|] eqn:E; [|done].
  cbn. destruct (PyStr.str_in _ path) eqn:Hin; cbn; intros [= <-].
  - exists path, "". rewrite StrFacts.append_nil_r. split; [done|].
    split; [now left|].
    split; [now rewrite insert_id | now apply str_in_app_r].
  - exists path, (":" +:+ p). split; [done|]. split; [now right|]. split; [done|].
    rewrite StrFacts.append_assoc. apply str_in_app_l.
    rewrite StrFacts.append_assoc. apply str_in_refl.
Qed.

Lemma on_path_app p q path :
  on_path p path = true -> on_path p (path +:+ ":" +:+ q) = true.
Proof.
  unfold on_path. intros H.
  replace ((path +:+ ":" +:+ q) +:+ ":") with ((path +:+ ":") +:+ q +:+ ":")
    by now rewrite !StrFacts.append_assoc.
  now apply str_in_app_r.
Qed.

End EnvFacts.

Section EnvSteps.
Variable h : host.
Variables (executable : string) (argv : list string).

(** X21: when [check_env] returns on a host that is not Windows, the
    environment had been cleaned and had a search path; the search path
    is the old one without its [:.] and [::], followed by what has been
    added to it; every other variable is as before; and [/usr/sbin] and
    [/sbin] are components of the search path. *)
Theorem check_env_puts_sbin_on_path environ environ' :
  PLATFORM_IS_WINDOWS h = false ->
  check_env h executable argv environ = EnvReturn environ' ->
  exists path extra,
    environ !! "PATH" = Some path
    /\ environ' = <["PATH" := PyStr.str_replace "::" "" (PyStr.str_replace ":." "" path)
                              +:+ extra]> environ
    /\ on_path "/usr/sbin" (environ_get environ' "PATH") = true
    /\ on_path "/sbin" (environ_get environ' "PATH") = true.
Proof.
  intros Hw. unfold check_env. rewrite Hw.
  destruct (environ !! "ENVCLEANED") as [[|c v]|]; try done.
  destruct (environ !! "PATH") as [path|]; [|done].
  set (clean := PyStr.str_replace "::" "" (PyStr.str_replace ":." "" path)).
  destruct (tweakpath "/usr/sbin" _) as [e1|] eqn:T1; [|done].
  destruct (tweakpath "/sbin" e1) as [e2|] eqn:T2; [|done].
  intros [= <-].
  apply EnvFacts.tweakpath_spec in T1 as (p1 & x1 & P1 & _ & -> & O1).
  rewrite lookup_insert_eq in P1. injection P1 as <-.
  apply EnvFacts.tweakpath_spec in T2 as (p2 & x2 & P2 & X2 & -> & O2).
  rewrite lookup_insert_eq in P2. injection P2 as <-.
  exists path, (x1 +:+ x2). split; [done|].
  rewrite !insert_insert_eq, StrFacts.append_assoc. split; [done|].
  unfold environ_get. rewrite lookup_insert_eq.
  rewrite <- StrFacts.append_assoc. split; [|exact O2].
  destruct X2 as [-> | ->].
  - now rewrite StrFacts.append_nil_r.
  - now apply EnvFacts.on_path_app.
Qed.

(** X22: a first run, with [ENVCLEANED] unset or empty, never returns nor
    reads [PATH]: [check_env] replaces the process, and hands every
    preserved variable to the new one, with the empty text for those
    that are not set. *)
Theorem check_env_reexecutes environ :
  PLATFORM_IS_WINDOWS h = false ->
  environ_get environ "ENVCLEANED" = "" ->
  exists args,
    check_env h executable argv environ = EnvExec "/usr/bin/env" args
    /\ length args = (13 + length argv)%nat
    /\ (forall e, e ∈ PRESERVED_ENVS ->
                  e +:+ "=" +:+ environ_get environ e ∈ args)
    /\ "ENVCLEANED=1" ∈ args
    /\ executable :: argv `suffix_of` args.
Proof.
  intros Hw He. unfold check_env. rewrite Hw. unfold environ_get in He.
  eexists. split.
  { destruct (environ !! "ENVCLEANED") as [[|c v]|]; [reflexivity|done|reflexivity]. }
  split; [rewrite !length_app, length_map; simpl; lia|].
  split; [|split].
  - intros e Hin. apply elem_of_app. right. apply elem_of_app. left.
    apply (list_elem_of_fmap_2 (fun e => e +:+ "=" +:+ environ_get environ e)), Hin.
  - apply elem_of_app. left. set_solver.
  - rewrite app_assoc. now apply suffix_app_r.
Qed.
End EnvSteps.


(** ** The properties on the sample installation *)

Lemma yes_never_prompts_witness :
  stdin (snd (main Sample.poky Sample.linux Sample.unattended
                (Scenario.answering ["n"])))
  = ["n"].
Proof.
  exact (yes_never_prompts Sample.poky Sample.linux Sample.unattended
           (Scenario.answering ["n"]) eq_refl).
Defined.

Lemma windows_runs_no_shell_witness :
  exists cs,
    calls (snd (main (Sample.poky_with Sample.sdk_members) Scenario.windows
                  Sample.unattended Sample.empty_world))
    = calls Sample.empty_world ++ cs
    /\ Forall (fun c => is_shell_call c = false) cs.
Proof.
  exact (windows_runs_no_shell (Sample.poky_with Sample.sdk_members)
           Scenario.windows Sample.unattended Sample.empty_world eq_refl).
Defined.

Lemma incompatible_host_only_prints_witness :
  exists r w',
    main Sample.poky Scenario.arm Sample.unattended Sample.empty_world = (r, w')
    /\ (r = Ok 1 \/ exists e, r = Raise e)
    /\ fs w' = fs Sample.empty_world /\ calls w' = calls Sample.empty_world
    /\ stdin w' = stdin Sample.empty_world.
Proof.
  apply (incompatible_host_only_prints Sample.poky Scenario.arm Sample.unattended
           Sample.empty_world).
  right. left. split; [|left]; vm_compute; discriminate.
Defined.

Lemma declined_installation_changes_nothing_witness :
  exists w',
    install Sample.poky Sample.linux Scenario.interactive "/sdk"
      (Scenario.answering ["n"]) = (Ok 1, w')
    /\ fs w' = fs (Scenario.answering ["n"])
    /\ calls w' = calls (Scenario.answering ["n"])
    /\ stdin w' = tail (stdin (Scenario.answering ["n"])).
Proof.
  apply (declined_installation_changes_nothing Sample.poky Sample.linux
           Scenario.interactive "/sdk" (Scenario.answering ["n"])).
  - split; [simpl; lia | vm_compute; reflexivity].
  - reflexivity.
  - vm_compute. reflexivity.
Defined.

Lemma list_files_extracts_nothing_witness :
  exists w' notice,
    install (Sample.poky_with Sample.sdk_members) Sample.linux Scenario.listing
      "/sdk" Sample.empty_world = (Ok 0, w')
    /\ fs w' = fs Sample.empty_world /\ calls w' = calls Sample.empty_world
    /\ stdout w'
       = (stdout Sample.empty_world +:+ notice)
         +:+ tar_listing Sample.linux (sdk_tar (Sample.poky_with Sample.sdk_members)).
Proof.
  apply (list_files_extracts_nothing (Sample.poky_with Sample.sdk_members)
           Sample.linux Scenario.listing "/sdk" Sample.empty_world).
  - split; [simpl; lia | vm_compute; reflexivity].
  - reflexivity.
  - reflexivity.
Defined.

Lemma permission_error_is_reported_witness :
  exists w',
    extract_sdk Sample.poky Scenario.locked Sample.unattended "/sdk"
      Sample.empty_world = (Ok (Some 1), w')
    /\ fs w' = fs Sample.empty_world.
Proof.
  destruct (permission_error_is_reported Sample.poky Scenario.locked
              Sample.unattended "/sdk" Sample.empty_world) as [_ K].
  apply K; vm_compute; reflexivity.
Defined.

Lemma destination_is_a_file_witness :
  exists w',
    install Sample.poky Sample.linux Sample.unattended "/sdk" Scenario.occupied
    = (Raise FileExistsError, w')
    /\ fs w' = fs Scenario.occupied.
Proof.
  apply (destination_is_a_file Sample.poky Sample.linux Sample.unattended "/sdk"
           "notes" Scenario.occupied).
  - split; [simpl; lia | vm_compute; reflexivity].
  - reflexivity.
  - reflexivity.
  - vm_compute. reflexivity.
Defined.


Lemma standard_sdk_extracts_everything_witness :
  extracted (calls (snd (extract_members Sample.linux (extract_exclude Sample.poky)
                           "/sdk" Sample.sdk_members Sample.start Sample.empty_world)))
  = extracted (calls Sample.empty_world) ++ map Tar.name Sample.sdk_members.
Proof.
  apply (standard_sdk_extracts_everything Sample.poky Sample.linux "/sdk"
           Sample.sdk_members Sample.start Sample.empty_world
           {| current_size := 25600082; printed_checkpoints := 1 |}
           (snd (extract_members Sample.linux (extract_exclude Sample.poky)
                   "/sdk" Sample.sdk_members Sample.start Sample.empty_world))).
  - reflexivity.
  - etransitivity; [apply surjective_pairing|].
    f_equal; vm_compute; reflexivity.
Defined.

Lemma extensible_sdk_skips_its_scripts_witness :
  "sstate-cache/aa/obj"
  ∉ extracted (calls (snd (extract_members Sample.linux
                             (extract_exclude Scenario.extensible) "/sdk"
                             Sample.payload Sample.start Sample.empty_world))).
Proof.
  intros Hin.
  apply (extensible_sdk_skips_its_scripts Scenario.extensible Sample.linux "/sdk"
           Sample.payload Sample.start Sample.empty_world _ _
           "sstate-cache/aa/obj" eq_refl (surjective_pairing _)) in Hin.
  - inversion Hin.
  - right. split; vm_compute; reflexivity.
Defined.

Lemma successful_run_ran_pre_install_witness :
  (exists m, sh Sample.linux (pre_install_script (Sample.poky_with Sample.sdk_members))
               [] (fs Sample.empty_world) = Some m)
  /\ TempScript (pre_install_script (Sample.poky_with Sample.sdk_members))
     ∈ calls (snd (main (Sample.poky_with Sample.sdk_members) Sample.linux
                     Sample.unattended Sample.empty_world)).
Proof.
  apply (successful_run_ran_pre_install (Sample.poky_with Sample.sdk_members)
           Sample.linux Sample.unattended Sample.empty_world).
  - reflexivity.
  - etransitivity; [apply surjective_pairing|].
    apply (f_equal (fun r => (r, _))). vm_compute. reflexivity.
Defined.

Lemma exit_status_is_0_or_1_witness :
  exists status,
    fst (main Sample.poky Sample.linux Sample.spaced Sample.empty_world) = Ok status
    /\ (status = 0 \/ status = 1).
Proof.
  exists 1. split; [vm_compute; reflexivity|].
  apply (exit_status_is_0_or_1 Sample.poky Sample.linux Sample.spaced
           Sample.empty_world 1
           (snd (main Sample.poky Sample.linux Sample.spaced Sample.empty_world))).
  etransitivity; [apply surjective_pairing|].
  apply (f_equal (fun r => (r, _))). vm_compute. reflexivity.
Defined.

Lemma ver_lt_empty_version_witness :
  ver_lt "6.1.0" "" = Ok true /\ ver_lt "" "6.1.0" = Ok true.
Proof. apply ver_lt_empty_version; [reflexivity | discriminate]. Defined.

Lemma ver_lt_total_and_asymmetric_witness :
  exists r, ver_lt "3.9" "3.10" = Ok r /\ ver_lt "3.10" "3.9" = Ok (negb r).
Proof.
  apply ver_lt_total_and_asymmetric; (reflexivity || discriminate).
Defined.

Lemma post_relocate_removes_script_witness :
  OS.exists_
    (fs (snd (post_relocate Sample.poky Sample.linux Sample.unattended "/sdk"
                Scenario.relocated)))
    (Path.join "/sdk" "post-relocate-setup.sh")
  = false.
Proof.
  apply (post_relocate_removes_script Sample.poky Sample.linux Sample.unattended
           "/sdk" Scenario.relocated).
  - reflexivity.
  - etransitivity; [apply surjective_pairing|].
    apply (f_equal (fun r => (r, _))). vm_compute. reflexivity.
Defined.

Lemma missing_script_is_not_relocated_witness :
  exists e w',
    relocate_file Sample.poky Sample.linux "/sdk" "/sdk/environment-setup-x"
      Sample.empty_world = (Raise e, w')
    /\ (e = FileNotFoundError \/ e = TooManyLinks)
    /\ fs w' = fs Sample.empty_world /\ stdout w' = stdout Sample.empty_world.
Proof.
  apply (missing_script_is_not_relocated Sample.poky Sample.linux "/sdk"
           "/sdk/environment-setup-x" Sample.empty_world).
  vm_compute. reflexivity.
Defined.

Lemma check_env_reexecutes_witness :
  exists args,
    check_env Sample.linux "python3" ["sdk.pyz"] Scenario.login
    = EnvExec "/usr/bin/env" args
    /\ length args = (13 + length ["sdk.pyz"])%nat
    /\ (forall e, e ∈ PRESERVED_ENVS ->
                  e +:+ "=" +:+ environ_get Scenario.login e ∈ args)
    /\ "ENVCLEANED=1" ∈ args
    /\ "python3" :: ["sdk.pyz"] `suffix_of` args.
Proof.
  apply (check_env_reexecutes Sample.linux "python3" ["sdk.pyz"] Scenario.login).
  - reflexivity.
  - vm_compute. reflexivity.
Defined.

Lemma check_env_puts_sbin_on_path_witness :
  exists environ',
    check_env Sample.linux "python3" ["sdk.pyz"] Scenario.cleaned = EnvReturn environ'
    /\ environ_get environ' "PATH" = "/usr/local/bin:/usr/bin:/bin:/usr/sbin:/sbin".
Proof.
  destruct (check_env Sample.linux "python3" ["sdk.pyz"] Scenario.cleaned)
    as [environ'| |] eqn:E; try (vm_compute in E; discriminate).
  exists environ'. split; [reflexivity|].
  destruct (check_env_puts_sbin_on_path Sample.linux "python3" ["sdk.pyz"]
              Scenario.cleaned environ' eq_refl E) as (path & extra & _ & _ & _ & _).
  vm_compute in E. injection E as <-. vm_compute. reflexivity.
Defined.
